(** * cognito-lambda-sample: authentication helpers

    A shallow embedding of [utils/auth.py] and [utils/cognito.py]:
    bearer-token extraction, JWT validation with its key-set cache, the
    user-info projection and the directory client's error classification.

    Python values are embedded as a small universe of JSON-like values,
    Python [str] as a list of Unicode code points, exceptions as a sum
    type with the class hierarchy the [except] clauses dispatch on, and
    the effects (network, JWT library, provider calls, logging) as a
    state-and-exception monad over a trace of events. *)

From Stdlib Require Import List NArith ZArith Bool String Ascii Lia.
Import ListNotations.

(** ** Python strings *)

Module Py.

(** A Python [str] is a sequence of code points. *)
Definition char := N.
Definition str := list char.

(** Source literals are written as UTF-8 text and decoded to code points. *)
Fixpoint utf8_decode (bs : list N) : str :=
  match bs with
  | [] => []
  | b0 :: r0 =>
    if (b0 <? 128)%N then b0 :: utf8_decode r0
    else match r0 with
    | b1 :: r1 =>
      if (b0 <? 224)%N
      then ((b0 - 192) * 64 + (b1 - 128))%N :: utf8_decode r1
      else match r1 with
      | b2 :: r2 =>
        if (b0 <? 240)%N
        then ((b0 - 224) * 4096 + (b1 - 128) * 64 + (b2 - 128))%N
               :: utf8_decode r2
        else match r2 with
        | b3 :: r3 =>
          ((b0 - 240) * 262144 + (b1 - 128) * 4096
           + (b2 - 128) * 64 + (b3 - 128))%N :: utf8_decode r3
        | [] => []
        end
      | [] => []
      end
    | [] => []
    end
  end.

Definition lit (s : string) : str :=
  utf8_decode (map N_of_ascii (list_ascii_of_string s)).

Definition eqb (a b : str) : bool :=
  if list_eq_dec N.eq_dec a b then true else false.

(** [str.isspace] on one code point; the same class is what [str.strip()],
    [str.split()] and the regular expression [\s] use on [str]. *)
Definition isspace (c : char) : bool :=
  ((9 <=? c) && (c <=? 13) || (28 <=? c) && (c <=? 32)
   || (c =? 133) || (c =? 160) || (c =? 5760)
   || (8192 <=? c) && (c <=? 8202)
   || (c =? 8232) || (c =? 8233) || (c =? 8239) || (c =? 8287)
   || (c =? 12288))%N.

Definition newline : char := 10%N.

Fixpoint lstrip (s : str) : str :=
  match s with
  | c :: s' => if isspace c then lstrip s' else s
  | [] => []
  end.

Definition rstrip (s : str) : str := rev (lstrip (rev s)).

(** [s.strip()] *)
Definition strip (s : str) : str := rstrip (lstrip s).

(** [s.split()]: the maximal runs of non-whitespace, in order.  [cur] is
    the word being read, kept reversed. *)
Fixpoint split_aux (cur : str) (s : str) : list str :=
  match s with
  | [] => match cur with [] => [] | _ => [rev cur] end
  | c :: s' =>
    if isspace c
    then match cur with
         | [] => split_aux [] s'
         | _ => rev cur :: split_aux [] s'
         end
    else split_aux (c :: cur) s'
  end.

Definition split (s : str) : list str := split_aux [] s.

(** The simple lower-case mapping of one code point, as the regular
    expression engine applies it under [re.IGNORECASE].  Only the code
    points whose image is an ASCII letter are tabulated: the Latin capitals,
    U+0130 and the Kelvin sign U+212A.  Every other code point is left
    unchanged here; its real image is never an ASCII letter, which is all
    that a comparison with an ASCII pattern depends on. *)
Definition tolower (c : char) : char :=
  if ((65 <=? c) && (c <=? 90))%N then (c + 32)%N
  else if (c =? 304)%N then 105%N
  else if (c =? 8490)%N then 107%N
  else c.

(** [s.lower()]: the full mapping, which differs from the simple one at
    U+0130 (it becomes [i] followed by U+0307).  Other code points as in
    [tolower]. *)
Definition lower1 (c : char) : str :=
  if (c =? 304)%N then [105%N; 775%N] else [tolower c].

Definition lower (s : str) : str := flat_map lower1 s.

End Py.

Notation "'s!' x" := (Py.lit x%string) (at level 1, x at level 0, only parsing).

(** ** Python values *)

(** The values JSON documents, headers and claims are made of.  Numbers
    are integers: a [float] is not represented. *)

#[warnings="-register-all"]
Inductive value : Type :=
| VNone
| VBool (b : bool)
| VInt (n : Z)
| VStr (s : Py.str)
| VList (l : list value)
| VDict (d : list (Py.str * value)).

(** A [dict] with [str] keys is an association list in insertion order;
    keys are distinct, so the first entry for a key is the only one. *)
Definition dict := list (Py.str * value).

Fixpoint assoc (k : Py.str) (d : dict) : option value :=
  match d with
  | [] => None
  | (k', v) :: d' => if Py.eqb k' k then Some v else assoc k d'
  end.

(** [d.get(k)] and [d.get(k, default)] *)
Definition dict_get (d : dict) (k : Py.str) : value :=
  match assoc k d with Some v => v | None => VNone end.

Definition dict_get_default (d : dict) (k : Py.str) (dflt : value) : value :=
  match assoc k d with Some v => v | None => dflt end.

(** Truthiness, as [not x] and [if x] test it. *)
Definition truthy (v : value) : bool :=
  match v with
  | VNone => false
  | VBool b => b
  | VInt n => negb (n =? 0)%Z
  | VStr s => match s with [] => false | _ => true end
  | VList l => match l with [] => false | _ => true end
  | VDict d => match d with [] => false | _ => true end
  end.

(** [a == b] on values.  [bool] is a subclass of [int]; lists compare
    element by element; dicts compare as mappings. *)
Fixpoint py_eq (a b : value) {struct a} : bool :=
  match a, b with
  | VNone, VNone => true
  | VBool x, VBool y => Bool.eqb x y
  | VBool x, VInt n => ((if x then 1 else 0) =? n)%Z
  | VInt n, VBool x => (n =? (if x then 1 else 0))%Z
  | VInt n, VInt m => (n =? m)%Z
  | VStr s, VStr t => Py.eqb s t
  | VList xs, VList ys =>
    (fix all2 (xs : list value) (ys : list value) : bool :=
       match xs, ys with
       | [], [] => true
       | x :: xs', y :: ys' => py_eq x y && all2 xs' ys'
       | _, _ => false
       end) xs ys
  | VDict d, VDict e =>
    (List.length d =? List.length e)%nat &&
    (fix each (d : list (Py.str * value)) : bool :=
       match d with
       | [] => true
       | (k, v) :: d' =>
         match assoc k e with
         | Some w => py_eq v w
         | None => false
         end && each d'
       end) d
  | _, _ => false
  end.

(** [type(v).__name__], for the text of attribute and type errors. *)
Definition type_name (v : value) : Py.str :=
  match v with
  | VNone => s!"NoneType"
  | VBool _ => s!"bool"
  | VInt _ => s!"int"
  | VStr _ => s!"str"
  | VList _ => s!"list"
  | VDict _ => s!"dict"
  end.

(** ** Exceptions *)

(** The four error classes of [utils/cognito.py], subclasses of
    [CognitoError]. *)
Inductive category : Type :=
| AuthenticationError
| AuthorizationError
| ValidationError
| ServiceError.

(** Library exception classes the [except] clauses name.
    [InvalidTokenError] also stands for its subclasses that are not listed
    ([InvalidAudienceError], [ImmatureSignatureError], ...);
    [OtherException] stands for every other subclass of [Exception]
    ([AttributeError], [TypeError], PyJWT's [InvalidKeyError], ...). *)
Inductive lib_class : Type :=
| ExpiredSignatureError
| DecodeError
| InvalidSignatureError
| InvalidTokenError
| RequestException
| OtherException.

(** An exception value.  [text] is what [str(e)] gives for a library
    exception; a [ClientError] also carries [response['Error']['Code']] and
    [response['Error']['Message']]. *)
#[warnings="-register-all"]
Inductive exn : Type :=
| CognitoError (cat : category) (message : Py.str)
               (error_code : option Py.str) (original_error : option exn)
| ClientError (code : Py.str) (message : Py.str) (text : Py.str)
| LibError (cls : lib_class) (text : Py.str).

Definition category_eqb (a b : category) : bool :=
  match a, b with
  | AuthenticationError, AuthenticationError
  | AuthorizationError, AuthorizationError
  | ValidationError, ValidationError
  | ServiceError, ServiceError => true
  | _, _ => false
  end.

(** PyJWT's hierarchy: [InvalidSignatureError] < [DecodeError] <
    [InvalidTokenError], and [ExpiredSignatureError] < [InvalidTokenError]. *)
Definition subclass (c d : lib_class) : bool :=
  match c, d with
  | ExpiredSignatureError, (ExpiredSignatureError | InvalidTokenError) => true
  | DecodeError, (DecodeError | InvalidTokenError) => true
  | InvalidSignatureError,
    (InvalidSignatureError | DecodeError | InvalidTokenError) => true
  | InvalidTokenError, InvalidTokenError => true
  | RequestException, RequestException => true
  | OtherException, OtherException => true
  | _, _ => false
  end.

Definition isinstance_lib (e : exn) (d : lib_class) : bool :=
  match e with
  | LibError c _ => subclass c d
  | _ => false
  end.

Definition isinstance_cognito (e : exn) (cat : category) : bool :=
  match e with
  | CognitoError c _ _ _ => category_eqb c cat
  | _ => false
  end.

Definition isinstance_ClientError (e : exn) : bool :=
  match e with
  | ClientError _ _ _ => true
  | _ => false
  end.

(** [str(e)] *)
Definition exn_str (e : exn) : Py.str :=
  match e with
  | CognitoError _ m _ _ => m
  | ClientError _ _ t => t
  | LibError _ t => t
  end.

Definition AttributeError (v : value) (attr : Py.str) : exn :=
  LibError OtherException
    (s!"'" ++ type_name v ++ s!"' object has no attribute '" ++ attr ++ s!"'").

Definition TypeError_not_iterable (v : value) : exn :=
  LibError OtherException
    (s!"'" ++ type_name v ++ s!"' object is not iterable").

(** ** Effects *)

(** What the code does to the outside world, in order. *)
Inductive event : Type :=
| GetUnverifiedHeader (token : value)
| HttpGet (url : Py.str) (timeout : Z)
| FromJwk (key : value)
| JwtDecode (token : value)
| InitiateAuth (client_id : Py.str) (username password : value)
| LogWarning (msg : Py.str)
| LogError (msg : Py.str).

Definition trace := list event.

Inductive result (A : Type) : Type :=
| Return (a : A)
| Raise (e : exn).

Arguments Return {A} a.
Arguments Raise {A} e.

(** A computation over a state [S] that returns or raises; the state
    survives a raise, as an object mutated before an exception does. *)
Definition M (S A : Type) : Type := S -> result A * S.

Definition ret {S A} (a : A) : M S A := fun s => (Return a, s).

Definition raise {S A} (e : exn) : M S A := fun s => (Raise e, s).

Definition bind {S A B} (m : M S A) (k : A -> M S B) : M S B :=
  fun s =>
    match m s with
    | (Return a, s') => k a s'
    | (Raise e, s') => (Raise e, s')
    end.

(** [try: m except Exception as e: h e] *)
Definition try_except {S A} (m : M S A) (h : exn -> M S A) : M S A :=
  fun s =>
    match m s with
    | (Return a, s') => (Return a, s')
    | (Raise e, s') => h e s'
    end.

(** A pure step that may raise. *)
Definition lift {S A} (r : result A) : M S A := fun s => (r, s).

Declare Scope monad_scope.
Delimit Scope monad_scope with monad.
Notation "x <- m ;; k" := (bind m (fun x => k))
  (at level 61, m at next level, right associativity) : monad_scope.
Notation "m ;; k" := (bind m (fun _ => k))
  (at level 61, right associativity) : monad_scope.
Open Scope monad_scope.

(** [v.get(k, default)]: only a [dict] has the method. *)
Definition value_get (v : value) (k : Py.str) (dflt : value) : result value :=
  match v with
  | VDict d => Return (dict_get_default d k dflt)
  | _ => Raise (AttributeError v s!"get")
  end.

(** The items [for x in v] visits. *)
Definition iterate (v : value) : result (list value) :=
  match v with
  | VList l => Return l
  | VDict d => Return (map (fun kv => VStr (fst kv)) d)
  | VStr s => Return (map (fun c => VStr [c]) s)
  | _ => Raise (TypeError_not_iterable v)
  end.

(** ** Header and event extraction ([utils/auth.py]) *)

(** The pieces of a backtracking matcher the pattern
    [^Bearer\s+(.+)$] with [re.IGNORECASE] needs. *)
Module Re.

Section Matcher.
Variable R : Type.

(** A literal, each character compared through the simple lower-case
    mapping. *)
Fixpoint literal_ignorecase (p : Py.str) (k : Py.str -> option R)
    (s : Py.str) : option R :=
  match p with
  | [] => k s
  | pc :: p' =>
    match s with
    | c :: s' =>
      if (Py.tolower c =? Py.tolower pc)%N
      then literal_ignorecase p' k s'
      else None
    | [] => None
    end
  end.

(** Greedy repetition of a character class: the longest run is tried
    first, and a character is given back each time the continuation
    fails.  [acc] is the text consumed so far. *)
Fixpoint star (p : Py.char -> bool) (k : Py.str -> Py.str -> option R)
    (acc : Py.str) (s : Py.str) : option R :=
  match s with
  | c :: s' =>
    if p c
    then match star p k (acc ++ [c]) s' with
         | Some r => Some r
         | None => k acc s
         end
    else k acc s
  | [] => k acc []
  end.

Definition plus (p : Py.char -> bool) (k : Py.str -> Py.str -> option R)
    (s : Py.str) : option R :=
  match s with
  | c :: s' => if p c then star p k [c] s' else None
  | [] => None
  end.

End Matcher.

Arguments literal_ignorecase {R} p k s.
Arguments star {R} p k acc s.
Arguments plus {R} p k s.

(** [.] without [re.DOTALL] *)
Definition dot (c : Py.char) : bool := negb (c =? Py.newline)%N.

(** [$] without [re.MULTILINE]: the end of the string, or just before a
    newline that ends it. *)
Definition at_end (s : Py.str) : bool :=
  match s with
  | [] => true
  | [c] => (c =? Py.newline)%N
  | _ => false
  end.

(** [re.compile(r'^Bearer\s+(.+)$', re.IGNORECASE).match(s)], giving
    [match.group(1)]. *)
Definition bearer_pattern_match (s : Py.str) : option Py.str :=
  literal_ignorecase s!"Bearer"
    (plus Py.isspace
       (fun _ rest =>
          plus dot (fun g rest' => if at_end rest' then Some g else None)
            rest))
    s.

End Re.

Definition msg_auth_required : Py.str := s!"認証が必要です".
Definition msg_invalid_header : Py.str := s!"認証ヘッダーが無効です".
Definition msg_invalid_token : Py.str := s!"トークンが無効です".
Definition msg_token_expired : Py.str := s!"トークンの有効期限が切れています".

(** [SomeError("message")] *)
Definition error (cat : category) (message : Py.str) : exn :=
  CognitoError cat message None None.

Definition extract_token_from_header (authorization_header : value)
  : result Py.str :=
  if negb (truthy authorization_header)
  then Raise (error ValidationError msg_auth_required)
  else
    match authorization_header with
    | VStr s =>
      match Re.bearer_pattern_match (Py.strip s) with
      | None => Raise (error AuthorizationError msg_invalid_header)
      | Some token =>
        if negb (truthy (VStr token))
        then Raise (error AuthorizationError msg_invalid_header)
        else Return token
      end
    | v => Raise (AttributeError v s!"strip")
    end.

(** The loop over [headers.items()]: the value of the first key whose
    lower-case form is [authorization], or [None]. *)
Fixpoint find_auth_header (items : list (Py.str * value)) : value :=
  match items with
  | [] => VNone
  | (key, v) :: items' =>
    if Py.eqb (Py.lower key) s!"authorization" then v
    else find_auth_header items'
  end.

Definition extract_token_from_event (event : dict) : result Py.str :=
  match dict_get_default event s!"headers" (VDict []) with
  | VDict headers =>
    let auth_header := find_auth_header headers in
    if negb (truthy auth_header)
    then Raise (error ValidationError msg_auth_required)
    else extract_token_from_header auth_header
  | v => Raise (AttributeError v s!"items")
  end.

(** ** The outside world *)

(** What [requests.get] returns: the two methods the code calls on it. *)
Record response : Type := {
  raise_for_status : result unit;
  json : result value
}.

(** The libraries the code calls.  PyJWT's functions are taken at one
    reading of the clock; the network and the identity provider may answer
    differently from one call to the next, so they see the events so far. *)
Record library : Type := {
  public_key : Type;
  (** [jwt.get_unverified_header(token)] *)
  jwt_get_unverified_header : value -> result dict;
  (** [jwt.algorithms.RSAAlgorithm.from_jwk(key)] *)
  jwt_from_jwk : value -> result public_key;
  (** [jwt.decode(token, key, algorithms=['RS256'], audience=None,
      options={verify_aud: False, verify_exp: True, verify_signature: True})] *)
  jwt_decode : value -> public_key -> result dict;
  (** [requests.get(url, timeout=...)] *)
  requests_get : trace -> Py.str -> Z -> result response;
  (** [client.initiate_auth(ClientId=..., AuthFlow='USER_PASSWORD_AUTH',
      AuthParameters={'USERNAME': ..., 'PASSWORD': ...})] *)
  initiate_auth : trace -> Py.str -> value -> value -> result value
}.

(** The state of a method call: the object it runs on and the events so
    far. *)
Record st (O : Type) : Type := St { self : O; world : trace }.

Arguments St {O} self world.
Arguments self {O} s.
Arguments world {O} s.

Definition emit {O} (e : event) : M (st O) unit :=
  fun s => (Return tt, St (self s) (world s ++ [e])).

Definition history {O} : M (st O) trace :=
  fun s => (Return (world s), s).

Definition get_self {O} : M (st O) O :=
  fun s => (Return (self s), s).

Definition set_self {O} (o : O) : M (st O) unit :=
  fun s => (Return tt, St o (world s)).

(** A method call on an object local to the caller. *)
Definition with_object {O P A} (o : O) (m : M (st O) A) : M (st P) A :=
  fun s =>
    let (r, s') := m (St o (world s)) in
    (r, St (self s) (world s')).

(** ** Token validation ([utils/auth.py]) *)

Module TokenValidator.

Record t : Type := {
  user_pool_id : Py.str;
  region : Py.str;
  jwks_url : Py.str;
  _jwks_cache : value
}.

Definition __init__ (user_pool_id region : Py.str) : t :=
  {| user_pool_id := user_pool_id;
     region := region;
     jwks_url :=
       s!"https://cognito-idp." ++ region ++ s!".amazonaws.com/"
       ++ user_pool_id ++ s!"/.well-known/jwks.json";
     _jwks_cache := VNone |}.

(** [self._jwks_cache = v] *)
Definition set_jwks_cache (v : value) : M (st t) unit :=
  o <- get_self ;;
  set_self {| user_pool_id := user_pool_id o;
              region := region o;
              jwks_url := jwks_url o;
              _jwks_cache := v |}.

Section Methods.
Variable lib : library.

(** The [try] block that fills the cache. *)
Definition fetch_jwks : M (st t) unit :=
  o <- get_self ;;
  try_except
    (h <- history ;;
     emit (HttpGet (jwks_url o) 10) ;;
     response <- lift (requests_get lib h (jwks_url o) 10) ;;
     lift (raise_for_status response) ;;
     doc <- lift (json response) ;;
     set_jwks_cache doc)
    (fun e =>
       if isinstance_lib e RequestException
       then raise (error ServiceError
                     (s!"JWKS取得に失敗しました: " ++ exn_str e))
       else raise e).

(** The loop over the key list. *)
Fixpoint find_key (keys : list value) (kid : value)
  : M (st t) (public_key lib) :=
  match keys with
  | [] => raise (error AuthorizationError msg_invalid_token)
  | key :: keys' =>
    k <- lift (value_get key s!"kid" VNone) ;;
    if py_eq k kid
    then emit (FromJwk key) ;; lift (jwt_from_jwk lib key)
    else find_key keys' kid
  end.

Definition _get_public_key (kid : value) : M (st t) (public_key lib) :=
  o <- get_self ;;
  (if negb (truthy (_jwks_cache o)) then fetch_jwks else ret tt) ;;
  o <- get_self ;;
  keys <- lift (value_get (_jwks_cache o) s!"keys" (VList [])) ;;
  items <- lift (iterate keys) ;;
  find_key items kid.

Definition validate_token (token : value) : M (st t) dict :=
  if negb (truthy token)
  then raise (error ValidationError s!"Token is required")
  else
    try_except
      (emit (GetUnverifiedHeader token) ;;
       unverified_header <- lift (jwt_get_unverified_header lib token) ;;
       let kid := dict_get unverified_header s!"kid" in
       if negb (truthy kid)
       then raise (error AuthorizationError msg_invalid_token)
       else
         key <- _get_public_key kid ;;
         emit (JwtDecode token) ;;
         payload <- lift (jwt_decode lib token key) ;;
         let token_use := dict_get payload s!"token_use" in
         if negb (py_eq token_use (VStr s!"access"))
         then raise (error AuthorizationError msg_invalid_token)
         else ret payload)
      (fun e =>
         if isinstance_lib e ExpiredSignatureError
         then raise (error AuthorizationError msg_token_expired)
         else if isinstance_lib e DecodeError
                 || isinstance_lib e InvalidTokenError
                 || isinstance_lib e InvalidSignatureError
         then raise (error AuthorizationError msg_invalid_token)
         else if isinstance_cognito e AuthorizationError
                 || isinstance_cognito e ValidationError
                 || isinstance_cognito e ServiceError
         then raise e
         else
           emit (LogError (s!"Token validation error: " ++ exn_str e)) ;;
           raise (error ServiceError
                    (s!"トークン検証中にエラーが発生しました: "
                     ++ exn_str e))).

End Methods.

End TokenValidator.

(** The [dict] that [validate_and_extract_user_info] returns for a
    validated payload. *)
Definition user_info_of_payload (payload : dict) : result dict :=
  match
    (if truthy (dict_get payload s!"scope")
     then match dict_get_default payload s!"scope" (VStr s!"") with
          | VStr s => Return (VList (map VStr (Py.split s)))
          | v => Raise (AttributeError v s!"split")
          end
     else Return (VList []))
  with
  | Raise e => Raise e
  | Return scope =>
    Return [ (s!"user_id", dict_get payload s!"sub");
             (s!"username", dict_get payload s!"username");
             (s!"client_id", dict_get payload s!"client_id");
             (s!"token_use", dict_get payload s!"token_use");
             (s!"scope", scope);
             (s!"auth_time", dict_get payload s!"auth_time");
             (s!"iat", dict_get payload s!"iat");
             (s!"exp", dict_get payload s!"exp") ]
  end.

Definition validate_and_extract_user_info (lib : library)
    (token : value) (user_pool_id region : Py.str) : M (st unit) dict :=
  if negb (truthy token)
  then raise (error ValidationError msg_auth_required)
  else if negb (truthy (VStr user_pool_id))
  then raise (error ValidationError s!"User pool ID is required")
  else
    payload <- with_object (TokenValidator.__init__ user_pool_id region)
                 (TokenValidator.validate_token lib token) ;;
    lift (user_info_of_payload payload).

Definition require_authentication (lib : library)
    (event : dict) (user_pool_id region : Py.str) : M (st unit) dict :=
  token <- lift (extract_token_from_event event) ;;
  validate_and_extract_user_info lib (VStr token) user_pool_id region.

(** ** The directory client ([utils/cognito.py]) *)

Module CognitoClient.

Record t : Type := {
  user_pool_id : Py.str;
  client_id : Py.str;
  region : Py.str
}.

(** [x in [a, b, ...]] on strings *)
Definition str_in (x : Py.str) (l : list Py.str) : bool :=
  existsb (Py.eqb x) l.

Definition _normalize_auth_response (response : value) : result dict :=
  match value_get response s!"AuthenticationResult" (VDict []) with
  | Raise e => Raise e
  | Return auth_result =>
    match auth_result with
    | VDict d =>
      Return [ (s!"access_token", dict_get d s!"AccessToken");
               (s!"refresh_token", dict_get d s!"RefreshToken");
               (s!"id_token", dict_get d s!"IdToken");
               (s!"token_type",
                dict_get_default d s!"TokenType" (VStr s!"Bearer"));
               (s!"expires_in",
                dict_get_default d s!"ExpiresIn" (VInt 3600)) ]
    | v => Raise (AttributeError v s!"get")
    end
  end.

(** [error] is the [ClientError] with the given code, message and text.
    The method logs, then always raises. *)
Definition _handle_client_error (error_code error_message text : Py.str)
    (context : Py.str) : M (st unit) unit :=
  let error := ClientError error_code error_message text in
  emit (LogWarning
          (context ++ s!": " ++ error_code ++ s!" - " ++ error_message)) ;;
  if str_in error_code
       [ s!"NotAuthorizedException"; s!"UserNotFoundException";
         s!"UserNotConfirmedException"; s!"PasswordResetRequiredException" ]
  then raise (CognitoError AuthenticationError s!"認証に失敗しました"
                (Some error_code) (Some error))
  else if str_in error_code
            [ s!"AccessDeniedException"; s!"UnauthorizedOperation" ]
  then raise (CognitoError AuthorizationError s!"アクセスが拒否されました"
                (Some error_code) (Some error))
  else if str_in error_code
            [ s!"InvalidParameterException"; s!"InvalidPasswordException";
              s!"UsernameExistsException"; s!"AliasExistsException" ]
  then raise (CognitoError ValidationError
                (s!"リクエストが不正です: " ++ error_message)
                (Some error_code) (Some error))
  else if str_in error_code
            [ s!"InternalErrorException"; s!"TooManyRequestsException";
              s!"ResourceNotFoundException" ]
  then raise (CognitoError ServiceError
                (s!"サービスエラーが発生しました: " ++ error_message)
                (Some error_code) (Some error))
  else raise (CognitoError ServiceError
                (s!"予期しないエラーが発生しました: " ++ error_message)
                (Some error_code) (Some error)).

Definition authenticate (lib : library) (o : t) (email password : value)
  : M (st unit) value :=
  if negb (truthy email) || negb (truthy password)
  then raise (error ValidationError s!"Email and password are required")
  else
    try_except
      (h <- history ;;
       emit (InitiateAuth (client_id o) email password) ;;
       response <- lift (initiate_auth lib h (client_id o) email password) ;;
       r <- lift (_normalize_auth_response response) ;;
       ret (VDict r))
      (fun e =>
         match e with
         | ClientError c m txt =>
           _handle_client_error c m txt s!"Authentication failed" ;;
           ret VNone
         | _ =>
           raise (CognitoError ServiceError
                    (s!"Unexpected error during authentication: "
                     ++ exn_str e)
                    None (Some e))
         end).

End CognitoClient.

(** ** A small world to run the code in *)

Module Sample.

Definition jwk (kid : string) : value :=
  VDict [ (s!"kid", VStr (Py.lit kid)); (s!"kty", VStr s!"RSA");
          (s!"n", VStr s!"test_n"); (s!"e", VStr s!"AQAB") ].

Definition jwks : value := VDict [ (s!"keys", VList [ jwk "k1" ]) ].

Definition ok_response (doc : value) : response :=
  {| raise_for_status := Return tt; json := Return doc |}.

Definition header_of (token : value) : result dict :=
  if py_eq token (VStr s!"nokid.jwt") then Return []
  else if py_eq token (VStr s!"garbage") then
    Raise (LibError DecodeError s!"Not enough segments")
  else if py_eq token (VStr s!"otherkid.jwt") then
    Return [ (s!"kid", VStr s!"k9") ]
  else Return [ (s!"kid", VStr s!"k1"); (s!"alg", VStr s!"RS256") ].

Definition claims (token_use : string) : dict :=
  [ (s!"sub", VStr s!"user123"); (s!"username", VStr s!"testuser");
    (s!"client_id", VStr s!"test_client");
    (s!"token_use", VStr (Py.lit token_use));
    (s!"scope", VStr s!"openid profile email");
    (s!"auth_time", VInt 1234567890); (s!"iat", VInt 1234567890);
    (s!"exp", VInt 1234571490) ].

Definition decode_of (token : value) (key : unit) : result dict :=
  if py_eq token (VStr s!"expired.jwt") then
    Raise (LibError ExpiredSignatureError s!"Signature has expired")
  else if py_eq token (VStr s!"badsig.jwt") then
    Raise (LibError InvalidSignatureError s!"Signature verification failed")
  else if py_eq token (VStr s!"id.jwt") then Return (claims "id")
  else if py_eq token (VStr s!"nouse.jwt") then
    Return [ (s!"sub", VStr s!"user123") ]
  else Return (claims "access").

(** A world whose key endpoint serves [jwks] every time. *)
Definition lib : library :=
  {| public_key := unit;
     jwt_get_unverified_header := header_of;
     jwt_from_jwk := fun _ => Return tt;
     jwt_decode := decode_of;
     requests_get := fun _ _ _ => Return (ok_response jwks);
     initiate_auth := fun _ _ _ _ =>
       Return (VDict [ (s!"AuthenticationResult",
                        VDict [ (s!"AccessToken", VStr s!"a.b.c") ]) ]) |}.

(** A world whose key endpoint first serves an empty document, then
    [jwks]. *)
Definition lib_empty_first : library :=
  {| public_key := unit;
     jwt_get_unverified_header := header_of;
     jwt_from_jwk := fun _ => Return tt;
     jwt_decode := decode_of;
     requests_get := fun h _ _ =>
       match h with
       | [] => Return (ok_response (VDict []))
       | _ => Return (ok_response jwks)
       end;
     initiate_auth := fun _ _ _ _ => Raise (LibError OtherException s!"") |}.

Definition validator : TokenValidator.t :=
  TokenValidator.__init__ s!"ap-northeast-1_test123" s!"ap-northeast-1".

Definition start : st TokenValidator.t := St validator [].

Definition client : CognitoClient.t :=
  {| CognitoClient.user_pool_id := s!"ap-northeast-1_test123";
     CognitoClient.client_id := s!"test_client";
     CognitoClient.region := s!"ap-northeast-1" |}.

End Sample.

(** ** Vocabulary of the statements *)

(** "Empty or missing": the empty string, or [None]. *)
Definition empty_or_missing (v : value) : Prop := v = VNone \/ v = VStr [].

(** The number of fetches of the key-discovery document in a trace. *)
Fixpoint fetches (tr : trace) : nat :=
  match tr with
  | [] => 0
  | HttpGet _ _ :: tr' => S (fetches tr')
  | _ :: tr' => fetches tr'
  end.

(** The number of provider calls in a trace. *)
Fixpoint provider_calls (tr : trace) : nat :=
  match tr with
  | [] => 0
  | InitiateAuth _ _ _ :: tr' => S (provider_calls tr')
  | _ :: tr' => provider_calls tr'
  end.

(** A method call on a validator instance, and a caller's successive
    calls on one instance, whatever each returns or raises. *)
Inductive call : Type :=
| GetPublicKey (kid : value)
| ValidateToken (token : value).

Definition run_call (lib : library) (c : call) (s : st TokenValidator.t)
  : st TokenValidator.t :=
  match c with
  | GetPublicKey kid => snd (TokenValidator._get_public_key lib kid s)
  | ValidateToken token => snd (TokenValidator.validate_token lib token s)
  end.

Fixpoint run_calls (lib : library) (calls : list call)
    (s : st TokenValidator.t) : st TokenValidator.t :=
  match calls with
  | [] => s
  | c :: calls' => run_calls lib calls' (run_call lib c s)
  end.

(** The key endpoint answers the next fetch with the document [doc]. *)
Definition fetch_succeeds (lib : library) (s : st TokenValidator.t)
    (doc : value) : Prop :=
  exists resp,
    requests_get lib (world s) (TokenValidator.jwks_url (self s)) 10
    = Return resp
    /\ raise_for_status resp = Return tt
    /\ json resp = Return doc.

(** A key-discovery document: a JSON object with a [keys] array, here
    the array [keys]. *)
Definition key_discovery_document (doc : value) (keys : list value)
  : Prop :=
  exists d, doc = VDict d /\ assoc s!"keys" d = Some (VList keys).

(** The document the next key lookup scans: the cached one, or the one
    fetched when nothing is cached. *)
Definition key_set_in_force (lib : library) (s : st TokenValidator.t)
    (doc : value) : Prop :=
  (truthy (TokenValidator._jwks_cache (self s)) = true
   /\ doc = TokenValidator._jwks_cache (self s))
  \/ (truthy (TokenValidator._jwks_cache (self s)) = false
      /\ fetch_succeeds lib s doc).

(** A well-formed key set none of whose keys has the identifier [kid]. *)
Definition kid_absent (doc : value) (kid : value) : Prop :=
  exists d keys,
    doc = VDict d
    /\ dict_get_default d s!"keys" (VList []) = VList keys
    /\ Forall (fun key => exists kd,
                 key = VDict kd /\ py_eq (dict_get kd s!"kid") kid = false)
         keys.

(** The state in which [validate_token] looks the key up: the header has
    been parsed. *)
Definition after_header (token : value) (s : st TokenValidator.t)
  : st TokenValidator.t :=
  St (self s) (world s ++ [GetUnverifiedHeader token]).

(** The header parses, names a key, the key is found, and [jwt.decode]
    ends with [outcome]. *)
Definition decodes_to (lib : library) (token : value)
    (s : st TokenValidator.t) (outcome : result dict) : Prop :=
  exists h key s1,
    jwt_get_unverified_header lib token = Return h
    /\ truthy (dict_get h s!"kid") = true
    /\ TokenValidator._get_public_key lib (dict_get h s!"kid")
         (after_header token s) = (Return key, s1)
    /\ jwt_decode lib token key = outcome.

Definition generic_invalid_token : exn :=
  error AuthorizationError msg_invalid_token.

(** An event with a single header [key: v]. *)
Definition event_with (key : string) (v : value) : dict :=
  [ (s!"headers", VDict [ (Py.lit key, v) ]) ].

(** Whitespace only; no whitespace at the front; none at the back. *)
Definition spaces (s : Py.str) : Prop :=
  Forall (fun c => Py.isspace c = true) s.

Definition starts_nonspace (s : Py.str) : Prop :=
  forall c s', s = c :: s' -> Py.isspace c = false.

Definition ends_nonspace (s : Py.str) : Prop :=
  forall s' c, s = s' ++ [c] -> Py.isspace c = false.

(** The shape the bearer pattern accepts, with the token it captures. *)
Definition is_bearer (scheme : Py.str) : Prop :=
  map Py.tolower scheme = s!"bearer".

Definition bearer_shape (s tok : Py.str) : Prop :=
  exists scheme ws,
    s = scheme ++ ws ++ tok
    /\ is_bearer scheme
    /\ ws <> [] /\ spaces ws
    /\ tok <> [] /\ starts_nonspace tok /\ ~ In Py.newline tok.

(** [(.+)$]: the capture is the rest of the line. *)
Definition capture_to_end : Py.str -> option Py.str :=
  Re.plus Re.dot (fun g rest' => if Re.at_end rest' then Some g else None).

Definition nonspaces (s : Py.str) : Prop :=
  Forall (fun c => Py.isspace c = false) s.

(** ** More of Python *)

Definition KeyError (k : Py.str) : exn :=
  LibError OtherException (s!"'" ++ k ++ s!"'").

Definition TypeError (text : Py.str) : exn := LibError OtherException text.

(** [v[k]] for a string key [k].  The texts of the type errors are
    CPython 3.11's. *)
Definition subscript (v : value) (k : Py.str) : result value :=
  match v with
  | VDict d =>
    match assoc k d with
    | Some x => Return x
    | None => Raise (KeyError k)
    end
  | VList _ =>
    Raise (TypeError s!"list indices must be integers or slices, not str")
  | VStr _ => Raise (TypeError s!"string indices must be integers, not 'str'")
  | _ =>
    Raise (TypeError (s!"'" ++ type_name v ++ s!"' object is not subscriptable"))
  end.

(** A [dict] built by the code, whose keys are whatever hashable values
    it is given: an association list in insertion order, keys compared
    with [==]. *)
Definition vdict := list (value * value).

Fixpoint vdict_get (d : vdict) (k : value) : value :=
  match d with
  | [] => VNone
  | (k', v) :: d' => if py_eq k' k then v else vdict_get d' k
  end.

(** [d[k] = v]: a [list] or a [dict] cannot be a key; an existing key keeps
    its place and takes the new value. *)
Fixpoint vdict_store (d : vdict) (k v : value) : vdict :=
  match d with
  | [] => [(k, v)]
  | (k', v') :: d' =>
    if py_eq k' k then (k', v) :: d' else (k', v') :: vdict_store d' k v
  end.

Definition vdict_setitem (d : vdict) (k v : value) : result vdict :=
  match k with
  | VList _ | VDict _ =>
    Raise (TypeError (s!"unhashable type: '" ++ type_name k ++ s!"'"))
  | _ => Return (vdict_store d k v)
  end.

(** [a or b] on optional strings. *)
Definition or_else (a b : option Py.str) : option Py.str :=
  match a with
  | Some (_ :: _) => a
  | _ => b
  end.

(** ** The response builders ([utils/auth.py]) *)

Definition cors_headers : value :=
  VDict
    [ (s!"Content-Type", VStr s!"application/json");
      (s!"Access-Control-Allow-Origin", VStr s!"*");
      (s!"Access-Control-Allow-Headers",
       VStr s!"Content-Type,X-Amz-Date,Authorization,X-Api-Key,X-Amz-Security-Token");
      (s!"Access-Control-Allow-Methods", VStr s!"GET,POST,PUT,DELETE,OPTIONS") ].

(** [status_code] is an [int] or [None]. *)
Definition create_auth_error_response (error : exn) (status_code : option Z)
  : dict :=
  let '(default_status, error_type) :=
    if isinstance_cognito error ValidationError
    then (400%Z, s!"BadRequest")
    else if isinstance_cognito error AuthenticationError
    then (401%Z, s!"AuthenticationFailed")
    else if isinstance_cognito error AuthorizationError
    then (401%Z, s!"Unauthorized")
    else if isinstance_cognito error ServiceError
    then (503%Z, s!"ServiceUnavailable")
    else (500%Z, s!"InternalServerError") in
  let response_status :=
    match status_code with
    | Some n => if truthy (VInt n) then n else default_status
    | None => default_status
    end in
  [ (s!"statusCode", VInt response_status);
    (s!"headers", cors_headers);
    (s!"body",
     VDict [ (s!"error", VStr error_type);
             (s!"message", VStr (exn_str error)) ]) ].

(** The default of [status_code] is 200. *)
Definition create_success_response (data : value) (status_code : value)
  : dict :=
  [ (s!"statusCode", status_code);
    (s!"headers", cors_headers);
    (s!"body", data) ].

(** ** The other methods of the directory client ([utils/cognito.py]) *)

Module Provider.

(** The calls the methods make on the boto3 client, with their keyword
    arguments. *)
Inductive call : Type :=
| GlobalSignOut (AccessToken : value)
| GetUser (AccessToken : value)
| AdminCreateUser (UserPoolId : Py.str) (Username : value)
    (UserAttributes : list value) (TemporaryPassword : value)
    (MessageAction : Py.str)
| AdminDeleteUser (UserPoolId : Py.str) (Username : value).

(** The provider's answer to a call, given the calls made before. *)
Definition t : Type := list call -> call -> result value.

End Provider.

(** The state of these methods: the calls made on the client so far, and
    the events so far. *)
Definition dstate : Type := st (list Provider.call).

Definition invoke (client : Provider.t) (c : Provider.call)
  : M dstate value :=
  fun s => (client (self s) c, St (self s ++ [c]) (world s)).

Module Directory.

(** [os.getenv] *)
Definition environ : Type := Py.str -> option Py.str.

Definition getenv_default (env : environ) (k dflt : Py.str) : Py.str :=
  match env k with
  | Some v => v
  | None => dflt
  end.

Definition is_set (v : option Py.str) : bool :=
  match v with
  | Some (_ :: _) => true
  | _ => false
  end.

(** [CognitoClient(user_pool_id, client_id, region)]; [boto3_client] is
    [boto3.client('cognito-idp', region_name=...)], which returns the
    client or raises. *)
Definition __init__ (env : environ) (boto3_client : Py.str -> result unit)
    (user_pool_id client_id region : option Py.str)
  : result CognitoClient.t :=
  let user_pool_id := or_else user_pool_id (env s!"COGNITO_USER_POOL_ID") in
  let client_id := or_else client_id (env s!"COGNITO_CLIENT_ID") in
  let region :=
    match region with
    | Some (c :: r) => c :: r
    | _ => getenv_default env s!"AWS_REGION" s!"us-east-1"
    end in
  if negb (is_set user_pool_id)
  then Raise (error ValidationError s!"COGNITO_USER_POOL_ID is required")
  else if negb (is_set client_id)
  then Raise (error ValidationError s!"COGNITO_CLIENT_ID is required")
  else
    match boto3_client region with
    | Return _ =>
      Return {| CognitoClient.user_pool_id :=
                  match user_pool_id with Some p => p | None => [] end;
                CognitoClient.client_id :=
                  match client_id with Some c => c | None => [] end;
                CognitoClient.region := region |}
    | Raise e =>
      Raise (CognitoError ServiceError
               (s!"Failed to initialize Cognito client: " ++ exn_str e)
               None (Some e))
    end.

(** [get_cognito_client()] *)
Definition get_cognito_client (env : environ)
    (boto3_client : Py.str -> result unit) : result CognitoClient.t :=
  __init__ env boto3_client None None None.

(** The [except] clauses every method ends with. *)
Definition handle (context unexpected : Py.str) (e : exn) : M dstate value :=
  match e with
  | ClientError c m txt =>
    with_object tt (CognitoClient._handle_client_error c m txt context) ;;
    ret VNone
  | _ =>
    raise (CognitoError ServiceError (unexpected ++ exn_str e) None (Some e))
  end.

Definition logout (client : Provider.t) (access_token : value)
  : M dstate value :=
  if negb (truthy access_token)
  then raise (error ValidationError s!"Access token is required")
  else
    try_except
      (_ <- invoke client (Provider.GlobalSignOut access_token) ;;
       ret (VDict [ (s!"success", VBool true);
                    (s!"message", VStr s!"Successfully logged out") ]))
      (handle s!"Logout failed" s!"Unexpected error during logout: ").

(** The loop that collects the attributes. *)
Fixpoint collect_attributes (attributes : vdict) (items : list value)
  : result vdict :=
  match items with
  | [] => Return attributes
  | attr :: items' =>
    match subscript attr s!"Value" with
    | Raise e => Raise e
    | Return v =>
      match subscript attr s!"Name" with
      | Raise e => Raise e
      | Return name =>
        match vdict_setitem attributes name v with
        | Raise e => Raise e
        | Return attributes' => collect_attributes attributes' items'
        end
      end
    end
  end.

Definition _normalize_user_response (response : value) : result value :=
  match value_get response s!"UserAttributes" (VList []) with
  | Raise e => Raise e
  | Return user_attributes =>
    match iterate user_attributes with
    | Raise e => Raise e
    | Return items =>
      match collect_attributes [] items with
      | Raise e => Raise e
      | Return attributes =>
        match value_get response s!"Username" VNone with
        | Raise e => Raise e
        | Return username =>
          Return
            (VDict
               [ (s!"user_id", vdict_get attributes (VStr s!"sub"));
                 (s!"username", username);
                 (s!"email", vdict_get attributes (VStr s!"email"));
                 (s!"attributes",
                  VDict
                    [ (s!"email_verified",
                       VBool (py_eq (vdict_get attributes
                                       (VStr s!"email_verified"))
                                (VStr s!"true")));
                      (s!"given_name",
                       vdict_get attributes (VStr s!"given_name"));
                      (s!"family_name",
                       vdict_get attributes (VStr s!"family_name"));
                      (s!"phone_number",
                       vdict_get attributes (VStr s!"phone_number")) ]) ])
        end
      end
    end
  end.

Definition get_user_info (client : Provider.t) (access_token : value)
  : M dstate value :=
  if negb (truthy access_token)
  then raise (error ValidationError s!"Access token is required")
  else
    try_except
      (response <- invoke client (Provider.GetUser access_token) ;;
       lift (_normalize_user_response response))
      (handle s!"Failed to get user info"
         s!"Unexpected error getting user info: ").

Definition _normalize_create_user_response (response : value)
  : result value :=
  match value_get response s!"User" (VDict []) with
  | Raise e => Raise e
  | Return user =>
    match user with
    | VDict d =>
      Return
        (VDict [ (s!"success", VBool true);
                 (s!"user_id", dict_get d s!"Username");
                 (s!"status", dict_get d s!"UserStatus");
                 (s!"created", dict_get d s!"UserCreateDate");
                 (s!"message", VStr s!"User created successfully") ])
    | v => Raise (AttributeError v s!"get")
    end
  end.

Definition attribute (name : Py.str) (v : value) : value :=
  VDict [ (s!"Name", VStr name); (s!"Value", v) ].

(** [attributes] is a [dict] or [None]; anything else that is true has no
    [items]. *)
Definition create_user (client : Provider.t) (o : CognitoClient.t)
    (email password attributes : value) : M dstate value :=
  if negb (truthy email) || negb (truthy password)
  then raise (error ValidationError s!"Email and password are required")
  else
    let user_attributes :=
      [ attribute s!"email" email;
        attribute s!"email_verified" (VStr s!"true") ] in
    user_attributes <-
      (if truthy attributes
       then match attributes with
            | VDict d =>
              ret (user_attributes
                   ++ map (fun kv => attribute (fst kv) (snd kv)) d)
            | v => raise (AttributeError v s!"items")
            end
       else ret user_attributes) ;;
    try_except
      (response <-
         invoke client
           (Provider.AdminCreateUser (CognitoClient.user_pool_id o) email
              user_attributes password s!"SUPPRESS") ;;
       lift (_normalize_create_user_response response))
      (handle s!"Failed to create user" s!"Unexpected error creating user: ").

(** [email] is a [str] or [None]. *)
Definition delete_user (client : Provider.t) (o : CognitoClient.t)
    (email : option Py.str) : M dstate value :=
  match email with
  | Some (c :: r) =>
    let email := c :: r in
    try_except
      (_ <- invoke client
              (Provider.AdminDeleteUser (CognitoClient.user_pool_id o)
                 (VStr email)) ;;
       ret (VDict [ (s!"success", VBool true);
                    (s!"message",
                     VStr (s!"User " ++ email
                           ++ s!" successfully deleted")) ]))
      (handle s!"Failed to delete user" s!"Unexpected error deleting user: ")
  | _ => raise (error ValidationError s!"Email is required")
  end.

End Directory.

(** ** More vocabulary *)

(** The next fetch of the key set fails with [e]: in [requests.get], in
    [raise_for_status] or in [json]. *)
Definition fetch_fails (lib : library) (s : st TokenValidator.t) (e : exn)
  : Prop :=
  requests_get lib (world s) (TokenValidator.jwks_url (self s)) 10 = Raise e
  \/ exists resp,
       requests_get lib (world s) (TokenValidator.jwks_url (self s)) 10
       = Return resp
       /\ (raise_for_status resp = Raise e
           \/ (raise_for_status resp = Return tt /\ json resp = Raise e)).

(** An exception that no [except] clause of [validate_token] names. *)
Definition unexpected (e : exn) : Prop :=
  isinstance_lib e InvalidTokenError = false
  /\ isinstance_cognito e AuthorizationError = false
  /\ isinstance_cognito e ValidationError = false
  /\ isinstance_cognito e ServiceError = false.

(** A key of the key set with, or without, the identifier [kid]. *)
Definition has_kid (kid key : value) : Prop :=
  exists kd, key = VDict kd /\ py_eq (dict_get kd s!"kid") kid = true.

Definition has_other_kid (kid key : value) : Prop :=
  exists kd, key = VDict kd /\ py_eq (dict_get kd s!"kid") kid = false.

(** ** More sample worlds *)

Module More.

(** A world whose header parser fails with an error of its own. *)
Definition lib_boom : library :=
  {| public_key := unit;
     jwt_get_unverified_header := fun _ =>
       Raise (LibError OtherException s!"boom");
     jwt_from_jwk := fun _ => Return tt;
     jwt_decode := Sample.decode_of;
     requests_get := fun _ _ _ => Return (Sample.ok_response Sample.jwks);
     initiate_auth := fun _ _ _ _ =>
       Raise (ClientError s!"NotAuthorizedException"
                s!"Incorrect username or password."
                s!"An error occurred (NotAuthorizedException)") |}.

(** A world without network. *)
Definition lib_offline : library :=
  {| public_key := unit;
     jwt_get_unverified_header := Sample.header_of;
     jwt_from_jwk := fun _ => Return tt;
     jwt_decode := Sample.decode_of;
     requests_get := fun _ _ _ =>
       Raise (LibError RequestException s!"timed out");
     initiate_auth := fun _ _ _ _ =>
       Raise (LibError OtherException s!"connection refused") |}.

(** A key set that lists the identifier [k2] twice, and ends with an
    entry that is not a key. *)
Definition jwk_dup (kid n : string) : value :=
  VDict [ (s!"kid", VStr (Py.lit kid)); (s!"kty", VStr s!"RSA");
          (s!"n", VStr (Py.lit n)); (s!"e", VStr s!"AQAB") ].

Definition key_list : list value :=
  [ Sample.jwk "k1"; jwk_dup "k2" "first"; jwk_dup "k2" "second"; VInt 7 ].

(** A validator that holds this key set. *)
Definition cached : st TokenValidator.t :=
  St {| TokenValidator.user_pool_id := s!"ap-northeast-1_test123";
        TokenValidator.region := s!"ap-northeast-1";
        TokenValidator.jwks_url :=
          TokenValidator.jwks_url Sample.validator;
        TokenValidator._jwks_cache :=
          VDict [ (s!"keys", VList key_list) ] |}
     [].

(** A validator whose cache holds a list. *)
Definition poisoned : st TokenValidator.t :=
  St {| TokenValidator.user_pool_id := s!"ap-northeast-1_test123";
        TokenValidator.region := s!"ap-northeast-1";
        TokenValidator.jwks_url :=
          TokenValidator.jwks_url Sample.validator;
        TokenValidator._jwks_cache := VList [ Sample.jwk "k1" ] |}
     [].

(** A world whose tokens carry their scopes as a list. *)
Definition lib_scope_list : library :=
  {| public_key := unit;
     jwt_get_unverified_header := Sample.header_of;
     jwt_from_jwk := fun _ => Return tt;
     jwt_decode := fun _ _ =>
       Return [ (s!"sub", VStr s!"user123");
                (s!"token_use", VStr s!"access");
                (s!"scope", VList [ VStr s!"openid"; VStr s!"email" ]) ];
     requests_get := fun _ _ _ => Return (Sample.ok_response Sample.jwks);
     initiate_auth := fun _ _ _ _ =>
       Return (VDict [ (s!"ChallengeName", VStr s!"NEW_PASSWORD_REQUIRED") ])
  |}.

End More.

(** The value of the last attribute named [name] in a list of
    name-value pairs, [None] when there is none. *)
Definition last_value (name : Py.str) (pairs : list (Py.str * value))
  : value :=
  fold_left (fun acc p => if Py.eqb (fst p) name then snd p else acc)
    pairs VNone.

(** A [dict] all of whose keys are strings. *)
Definition str_keyed (d : vdict) : Prop :=
  Forall (fun kv => exists n, fst kv = VStr n) d.

(** The provider's attribute list for name-value pairs. *)
Definition attribute_list (pairs : list (Py.str * value)) : list value :=
  map (fun p => Directory.attribute (fst p) (snd p)) pairs.

(** The caller's extra attributes of [create_user]: those of a [dict],
    none for [None]. *)
Definition extra_attributes (attributes : value) : list (Py.str * value) :=
  match attributes with
  | VDict d => d
  | _ => []
  end.

Definition authentication_codes : list Py.str :=
  [ s!"NotAuthorizedException"; s!"UserNotFoundException";
    s!"UserNotConfirmedException"; s!"PasswordResetRequiredException" ].

Definition validation_codes : list Py.str :=
  [ s!"InvalidParameterException"; s!"InvalidPasswordException";
    s!"UsernameExistsException"; s!"AliasExistsException" ].

Module Desk.

(** A provider that knows one user. *)
Definition client : Provider.t :=
  fun _ c =>
    match c with
    | Provider.GlobalSignOut _ => Return (VDict [])
    | Provider.GetUser _ =>
      Return
        (VDict
           [ (s!"Username", VStr s!"testuser");
             (s!"UserAttributes",
              VList
                (attribute_list
                   [ (s!"sub", VStr s!"user123");
                     (s!"email", VStr s!"old@example.com");
                     (s!"email_verified", VStr s!"true");
                     (s!"email", VStr s!"new@example.com") ])) ])
    | Provider.AdminCreateUser _ _ _ _ _ =>
      Raise (ClientError s!"UsernameExistsException"
               s!"User account already exists"
               s!"An error occurred (UsernameExistsException)")
    | Provider.AdminDeleteUser _ _ => Return (VDict [])
    end.

(** A provider whose answer holds an attribute without name. *)
Definition nameless : Provider.t :=
  fun _ _ =>
    Return (VDict [ (s!"Username", VStr s!"testuser");
                    (s!"UserAttributes",
                     VList [ VDict [ (s!"Value", VStr s!"x") ] ]) ]).

Definition start : dstate := St [] [].

Definition env : Directory.environ :=
  fun k =>
    if Py.eqb k s!"COGNITO_USER_POOL_ID" then Some s!"env_pool"
    else if Py.eqb k s!"COGNITO_CLIENT_ID" then Some s!"env_client"
    else None.

End Desk.

(** The [statusCode] of a response. *)
Definition status_of (response : dict) : value :=
  dict_get response s!"statusCode".

(** * Properties *)

(** ** Strings and values *)

Lemma Py_eqb_eq a b : Py.eqb a b = true <-> a = b.
Proof.
  unfold Py.eqb. destruct (list_eq_dec N.eq_dec a b); split; congruence.
Qed.

Lemma Py_eqb_refl a : Py.eqb a a = true.
Proof. now apply Py_eqb_eq. Qed.

Lemma Py_eqb_neq a b : Py.eqb a b = false <-> a <> b.
Proof.
  unfold Py.eqb. destruct (list_eq_dec N.eq_dec a b); split; congruence.
Qed.

Lemma py_eq_str_r (v : value) (s : Py.str) :
  py_eq v (VStr s) = true <-> v = VStr s.
Proof.
  destruct v; simpl; try (split; [discriminate | discriminate]).
  rewrite Py_eqb_eq. split; congruence.
Qed.

Example lit_invalid :
  s!"トークンが無効です"
  = [12488; 12540; 12463; 12531; 12364; 28961; 21177; 12391; 12377]%N.
Proof. reflexivity. Qed.

Example split_scope :
  Py.split s!"  openid profile	email " = [s!"openid"; s!"profile"; s!"email"].
Proof. reflexivity. Qed.

Example strip_ex : Py.strip s!"  Bearer   X  " = s!"Bearer   X".
Proof. reflexivity. Qed.

Example lower_ex : Py.lower s!"AuThOrIzAtIoN" = s!"authorization".
Proof. reflexivity. Qed.


(** *** Whitespace *)

Lemma lstrip_spaces_app pre x :
  spaces pre -> Py.lstrip (pre ++ x) = Py.lstrip x.
Proof.
  induction 1 as [|c pre Hc _ IH]; simpl; [reflexivity|].
  now rewrite Hc.
Qed.

Lemma lstrip_fixed x : starts_nonspace x -> Py.lstrip x = x.
Proof.
  destruct x as [|c x]; simpl; intros H; [reflexivity|].
  now rewrite (H c x eq_refl).
Qed.

Lemma lstrip_decompose s :
  exists pre, s = pre ++ Py.lstrip s /\ spaces pre.
Proof.
  induction s as [|c s [pre [E Hpre]]]; simpl.
  - exists []. split; [reflexivity | constructor].
  - destruct (Py.isspace c) eqn:Hc.
    + exists (c :: pre). split; [simpl; congruence | now constructor].
    + exists []. split; [reflexivity | constructor].
Qed.

Lemma lstrip_starts_nonspace s : starts_nonspace (Py.lstrip s).
Proof.
  induction s as [|c s IH]; simpl; intros d s' E; [discriminate|].
  destruct (Py.isspace c) eqn:Hc; [now apply (IH d s')|].
  now inversion E; subst.
Qed.

Lemma rstrip_spaces_app x post :
  spaces post -> Py.rstrip (x ++ post) = Py.rstrip x.
Proof.
  intros H. unfold Py.rstrip. rewrite rev_app_distr, lstrip_spaces_app;
    [reflexivity|].
  apply Forall_forall. intros c Hc. apply in_rev in Hc.
  unfold spaces in H. rewrite Forall_forall in H. now apply H.
Qed.

Lemma rstrip_fixed x : ends_nonspace x -> Py.rstrip x = x.
Proof.
  intros H. unfold Py.rstrip. rewrite lstrip_fixed, rev_involutive;
    [reflexivity|].
  intros c s' E. apply (H (rev s') c).
  rewrite <- (rev_involutive x), E. reflexivity.
Qed.

Lemma rstrip_decompose s :
  exists post, s = Py.rstrip s ++ post /\ spaces post.
Proof.
  destruct (lstrip_decompose (rev s)) as [pre [E Hpre]].
  exists (rev pre). split.
  - unfold Py.rstrip. rewrite <- rev_app_distr, <- E, rev_involutive.
    reflexivity.
  - apply Forall_forall. intros c Hc. apply in_rev in Hc.
    unfold spaces in Hpre. rewrite Forall_forall in Hpre. now apply Hpre.
Qed.

Lemma rstrip_ends_nonspace s : ends_nonspace (Py.rstrip s).
Proof.
  intros s' c E. unfold Py.rstrip in E.
  apply (lstrip_starts_nonspace (rev s)) with (s' := rev s').
  rewrite <- (rev_involutive (Py.lstrip (rev s))), E, rev_app_distr.
  reflexivity.
Qed.

Lemma strip_ends_nonspace s : ends_nonspace (Py.strip s).
Proof. apply rstrip_ends_nonspace. Qed.

Lemma strip_starts_nonspace s : starts_nonspace (Py.strip s).
Proof.
  intros c s' E. unfold Py.strip in E.
  destruct (rstrip_decompose (Py.lstrip s)) as [post [E' _]].
  rewrite E in E'. apply (lstrip_starts_nonspace s) with (s' := s' ++ post).
  exact E'.
Qed.

Lemma strip_decompose s :
  exists pre post, s = pre ++ Py.strip s ++ post /\ spaces pre /\ spaces post.
Proof.
  destruct (lstrip_decompose s) as [pre [E Hpre]].
  destruct (rstrip_decompose (Py.lstrip s)) as [post [E' Hpost]].
  exists pre, post. unfold Py.strip. now rewrite <- E'.
Qed.

Lemma strip_length s : List.length (Py.strip s) <= List.length s.
Proof.
  destruct (strip_decompose s) as [pre [post [E _]]].
  rewrite E at 2. rewrite !length_app. lia.
Qed.

Lemma strip_framed pre body post :
  spaces pre -> spaces post ->
  starts_nonspace body -> ends_nonspace body ->
  Py.strip (pre ++ body ++ post) = body.
Proof.
  intros Hpre Hpost Hs He. unfold Py.strip.
  rewrite lstrip_spaces_app by assumption.
  destruct body as [|c body].
  - simpl. rewrite <- (app_nil_l (Py.lstrip post)).
    destruct (lstrip_decompose post) as [p [E Hp]].
    assert (Hl : Py.lstrip post = []).
    { destruct (Py.lstrip post) as [|d l] eqn:El; [reflexivity|].
      pose proof (lstrip_starts_nonspace post d l El) as Hd.
      unfold spaces in Hpost. rewrite Forall_forall in Hpost.
      rewrite (Hpost d) in Hd; [discriminate|].
      rewrite E. apply in_or_app. right. now left. }
    rewrite Hl. reflexivity.
  - simpl. rewrite (Hs c body eq_refl).
    change (c :: body ++ post) with ((c :: body) ++ post).
    rewrite rstrip_spaces_app by assumption.
    now apply rstrip_fixed.
Qed.

(** *** The matcher *)

Section Star.
Variable R : Type.
Variable p : Py.char -> bool.
Variable k : Py.str -> Py.str -> option R.

(** A success of the repetition comes from some split of the input. *)
Lemma star_sound s : forall acc r,
  Re.star p k acc s = Some r ->
  exists a b, s = a ++ b /\ Forall (fun c => p c = true) a
              /\ k (acc ++ a) b = Some r.
Proof.
  induction s as [|c s IH]; simpl; intros acc r H.
  - exists [], []. rewrite (app_nil_r acc). repeat split; auto.
  - destruct (p c) eqn:Hc.
    + destruct (Re.star p k (acc ++ [c]) s) as [r'|] eqn:Hs.
      * inversion H; subst r'. destruct (IH _ _ Hs) as [a [b [E [Ha Hk]]]].
        exists (c :: a), b. rewrite <- app_assoc in Hk. simpl in Hk.
        repeat split; [simpl; congruence | now constructor | exact Hk].
      * exists [], (c :: s). rewrite (app_nil_r acc). repeat split; auto.
    + exists [], (c :: s). rewrite (app_nil_r acc). repeat split; auto.
Qed.

(** The longest run is tried first. *)
Lemma star_greedy a : forall acc b r,
  Forall (fun c => p c = true) a ->
  (forall c b', b = c :: b' -> p c = false) ->
  k (acc ++ a) b = Some r ->
  Re.star p k acc (a ++ b) = Some r.
Proof.
  induction a as [|c a IH]; simpl; intros acc b r Ha Hb Hk.
  - rewrite app_nil_r in Hk. destruct b as [|d b]; simpl; [exact Hk|].
    now rewrite (Hb d b eq_refl).
  - inversion Ha as [|? ? Hc Ha']; subst. rewrite Hc.
    rewrite (IH (acc ++ [c]) b r Ha' Hb); [reflexivity|].
    now rewrite <- app_assoc.
Qed.

Lemma plus_sound s r :
  Re.plus p k s = Some r ->
  exists a b, s = a ++ b /\ a <> [] /\ Forall (fun c => p c = true) a
              /\ k a b = Some r.
Proof.
  destruct s as [|c s]; simpl; [discriminate|].
  destruct (p c) eqn:Hc; [|discriminate]. intros H.
  destruct (star_sound _ _ _ H) as [a [b [E [Ha Hk]]]].
  exists (c :: a), b. repeat split;
    [simpl; congruence | discriminate | now constructor | exact Hk].
Qed.

Lemma plus_greedy a b r :
  a <> [] ->
  Forall (fun c => p c = true) a ->
  (forall c b', b = c :: b' -> p c = false) ->
  k a b = Some r ->
  Re.plus p k (a ++ b) = Some r.
Proof.
  destruct a as [|c a]; [congruence|]. intros _ Ha Hb Hk. simpl.
  inversion Ha as [|? ? Hc Ha']; subst. rewrite Hc.
  now apply star_greedy.
Qed.

End Star.

Lemma literal_ignorecase_app (R : Type) (k : Py.str -> option R) p :
  forall a b,
  map Py.tolower a = map Py.tolower p ->
  Re.literal_ignorecase p k (a ++ b) = k b.
Proof.
  induction p as [|pc p IH]; intros [|c a] b E; simpl in *;
    try discriminate; [reflexivity|].
  inversion E as [[Ec E']]. rewrite Ec, N.eqb_refl. now apply IH.
Qed.

Lemma literal_ignorecase_sound (R : Type) (k : Py.str -> option R) p :
  forall s r,
  Re.literal_ignorecase p k s = Some r ->
  exists a b, s = a ++ b /\ map Py.tolower a = map Py.tolower p
              /\ k b = Some r.
Proof.
  induction p as [|pc p IH]; simpl; intros s r H.
  - exists [], s. auto.
  - destruct s as [|c s]; [discriminate|].
    destruct (N.eqb_spec (Py.tolower c) (Py.tolower pc)) as [Ec|];
      [|discriminate].
    destruct (IH _ _ H) as [a [b [E [Ea Hk]]]].
    exists (c :: a), b. simpl. repeat split; congruence.
Qed.

Lemma dot_not_newline c : Re.dot c = true <-> c <> Py.newline.
Proof.
  unfold Re.dot. destruct (N.eqb_spec c Py.newline); simpl; split;
    congruence.
Qed.

Lemma all_dot_no_newline x :
  Forall (fun c => Re.dot c = true) x <-> ~ In Py.newline x.
Proof.
  rewrite Forall_forall. split.
  - intros H Hin. apply H in Hin. now apply dot_not_newline in Hin.
  - intros H c Hc. apply dot_not_newline. intros ->. now apply H.
Qed.

Lemma capture_to_end_line x :
  x <> [] -> ~ In Py.newline x -> capture_to_end x = Some x.
Proof.
  intros Hx Hn. unfold capture_to_end.
  rewrite <- (app_nil_r x) at 1. apply plus_greedy; auto.
  - now apply all_dot_no_newline.
  - discriminate.
Qed.

Lemma capture_to_end_sound x g :
  capture_to_end x = Some g ->
  g <> [] /\ ~ In Py.newline g /\ (x = g \/ x = g ++ [Py.newline]).
Proof.
  intros H. apply plus_sound in H.
  destruct H as [a [b [E [Ha [Hd Hk]]]]].
  destruct (Re.at_end b) eqn:Hb; [|discriminate].
  inversion Hk; subst g. repeat split; [exact Ha | |].
  - now apply all_dot_no_newline.
  - destruct b as [|c [|d b]]; simpl in Hb; try discriminate.
    + left. now rewrite E, app_nil_r.
    + right. apply N.eqb_eq in Hb. now subst.
Qed.

Lemma after_scheme_sound b tok :
  ends_nonspace b ->
  Re.plus Py.isspace (fun _ rest => capture_to_end rest) b = Some tok ->
  exists ws, b = ws ++ tok /\ ws <> [] /\ spaces ws
             /\ tok <> [] /\ starts_nonspace tok /\ ~ In Py.newline tok.
Proof.
  intros He H. pose proof H as H0.
  apply plus_sound in H. destruct H as [ws [b' [E [Hws [Hsp Hk]]]]].
  apply capture_to_end_sound in Hk. destruct Hk as [Hg [Hn [-> | ->]]].
  2:{ exfalso. specialize (He (ws ++ tok) Py.newline).
      rewrite E, app_assoc in He. specialize (He eq_refl). discriminate. }
  exists ws. repeat split; auto.
  destruct (lstrip_decompose tok) as [pre [Et Hpre]].
  assert (Ht : Py.lstrip tok <> []).
  { intros Hnil. rewrite Hnil, app_nil_r in Et. subst pre.
    destruct (exists_last Hg) as [l [c El]].
    assert (Hc : Py.isspace c = false).
    { apply (He (ws ++ l) c). rewrite E, El, app_assoc. reflexivity. }
    unfold spaces in Hpre. rewrite Forall_forall in Hpre.
    rewrite (Hpre c) in Hc; [discriminate|].
    rewrite El. apply in_or_app. right. now left. }
  assert (Hn' : ~ In Py.newline (Py.lstrip tok)).
  { intros Hin. apply Hn. rewrite Et. apply in_or_app. now right. }
  assert (H1 : Re.plus Py.isspace (fun _ rest => capture_to_end rest)
                 ((ws ++ pre) ++ Py.lstrip tok) = Some (Py.lstrip tok)).
  { apply plus_greedy.
    - destruct ws; [congruence | discriminate].
    - apply Forall_app. split; assumption.
    - apply lstrip_starts_nonspace.
    - now apply capture_to_end_line. }
  rewrite <- app_assoc, <- Et, <- E, H0 in H1. inversion H1 as [Etok].
  rewrite Etok. rewrite <- Etok at 1. apply lstrip_starts_nonspace.
Qed.

(** The pattern accepts every string of the bearer shape and captures its
    token. *)
Lemma bearer_match_of_shape s tok :
  bearer_shape s tok -> Re.bearer_pattern_match s = Some tok.
Proof.
  intros [scheme [ws [E [Hb [Hws [Hsp [Ht [Hs Hn]]]]]]]]. subst s.
  unfold Re.bearer_pattern_match.
  rewrite literal_ignorecase_app by exact Hb.
  change (Re.plus Py.isspace (fun _ rest => capture_to_end rest) (ws ++ tok)
          = Some tok).
  apply plus_greedy; auto. now apply capture_to_end_line.
Qed.

(** On a stripped string the pattern accepts nothing else. *)
Lemma bearer_shape_of_match s tok :
  ends_nonspace s ->
  Re.bearer_pattern_match s = Some tok -> bearer_shape s tok.
Proof.
  intros He H. unfold Re.bearer_pattern_match in H.
  apply literal_ignorecase_sound in H.
  destruct H as [a [b [E [Ha Hk]]]].
  change (Re.plus Py.isspace (fun _ rest => capture_to_end rest) b
          = Some tok) in Hk.
  apply after_scheme_sound in Hk.
  - destruct Hk as [ws [Eb H]]. exists a, ws. subst. split; [reflexivity|].
    split; [exact Ha | exact H].
  - intros s' c Es. apply (He (a ++ s') c). rewrite E, Es, app_assoc.
    reflexivity.
Qed.

Lemma bearer_shape_shorter s tok :
  bearer_shape s tok -> List.length tok < List.length s.
Proof.
  intros [scheme [ws [E [Hb [Hws _]]]]]. subst s.
  rewrite !length_app. destruct ws; [congruence | simpl; lia].
Qed.

(** *** Character classes *)

Ltac boolN :=
  repeat match goal with
  | H : (_ && _)%bool = true |- _ => apply andb_true_iff in H; destruct H
  | H : (_ && _)%bool = false |- _ => apply andb_false_iff in H; destruct H
  | H : (_ || _)%bool = true |- _ => apply orb_true_iff in H; destruct H
  | H : (_ || _)%bool = false |- _ => apply orb_false_iff in H; destruct H
  | H : (_ <=? _)%N = true |- _ => apply N.leb_le in H
  | H : (_ <=? _)%N = false |- _ => apply N.leb_gt in H
  | H : (_ =? _)%N = true |- _ => apply N.eqb_eq in H
  | H : (_ =? _)%N = false |- _ => apply N.eqb_neq in H
  end.

(** Only a Latin letter folds to a Latin letter other than [i] and [k]. *)
Lemma tolower_letter c l :
  Py.tolower c = l -> (97 <= l <= 122)%N -> l <> 105%N -> l <> 107%N ->
  c = l \/ (c + 32)%N = l.
Proof.
  unfold Py.tolower.
  destruct ((65 <=? c) && (c <=? 90))%N eqn:H1;
    [|destruct (c =? 304)%N eqn:H2; [|destruct (c =? 8490)%N eqn:H3]];
    boolN; intros; subst; auto; lia.
Qed.

Lemma letter_not_space c l :
  Py.tolower c = l -> (97 <= l <= 122)%N -> Py.isspace c = false.
Proof.
  intros H Hl. destruct (Py.isspace c) eqn:Hs; [exfalso|reflexivity].
  revert H. unfold Py.tolower. unfold Py.isspace in Hs.
  destruct ((65 <=? c) && (c <=? 90))%N eqn:H1;
    [|destruct (c =? 304)%N eqn:H2; [|destruct (c =? 8490)%N eqn:H3]];
    boolN; intros; subst; lia.
Qed.

(** The scheme keyword in any mix of cases, and nothing else. *)
Lemma is_bearer_cases scheme :
  is_bearer scheme <->
  Forall2 (fun c l => c = l \/ (c + 32)%N = l) scheme s!"bearer".
Proof.
  unfold is_bearer. split.
  - intros H.
    destruct scheme as [|c1 [|c2 [|c3 [|c4 [|c5 [|c6 [|c7 r]]]]]]];
      try discriminate.
    vm_compute Py.lit in *. simpl in H.
    injection H as H1 H2 H3 H4 H5 H6.
    repeat (apply Forall2_cons;
            [eapply tolower_letter; [eassumption|lia..]|]).
    apply Forall2_nil.
  - intros H. vm_compute Py.lit in *.
    repeat match goal with
    | H : Forall2 _ _ (_ :: _) |- _ => inversion H; subst; clear H
    | H : Forall2 _ _ [] |- _ => inversion H; subst; clear H
    end.
    repeat match goal with
    | H : _ \/ _ |- _ => destruct H; subst
    end; simpl; unfold Py.tolower;
    repeat match goal with
    | |- context [((65 <=? ?c) && (?c <=? 90))%N] =>
      let E := fresh in
      destruct ((65 <=? c) && (c <=? 90))%N eqn:E; boolN; try lia
    | |- context [(?c =? ?n)%N] =>
      let E := fresh in destruct (c =? n)%N eqn:E; boolN; try lia
    end.
    all: repeat f_equal; lia.
Qed.

Lemma ends_nonspace_app x t :
  t <> [] -> ends_nonspace t -> ends_nonspace (x ++ t).
Proof.
  intros Ht He s' c E. destruct (exists_last Ht) as [l [d El]].
  rewrite El, app_assoc in E. apply app_inj_tail in E. destruct E as [_ ->].
  now apply (He l c).
Qed.

Lemma ends_nonspace_suffix x t :
  ends_nonspace (x ++ t) -> ends_nonspace t.
Proof.
  intros He s' c E. apply (He (x ++ s') c). rewrite E, app_assoc.
  reflexivity.
Qed.

(** ** Header extraction *)

Lemma extract_header_iff s tok :
  extract_token_from_header (VStr s) = Return tok
  <-> bearer_shape (Py.strip s) tok.
Proof.
  unfold extract_token_from_header. split.
  - destruct s as [|c s]; [discriminate|]. cbn [truthy negb].
    destruct (Re.bearer_pattern_match (Py.strip (c :: s))) as [t|] eqn:Hm;
      [|discriminate].
    destruct t as [|d t]; [discriminate|]. cbn [truthy negb].
    intros H. inversion H; subst tok.
    apply bearer_shape_of_match; [apply strip_ends_nonspace | exact Hm].
  - intros Hs. pose proof (bearer_match_of_shape _ _ Hs) as Hm.
    destruct Hs as [scheme [ws [E [_ [Hws [_ [Ht _]]]]]]].
    destruct s as [|c s].
    + destruct ws; [congruence|]. destruct scheme; discriminate.
    + cbn [truthy negb]. rewrite Hm.
      destruct tok; [congruence | reflexivity].
Qed.

Lemma extract_header_outcomes s :
  s <> [] ->
  (exists tok, extract_token_from_header (VStr s) = Return tok)
  \/ extract_token_from_header (VStr s)
     = Raise (error AuthorizationError msg_invalid_header).
Proof.
  intros Hs. unfold extract_token_from_header.
  destruct s as [|c s]; [congruence|]. cbn [truthy negb].
  destruct (Re.bearer_pattern_match (Py.strip (c :: s))) as [[|d t]|];
    cbn [truthy negb]; eauto.
Qed.

Lemma extract_header_framed pre scheme ws tok post :
  spaces pre -> is_bearer scheme -> ws <> [] -> spaces ws ->
  tok <> [] -> starts_nonspace tok -> ends_nonspace tok ->
  ~ In Py.newline tok -> spaces post ->
  extract_token_from_header (VStr (pre ++ scheme ++ ws ++ tok ++ post))
  = Return tok.
Proof.
  intros Hpre Hb Hws Hsp Ht Hs He Hn Hpost. apply extract_header_iff.
  replace (pre ++ scheme ++ ws ++ tok ++ post)
    with (pre ++ (scheme ++ ws ++ tok) ++ post)
    by (now rewrite <- !app_assoc).
  rewrite strip_framed; auto.
  - exists scheme, ws. repeat split; auto.
  - intros c s' E. pose proof Hb as Hb'. unfold is_bearer in Hb'.
    destruct scheme as [|c1 scheme]; [discriminate|].
    injection E as -> _. vm_compute Py.lit in Hb'. injection Hb' as H1 _.
    eapply letter_not_space; [exact H1 | lia].
  - rewrite app_assoc. now apply ends_nonspace_app.
Qed.

(** C6: [extract_token_from_header] trims the header, matches the scheme
    keyword in any letter case (each letter of [bearer] or its capital),
    accepts one or more whitespace characters
    before the token and returns the token: ["Bearer X"], ["bearer X"] and
    ["  Bearer   X  "] all give ["X"].  It returns a token exactly for the
    strings of that shape; every other non-empty string, such as
    ["Basic X"] or ["Bearer "], raises the Authorization error, never a
    Validation error; an empty or missing header raises the Validation
    error. *)
Theorem C6_extract_token_from_header :
  (forall pre scheme ws tok post,
     spaces pre -> is_bearer scheme -> ws <> [] -> spaces ws ->
     tok <> [] -> starts_nonspace tok -> ends_nonspace tok ->
     ~ In Py.newline tok -> spaces post ->
     extract_token_from_header (VStr (pre ++ scheme ++ ws ++ tok ++ post))
     = Return tok)
  /\ (forall scheme,
        is_bearer scheme
        <-> Forall2 (fun c l => c = l \/ (c + 32)%N = l) scheme s!"bearer")
  /\ extract_token_from_header (VStr s!"Bearer X") = Return s!"X"
  /\ extract_token_from_header (VStr s!"bearer X") = Return s!"X"
  /\ extract_token_from_header (VStr s!"  Bearer   X  ") = Return s!"X"
  /\ (forall s tok,
        extract_token_from_header (VStr s) = Return tok
        <-> bearer_shape (Py.strip s) tok)
  /\ (forall s, s <> [] ->
        (exists tok, extract_token_from_header (VStr s) = Return tok)
        \/ extract_token_from_header (VStr s)
           = Raise (error AuthorizationError msg_invalid_header))
  /\ extract_token_from_header (VStr s!"Basic X")
     = Raise (error AuthorizationError msg_invalid_header)
  /\ extract_token_from_header (VStr s!"Bearer ")
     = Raise (error AuthorizationError msg_invalid_header)
  /\ (forall h, empty_or_missing h ->
        extract_token_from_header h
        = Raise (error ValidationError msg_auth_required)).
Proof.
  split; [exact extract_header_framed|].
  split; [exact is_bearer_cases|].
  do 3 (split; [reflexivity|]).
  split; [exact extract_header_iff|].
  split; [exact extract_header_outcomes|].
  do 2 (split; [reflexivity|]).
  intros h [-> | ->]; reflexivity.
Qed.

(** C10, as stated, fails: a header on which extraction succeeds, whose
    token is not itself accepted. *)
Lemma C10_counterexample :
  ~ (forall h t,
       extract_token_from_header (VStr h) = Return t ->
       extract_token_from_header (VStr t) = Return t).
Proof.
  intros H. specialize (H s!"Bearer X" s!"X" eq_refl). discriminate.
Qed.

(** C10, amended: when [extract_token_from_header] succeeds on a header with
    the token [t], it succeeds on [t] presented again under the scheme,
    ["Bearer " + t], and returns [t]; applied to the bare [t] it never
    returns [t]. *)
Theorem C10_extract_again_under_scheme (h : value) (t : Py.str) :
  extract_token_from_header h = Return t ->
  extract_token_from_header (VStr (s!"Bearer " ++ t)) = Return t
  /\ extract_token_from_header (VStr t) <> Return t.
Proof.
  intros H.
  assert (Hs : exists s, h = VStr s).
  { destruct h as [|[]|n|s|[|? ?]|[|? ?]]; try discriminate H;
      [|eexists; reflexivity].
    unfold extract_token_from_header in H. cbn [truthy] in H.
    destruct (n =? 0)%Z; discriminate H. }
  destruct Hs as [s ->]. apply extract_header_iff in H.
  pose proof (strip_ends_nonspace s) as He.
  destruct H as [scheme [ws [E [_ [_ [_ [Ht [Hs Hn]]]]]]]].
  rewrite E, app_assoc in He. apply ends_nonspace_suffix in He.
  split.
  - replace (s!"Bearer " ++ t) with ([] ++ s!"Bearer" ++ s!" " ++ t ++ [])
      by (rewrite app_nil_r; reflexivity).
    apply extract_header_framed; auto;
      try (repeat constructor); try discriminate.
  - intros H'. apply extract_header_iff in H'.
    apply bearer_shape_shorter in H'. pose proof (strip_length t). lia.
Qed.

Lemma C10_extract_again_under_scheme_witness :
  extract_token_from_header (VStr s!"  bearer   abc.def  ")
  = Return s!"abc.def"
  /\ extract_token_from_header (VStr (s!"Bearer " ++ s!"abc.def"))
     = Return s!"abc.def"
  /\ extract_token_from_header (VStr s!"abc.def") <> Return s!"abc.def".
Proof.
  split; [reflexivity|].
  apply (C10_extract_again_under_scheme
           (VStr s!"  bearer   abc.def  ") s!"abc.def").
  reflexivity.
Defined.

(** ** Event extraction *)

Lemma extract_header_falsy v :
  truthy v = false ->
  extract_token_from_header v
  = Raise (error ValidationError msg_auth_required).
Proof. intros H. unfold extract_token_from_header. now rewrite H. Qed.

Lemma find_auth_header_first before key v after :
  Forall (fun kv => Py.lower (fst kv) <> s!"authorization") before ->
  Py.lower key = s!"authorization" ->
  find_auth_header (before ++ (key, v) :: after) = v.
Proof.
  intros Hb Hk. induction Hb as [|[k w] before Hkw _ IH]; simpl.
  - rewrite Hk, Py_eqb_refl. reflexivity.
  - apply Py_eqb_neq in Hkw. simpl in Hkw. now rewrite Hkw.
Qed.

Lemma find_auth_header_none headers :
  Forall (fun kv => Py.lower (fst kv) <> s!"authorization") headers ->
  find_auth_header headers = VNone.
Proof.
  induction 1 as [|[k w] headers Hkw _ IH]; simpl; [reflexivity|].
  apply Py_eqb_neq in Hkw. simpl in Hkw. now rewrite Hkw.
Qed.

Lemma extract_event_found event headers :
  dict_get_default event s!"headers" (VDict []) = VDict headers ->
  extract_token_from_event event
  = extract_token_from_header (find_auth_header headers).
Proof.
  intros H. unfold extract_token_from_event. rewrite H.
  destruct (truthy (find_auth_header headers)) eqn:Ht; simpl;
    [reflexivity|].
  symmetry. now apply extract_header_falsy.
Qed.

(** C7: [extract_token_from_event] finds the authorization header whatever
    the letter case of its key: the result is [extract_token_from_header]
    applied to the value of the first key whose lower-case form is
    [authorization], so the keys [Authorization], [authorization] and
    [AuThOrIzAtIoN] give the same token.  When the event has no header
    mapping, an empty one, or one without such a key, it raises the
    Validation error. *)
Theorem C7_extract_token_from_event :
  (forall event before key v after,
     dict_get_default event s!"headers" (VDict [])
     = VDict (before ++ (key, v) :: after) ->
     Forall (fun kv => Py.lower (fst kv) <> s!"authorization") before ->
     Py.lower key = s!"authorization" ->
     extract_token_from_event event = extract_token_from_header v)
  /\ (forall v,
        extract_token_from_event (event_with "Authorization" v)
        = extract_token_from_header v
        /\ extract_token_from_event (event_with "authorization" v)
           = extract_token_from_header v
        /\ extract_token_from_event (event_with "AuThOrIzAtIoN" v)
           = extract_token_from_header v)
  /\ extract_token_from_event
       (event_with "AuThOrIzAtIoN" (VStr s!"Bearer X")) = Return s!"X"
  /\ (forall event,
        assoc s!"headers" event = None ->
        extract_token_from_event event
        = Raise (error ValidationError msg_auth_required))
  /\ (forall event,
        assoc s!"headers" event = Some (VDict []) ->
        extract_token_from_event event
        = Raise (error ValidationError msg_auth_required))
  /\ (forall event headers,
        assoc s!"headers" event = Some (VDict headers) ->
        Forall (fun kv => Py.lower (fst kv) <> s!"authorization") headers ->
        extract_token_from_event event
        = Raise (error ValidationError msg_auth_required)).
Proof.
  assert (Hone : forall key v,
            Py.lower (Py.lit key) = s!"authorization" ->
            extract_token_from_event (event_with key v)
            = extract_token_from_header v).
  { intros key v Hk.
    rewrite (extract_event_found (event_with key v) [(Py.lit key, v)])
      by reflexivity.
    change [(Py.lit key, v)] with ([] ++ [(Py.lit key, v)]).
    rewrite find_auth_header_first; [reflexivity | constructor | exact Hk]. }
  assert (Hnone : forall event headers,
            dict_get_default event s!"headers" (VDict []) = VDict headers ->
            Forall (fun kv => Py.lower (fst kv) <> s!"authorization")
              headers ->
            extract_token_from_event event
            = Raise (error ValidationError msg_auth_required)).
  { intros event headers H Hf.
    rewrite (extract_event_found event headers H).
    rewrite find_auth_header_none by exact Hf. reflexivity. }
  repeat split.
  - intros event before key v after H Hb Hk.
    rewrite (extract_event_found event _ H).
    now rewrite find_auth_header_first.
  - now apply Hone.
  - now apply Hone.
  - now apply Hone.
  - intros event H. apply (Hnone event []); [|constructor].
    unfold dict_get_default. now rewrite H.
  - intros event H. apply (Hnone event []); [|constructor].
    unfold dict_get_default. now rewrite H.
  - intros event headers H Hf. apply (Hnone event headers); [|exact Hf].
    unfold dict_get_default. now rewrite H.
Qed.

(** ** The directory client *)

Lemma str_in_In x l : CognitoClient.str_in x l = true <-> In x l.
Proof.
  unfold CognitoClient.str_in. rewrite existsb_exists. split.
  - intros [y [Hy E]]. apply Py_eqb_eq in E. now subst.
  - intros H. exists x. split; [exact H | apply Py_eqb_refl].
Qed.

Lemma str_in_not_In x l : ~ In x l -> CognitoClient.str_in x l = false.
Proof.
  intros H. destruct (CognitoClient.str_in x l) eqn:E; [|reflexivity].
  now apply str_in_In in E.
Qed.

(** C4: the classification of a provider error is a total function of its
    code.  Whatever the message, the context and the state, the method
    raises the error of the category the table gives for the code: each of
    the thirteen listed codes has its listed category, and every other code
    gives a Service error whose message is the unexpected-error text
    followed by the provider's message. *)
Theorem C4_handle_client_error_table :
  exists table : Py.str -> category,
    (forall code message text context s,
       exists msg,
         CognitoClient._handle_client_error code message text context s
         = (Raise (CognitoError (table code) msg (Some code)
                     (Some (ClientError code message text))),
            St (self s)
               (world s
                ++ [LogWarning (context ++ s!": " ++ code ++ s!" - "
                                ++ message)])))
    /\ table s!"NotAuthorizedException" = AuthenticationError
    /\ table s!"UserNotFoundException" = AuthenticationError
    /\ table s!"UserNotConfirmedException" = AuthenticationError
    /\ table s!"PasswordResetRequiredException" = AuthenticationError
    /\ table s!"AccessDeniedException" = AuthorizationError
    /\ table s!"UnauthorizedOperation" = AuthorizationError
    /\ table s!"InvalidParameterException" = ValidationError
    /\ table s!"InvalidPasswordException" = ValidationError
    /\ table s!"UsernameExistsException" = ValidationError
    /\ table s!"AliasExistsException" = ValidationError
    /\ table s!"InternalErrorException" = ServiceError
    /\ table s!"TooManyRequestsException" = ServiceError
    /\ table s!"ResourceNotFoundException" = ServiceError
    /\ (forall code,
          ~ In code
              [ s!"NotAuthorizedException"; s!"UserNotFoundException";
                s!"UserNotConfirmedException";
                s!"PasswordResetRequiredException";
                s!"AccessDeniedException"; s!"UnauthorizedOperation";
                s!"InvalidParameterException"; s!"InvalidPasswordException";
                s!"UsernameExistsException"; s!"AliasExistsException";
                s!"InternalErrorException"; s!"TooManyRequestsException";
                s!"ResourceNotFoundException" ] ->
          table code = ServiceError
          /\ forall message text context s,
               fst (CognitoClient._handle_client_error code message text
                      context s)
               = Raise (CognitoError ServiceError
                          (s!"予期しないエラーが発生しました: " ++ message)
                          (Some code)
                          (Some (ClientError code message text)))).
Proof.
  exists (fun code =>
    if CognitoClient.str_in code
         [ s!"NotAuthorizedException"; s!"UserNotFoundException";
           s!"UserNotConfirmedException";
           s!"PasswordResetRequiredException" ]
    then AuthenticationError
    else if CognitoClient.str_in code
              [ s!"AccessDeniedException"; s!"UnauthorizedOperation" ]
    then AuthorizationError
    else if CognitoClient.str_in code
              [ s!"InvalidParameterException"; s!"InvalidPasswordException";
                s!"UsernameExistsException"; s!"AliasExistsException" ]
    then ValidationError
    else ServiceError).
  split.
  { intros code message text context s.
    unfold CognitoClient._handle_client_error, bind, emit, raise.
    repeat match goal with
    | |- context [if CognitoClient.str_in code ?l then _ else _] =>
      destruct (CognitoClient.str_in code l)
    end; eexists; reflexivity. }
  do 13 (split; [vm_compute; reflexivity|]).
  intros code Hnot.
  set (L1 := [ s!"NotAuthorizedException"; s!"UserNotFoundException";
               s!"UserNotConfirmedException";
               s!"PasswordResetRequiredException" ]).
  set (L2 := [ s!"AccessDeniedException"; s!"UnauthorizedOperation" ]).
  set (L3 := [ s!"InvalidParameterException"; s!"InvalidPasswordException";
               s!"UsernameExistsException"; s!"AliasExistsException" ]).
  set (L4 := [ s!"InternalErrorException"; s!"TooManyRequestsException";
               s!"ResourceNotFoundException" ]).
  change (~ In code (L1 ++ L2 ++ L3 ++ L4)) in Hnot.
  rewrite !in_app_iff in Hnot.
  assert (H1 : CognitoClient.str_in code L1 = false)
    by (apply str_in_not_In; intros H; apply Hnot; left; exact H).
  assert (H2 : CognitoClient.str_in code L2 = false)
    by (apply str_in_not_In; intros H; apply Hnot; right; left; exact H).
  assert (H3 : CognitoClient.str_in code L3 = false)
    by (apply str_in_not_In; intros H; apply Hnot; right; right; left;
        exact H).
  assert (H4 : CognitoClient.str_in code L4 = false)
    by (apply str_in_not_In; intros H; apply Hnot; right; right; right;
        exact H).
  split.
  - now rewrite H1, H2, H3.
  - intros message text context s.
    unfold CognitoClient._handle_client_error, bind, emit, raise.
    fold L1 L2 L3 L4. now rewrite H1, H2, H3, H4.
Qed.

(** C9: when the email or the password is empty or missing,
    [authenticate] raises the Validation error "Email and password are
    required" and leaves the state as it was: the trace gains no event, so
    no provider call is made. *)
Theorem C9_authenticate_requires_credentials
    (lib : library) (o : CognitoClient.t) (email password : value)
    (s : st unit) :
  empty_or_missing email \/ empty_or_missing password ->
  CognitoClient.authenticate lib o email password s
  = (Raise (error ValidationError s!"Email and password are required"), s)
  /\ provider_calls (world (snd (CognitoClient.authenticate lib o email
                                   password s)))
     = provider_calls (world s).
Proof.
  intros H.
  assert (E : (negb (truthy email) || negb (truthy password))%bool = true).
  { destruct H as [[-> | ->] | [-> | ->]]; simpl;
      rewrite ?orb_true_r; reflexivity. }
  unfold CognitoClient.authenticate. rewrite E. split; reflexivity.
Qed.

Lemma C9_authenticate_requires_credentials_witness :
  CognitoClient.authenticate Sample.lib Sample.client
    (VStr s!"user@example.com") (VStr s!"") (St tt [])
  = (Raise (error ValidationError s!"Email and password are required"),
     St tt [])
  /\ provider_calls
       (world (snd (CognitoClient.authenticate Sample.lib Sample.client
                      (VStr s!"user@example.com") (VStr s!"") (St tt []))))
     = provider_calls (world (St tt (@nil event))).
Proof.
  apply (C9_authenticate_requires_credentials Sample.lib Sample.client
           (VStr s!"user@example.com") (VStr s!"") (St tt [])).
  right. right. reflexivity.
Defined.

(** ** Token validation: the argument guards *)

(** C3: an empty or missing token makes [validate_token] and
    [validate_and_extract_user_info] raise a Validation error (not an
    Authorization error) with the state untouched: the trace gains no
    event, so no header is parsed, no key is fetched and nothing goes over
    the network. *)
Theorem C3_empty_token_is_validation_error (lib : library) (token : value) :
  empty_or_missing token ->
  (forall s,
     TokenValidator.validate_token lib token s
     = (Raise (error ValidationError s!"Token is required"), s))
  /\ (forall user_pool_id region s,
        validate_and_extract_user_info lib token user_pool_id region s
        = (Raise (error ValidationError msg_auth_required), s)).
Proof.
  intros [-> | ->]; split; reflexivity.
Qed.

Lemma C3_empty_token_is_validation_error_witness :
  (forall s,
     TokenValidator.validate_token Sample.lib (VStr []) s
     = (Raise (error ValidationError s!"Token is required"), s))
  /\ (forall user_pool_id region s,
        validate_and_extract_user_info Sample.lib (VStr []) user_pool_id
          region s
        = (Raise (error ValidationError msg_auth_required), s)).
Proof.
  apply (C3_empty_token_is_validation_error Sample.lib (VStr [])).
  right. reflexivity.
Defined.

(** ** The user-info projection *)

Lemma split_aux_word w : forall cur s,
  nonspaces w -> Py.split_aux cur (w ++ s) = Py.split_aux (rev w ++ cur) s.
Proof.
  induction w as [|c w IH]; intros cur s Hw; [reflexivity|].
  inversion Hw as [|? ? Hc Hw']; subst. simpl. rewrite Hc.
  rewrite IH by assumption. now rewrite <- app_assoc.
Qed.

Lemma split_space c s :
  Py.isspace c = true -> Py.split (c :: s) = Py.split s.
Proof. intros H. unfold Py.split. simpl. now rewrite H. Qed.

Lemma split_word w s :
  w <> [] -> nonspaces w ->
  s = [] \/ (exists c s', s = c :: s' /\ Py.isspace c = true) ->
  Py.split (w ++ s) = w :: Py.split s.
Proof.
  intros Hw Hn Hs. unfold Py.split.
  rewrite split_aux_word by assumption. rewrite app_nil_r.
  assert (Hr : rev w <> []).
  { intros E. apply Hw. rewrite <- (rev_involutive w), E. reflexivity. }
  destruct Hs as [-> | [c [s' [-> Hc]]]]; simpl.
  - destruct (rev w) eqn:E; [congruence|]. rewrite <- E, rev_involutive.
    reflexivity.
  - rewrite Hc. destruct (rev w) eqn:E; [congruence|].
    rewrite <- E, rev_involutive. reflexivity.
Qed.

Lemma user_info_fields payload info :
  user_info_of_payload payload = Return info ->
  map fst info
  = [ s!"user_id"; s!"username"; s!"client_id"; s!"token_use"; s!"scope";
      s!"auth_time"; s!"iat"; s!"exp" ]
  /\ dict_get info s!"user_id" = dict_get payload s!"sub"
  /\ dict_get info s!"username" = dict_get payload s!"username"
  /\ dict_get info s!"client_id" = dict_get payload s!"client_id"
  /\ dict_get info s!"token_use" = dict_get payload s!"token_use"
  /\ dict_get info s!"auth_time" = dict_get payload s!"auth_time"
  /\ dict_get info s!"iat" = dict_get payload s!"iat"
  /\ dict_get info s!"exp" = dict_get payload s!"exp".
Proof.
  unfold user_info_of_payload.
  match goal with
  | |- match ?x with _ => _ end = _ -> _ => destruct x as [scope|e]
  end; [|discriminate].
  intros H. inversion H; subst info. clear H.
  generalize (dict_get payload s!"sub"), (dict_get payload s!"username"),
    (dict_get payload s!"client_id"), (dict_get payload s!"token_use"),
    (dict_get payload s!"auth_time"), (dict_get payload s!"iat"),
    (dict_get payload s!"exp").
  intros. repeat split; vm_compute; reflexivity.
Qed.

Lemma user_info_scope_present payload s :
  assoc s!"scope" payload = Some (VStr s) -> s <> [] ->
  exists info,
    user_info_of_payload payload = Return info
    /\ dict_get info s!"scope" = VList (map VStr (Py.split s)).
Proof.
  intros H Hs. unfold user_info_of_payload, dict_get, dict_get_default.
  rewrite H. destruct s as [|c s]; [congruence|]. cbn [truthy].
  eexists. split; [reflexivity|].
  generalize (map VStr (Py.split (c :: s))). intros. vm_compute.
  reflexivity.
Qed.

Lemma user_info_scope_absent payload :
  truthy (dict_get payload s!"scope") = false ->
  exists info,
    user_info_of_payload payload = Return info
    /\ dict_get info s!"scope" = VList [].
Proof.
  intros H. unfold user_info_of_payload. rewrite H.
  eexists. split; [reflexivity|]. vm_compute. reflexivity.
Qed.

Lemma validate_and_extract_projects lib token user_pool_id region s
    payload s' :
  truthy token = true -> user_pool_id <> [] ->
  TokenValidator.validate_token lib token
    (St (TokenValidator.__init__ user_pool_id region) (world s))
  = (Return payload, s') ->
  validate_and_extract_user_info lib token user_pool_id region s
  = (user_info_of_payload payload, St (self s) (world s')).
Proof.
  intros Ht Hp Hv. unfold validate_and_extract_user_info.
  rewrite Ht. destruct user_pool_id as [|c p]; [congruence|].
  cbn [truthy negb]. unfold bind, with_object, lift. rewrite Hv.
  reflexivity.
Qed.

(** C8: in the user-info record, a present, non-empty scope string is
    split on whitespace into its words in their order (["openid profile
    email"] gives the three words); an absent or empty scope (the empty
    string, or any value that is false in a Python test) gives the empty
    list, not [None] and not an error; the other seven fields are
    the payload's claims as they are, [None] when a claim is missing.
    [validate_and_extract_user_info] returns this record for the payload
    that [validate_token] accepts. *)
Theorem C8_user_info_projection :
  (forall payload s,
     assoc s!"scope" payload = Some (VStr s) -> s <> [] ->
     exists info,
       user_info_of_payload payload = Return info
       /\ dict_get info s!"scope" = VList (map VStr (Py.split s)))
  /\ Py.split s!"openid profile email"
     = [ s!"openid"; s!"profile"; s!"email" ]
  /\ Py.split [] = []
  /\ (forall c s, Py.isspace c = true -> Py.split (c :: s) = Py.split s)
  /\ (forall w s,
        w <> [] -> nonspaces w ->
        s = [] \/ (exists c s', s = c :: s' /\ Py.isspace c = true) ->
        Py.split (w ++ s) = w :: Py.split s)
  /\ (forall payload,
        assoc s!"scope" payload = None
        \/ (exists v, assoc s!"scope" payload = Some v /\ truthy v = false) ->
        exists info,
          user_info_of_payload payload = Return info
          /\ dict_get info s!"scope" = VList [])
  /\ (forall payload info,
        user_info_of_payload payload = Return info ->
        map fst info
        = [ s!"user_id"; s!"username"; s!"client_id"; s!"token_use";
            s!"scope"; s!"auth_time"; s!"iat"; s!"exp" ]
        /\ dict_get info s!"user_id" = dict_get payload s!"sub"
        /\ dict_get info s!"username" = dict_get payload s!"username"
        /\ dict_get info s!"client_id" = dict_get payload s!"client_id"
        /\ dict_get info s!"token_use" = dict_get payload s!"token_use"
        /\ dict_get info s!"auth_time" = dict_get payload s!"auth_time"
        /\ dict_get info s!"iat" = dict_get payload s!"iat"
        /\ dict_get info s!"exp" = dict_get payload s!"exp")
  /\ (forall payload k, assoc k payload = None -> dict_get payload k = VNone)
  /\ (forall lib token user_pool_id region s payload s',
        truthy token = true -> user_pool_id <> [] ->
        TokenValidator.validate_token lib token
          (St (TokenValidator.__init__ user_pool_id region) (world s))
        = (Return payload, s') ->
        validate_and_extract_user_info lib token user_pool_id region s
        = (user_info_of_payload payload, St (self s) (world s')))
  /\ fst (validate_and_extract_user_info Sample.lib (VStr s!"ok.jwt")
            s!"ap-northeast-1_test123" s!"ap-northeast-1" (St tt []))
     = Return
         [ (s!"user_id", VStr s!"user123");
           (s!"username", VStr s!"testuser");
           (s!"client_id", VStr s!"test_client");
           (s!"token_use", VStr s!"access");
           (s!"scope",
            VList [ VStr s!"openid"; VStr s!"profile"; VStr s!"email" ]);
           (s!"auth_time", VInt 1234567890);
           (s!"iat", VInt 1234567890);
           (s!"exp", VInt 1234571490) ].
Proof.
  split; [exact user_info_scope_present|].
  split; [vm_compute; reflexivity|].
  split; [reflexivity|].
  split; [exact split_space|].
  split; [exact split_word|].
  split.
  { intros payload H. apply user_info_scope_absent. unfold dict_get.
    destruct H as [-> | [v [-> Hv]]]; [reflexivity | exact Hv]. }
  split; [exact user_info_fields|].
  split.
  { intros payload k H. unfold dict_get. now rewrite H. }
  split; [exact validate_and_extract_projects|].
  vm_compute. reflexivity.
Qed.

(** ** The key-set cache *)

Ltac run :=
  unfold bind, ret, raise, lift, emit, history, get_self, set_self,
    try_except, TokenValidator.set_jwks_cache;
  cbn [fst snd self world negb
       TokenValidator._jwks_cache TokenValidator.jwks_url
       TokenValidator.user_pool_id TokenValidator.region].

Lemma fetches_app a b : fetches (a ++ b) = fetches a + fetches b.
Proof.
  induction a as [|e a IH]; [reflexivity|].
  destruct e; simpl; rewrite IH; reflexivity.
Qed.

Lemma find_key_absent lib keys kid s :
  Forall (fun key => exists kd,
            key = VDict kd /\ py_eq (dict_get kd s!"kid") kid = false)
    keys ->
  TokenValidator.find_key lib keys kid s = (Raise generic_invalid_token, s).
Proof.
  induction 1 as [|key keys [kd [-> Hk]] _ IH]; [reflexivity|].
  cbn [TokenValidator.find_key value_get]. run.
  unfold dict_get in Hk. unfold dict_get_default. rewrite Hk. exact IH.
Qed.

Lemma find_key_stable lib keys kid : forall s,
  self (snd (TokenValidator.find_key lib keys kid s)) = self s
  /\ fetches (world (snd (TokenValidator.find_key lib keys kid s)))
     = fetches (world s).
Proof.
  induction keys as [|key keys IH]; intros s; [split; reflexivity|].
  cbn [TokenValidator.find_key]. run.
  destruct (value_get key s!"kid" VNone) as [k|e]; [|split; reflexivity].
  destruct (py_eq k kid); [|apply IH].
  cbn [fst snd self world]. rewrite fetches_app. split; [reflexivity|].
  simpl. lia.
Qed.

(** With a document in the cache, a key lookup fetches nothing and leaves
    the instance as it is. *)
Lemma get_public_key_cached lib kid s :
  truthy (TokenValidator._jwks_cache (self s)) = true ->
  self (snd (TokenValidator._get_public_key lib kid s)) = self s
  /\ fetches (world (snd (TokenValidator._get_public_key lib kid s)))
     = fetches (world s).
Proof.
  intros H. unfold TokenValidator._get_public_key. run. rewrite H. run.
  destruct (value_get (TokenValidator._jwks_cache (self s)) s!"keys"
              (VList [])) as [keys|e]; [|split; reflexivity].
  destruct (iterate keys) as [items|e]; [|split; reflexivity].
  apply find_key_stable.
Qed.

(** With nothing in the cache, a successful fetch stores the document. *)
Lemma get_public_key_fetched lib kid s doc :
  truthy (TokenValidator._jwks_cache (self s)) = false ->
  fetch_succeeds lib s doc ->
  TokenValidator._jwks_cache
    (self (snd (TokenValidator._get_public_key lib kid s))) = doc
  /\ fetches (world (snd (TokenValidator._get_public_key lib kid s)))
     = S (fetches (world s)).
Proof.
  intros H [resp [Hget [Hstatus Hjson]]].
  unfold TokenValidator._get_public_key, TokenValidator.fetch_jwks. run.
  rewrite H. run. rewrite Hget. run. rewrite Hstatus, Hjson. run.
  destruct (value_get doc s!"keys" (VList [])) as [keys|e];
    [|cbn [fst snd self world TokenValidator._jwks_cache];
      rewrite fetches_app; split; [reflexivity | simpl; lia]].
  destruct (iterate keys) as [items|e];
    [|cbn [fst snd self world TokenValidator._jwks_cache];
      rewrite fetches_app; split; [reflexivity | simpl; lia]].
  match goal with
  | |- context [TokenValidator.find_key lib items kid ?s0] =>
    destruct (find_key_stable lib items kid s0) as [E1 E2]
  end.
  rewrite E1, E2. cbn [self world TokenValidator._jwks_cache].
  rewrite fetches_app. split; [reflexivity | simpl; lia].
Qed.

(** A key identifier that the key set in force does not list is an
    invalid token. *)
Lemma get_public_key_absent lib kid s doc :
  key_set_in_force lib s doc -> kid_absent doc kid ->
  fst (TokenValidator._get_public_key lib kid s)
  = Raise generic_invalid_token.
Proof.
  intros Hin [d [keys [-> [Hkeys Habs]]]].
  unfold TokenValidator._get_public_key, TokenValidator.fetch_jwks. run.
  destruct Hin as [[Ht Hd] | [Ht [resp [Hget [Hstatus Hjson]]]]].
  - rewrite Ht. run. rewrite <- Hd. cbn [value_get]. rewrite Hkeys.
    cbn [iterate]. now rewrite find_key_absent.
  - rewrite Ht. run. rewrite Hget. run. rewrite Hstatus, Hjson. run.
    cbn [value_get]. rewrite Hkeys. cbn [iterate].
    now rewrite find_key_absent.
Qed.

Ltac stable_done :=
  repeat match goal with
  | |- context [if ?b then _ else _] => destruct b
  end;
  cbn [fst snd self world]; rewrite ?fetches_app; cbn [fetches];
  (split; [congruence | lia]).

Lemma validate_token_cached lib token s :
  truthy (TokenValidator._jwks_cache (self s)) = true ->
  self (snd (TokenValidator.validate_token lib token s)) = self s
  /\ fetches (world (snd (TokenValidator.validate_token lib token s)))
     = fetches (world s).
Proof.
  intros H. unfold TokenValidator.validate_token.
  destruct (truthy token); cbn [negb]; [|split; reflexivity]. run.
  destruct (jwt_get_unverified_header lib token) as [h|e].
  - destruct (truthy (dict_get h s!"kid")); cbn [negb].
    + destruct (get_public_key_cached lib (dict_get h s!"kid")
                  (St (self s) (world s ++ [GetUnverifiedHeader token])) H)
        as [E1 E2].
      cbn [self world] in E1, E2. rewrite fetches_app in E2.
      cbn [fetches] in E2.
      destruct (TokenValidator._get_public_key lib (dict_get h s!"kid")
                  (St (self s) (world s ++ [GetUnverifiedHeader token])))
        as [[key|e] s1]; cbn [fst snd] in *.
      * destruct (jwt_decode lib token key) as [payload|e]; stable_done.
      * stable_done.
    + stable_done.
  - stable_done.
Qed.

Lemma run_calls_cached lib calls : forall s,
  truthy (TokenValidator._jwks_cache (self s)) = true ->
  self (run_calls lib calls s) = self s
  /\ fetches (world (run_calls lib calls s)) = fetches (world s).
Proof.
  induction calls as [|c calls IH]; intros s H; [split; reflexivity|].
  cbn [run_calls].
  assert (Hc : self (run_call lib c s) = self s
               /\ fetches (world (run_call lib c s)) = fetches (world s)).
  { destruct c; cbn [run_call];
      [now apply get_public_key_cached | now apply validate_token_cached]. }
  destruct Hc as [E1 E2].
  destruct (IH (run_call lib c s)) as [E3 E4]; [now rewrite E1|].
  split; congruence.
Qed.

(** A key-discovery document has an entry, so it is true in a Python
    test. *)
Lemma key_discovery_document_truthy doc keys :
  key_discovery_document doc keys -> truthy doc = true.
Proof.
  intros [d [-> H]]. destruct d; [discriminate H | reflexivity].
Qed.

(** With a key-discovery document in the cache, a key lookup is the scan
    of that document's key list, in the state as it is. *)
Lemma get_public_key_scans_cache lib kid s keys :
  key_discovery_document (TokenValidator._jwks_cache (self s)) keys ->
  TokenValidator._get_public_key lib kid s
  = TokenValidator.find_key lib keys kid s.
Proof.
  intros H. pose proof (key_discovery_document_truthy _ _ H) as Ht.
  destruct H as [d [Hd Hk]].
  unfold TokenValidator._get_public_key. run. rewrite Ht. run.
  rewrite Hd. cbn [value_get]. unfold dict_get_default. rewrite Hk.
  run. cbn [iterate]. run. destruct s; reflexivity.
Qed.

(** C5: when nothing is cached and the fetch of the key-discovery document
    succeeds, the lookup stores the document after that one fetch; from
    then on every [_get_public_key] and [validate_token] call on the
    instance, in any number and order, leaves the instance, hence the
    cache, as it is and fetches nothing, and every key lookup is the scan
    of the stored document's key list. *)
Theorem C5_key_set_cached_once
    (lib : library) (kid : value) (s : st TokenValidator.t) (doc : value)
    (keys : list value) :
  truthy (TokenValidator._jwks_cache (self s)) = false ->
  fetch_succeeds lib s doc ->
  key_discovery_document doc keys ->
  TokenValidator._jwks_cache
    (self (snd (TokenValidator._get_public_key lib kid s))) = doc
  /\ fetches (world (snd (TokenValidator._get_public_key lib kid s)))
     = S (fetches (world s))
  /\ forall calls,
       self (run_calls lib calls
               (snd (TokenValidator._get_public_key lib kid s)))
       = self (snd (TokenValidator._get_public_key lib kid s))
       /\ fetches (world (run_calls lib calls
                            (snd (TokenValidator._get_public_key lib kid
                                    s))))
          = fetches (world (snd (TokenValidator._get_public_key lib kid
                                   s)))
       /\ forall kid',
            TokenValidator._get_public_key lib kid'
              (run_calls lib calls
                 (snd (TokenValidator._get_public_key lib kid s)))
            = TokenValidator.find_key lib keys kid'
                (run_calls lib calls
                   (snd (TokenValidator._get_public_key lib kid s))).
Proof.
  intros Hc Hf Hd.
  destruct (get_public_key_fetched lib kid s doc Hc Hf) as [E1 E2].
  split; [exact E1|]. split; [exact E2|].
  intros calls.
  destruct (run_calls_cached lib calls
              (snd (TokenValidator._get_public_key lib kid s))) as [E3 E4].
  { rewrite E1. exact (key_discovery_document_truthy doc keys Hd). }
  split; [exact E3|]. split; [exact E4|].
  intros kid'. apply get_public_key_scans_cache.
  rewrite E3, E1. exact Hd.
Qed.

Lemma C5_key_set_cached_once_witness :
  TokenValidator._jwks_cache
    (self (snd (TokenValidator._get_public_key Sample.lib (VStr s!"k1")
                  Sample.start))) = Sample.jwks
  /\ fetches (world (snd (TokenValidator._get_public_key Sample.lib
                            (VStr s!"k1") Sample.start)))
     = S (fetches (world Sample.start))
  /\ forall calls,
       self (run_calls Sample.lib calls
               (snd (TokenValidator._get_public_key Sample.lib
                       (VStr s!"k1") Sample.start)))
       = self (snd (TokenValidator._get_public_key Sample.lib
                      (VStr s!"k1") Sample.start))
       /\ fetches (world (run_calls Sample.lib calls
                            (snd (TokenValidator._get_public_key Sample.lib
                                    (VStr s!"k1") Sample.start))))
          = fetches (world (snd (TokenValidator._get_public_key Sample.lib
                                   (VStr s!"k1") Sample.start)))
       /\ forall kid',
            TokenValidator._get_public_key Sample.lib kid'
              (run_calls Sample.lib calls
                 (snd (TokenValidator._get_public_key Sample.lib
                         (VStr s!"k1") Sample.start)))
            = TokenValidator.find_key Sample.lib [ Sample.jwk "k1" ] kid'
                (run_calls Sample.lib calls
                   (snd (TokenValidator._get_public_key Sample.lib
                           (VStr s!"k1") Sample.start))).
Proof.
  apply (C5_key_set_cached_once Sample.lib (VStr s!"k1") Sample.start
           Sample.jwks [ Sample.jwk "k1" ]).
  - reflexivity.
  - exists (Sample.ok_response Sample.jwks). repeat split; reflexivity.
  - exists [ (s!"keys", VList [ Sample.jwk "k1" ]) ]. split; reflexivity.
Defined.

(** ** Token validation: the failures *)

Lemma validate_kid_missing lib token s h :
  truthy token = true ->
  jwt_get_unverified_header lib token = Return h ->
  truthy (dict_get h s!"kid") = false ->
  TokenValidator.validate_token lib token s
  = (Raise generic_invalid_token, after_header token s).
Proof.
  intros Ht Hh Hk. unfold TokenValidator.validate_token.
  rewrite Ht. cbn [negb]. run. rewrite Hh, Hk. reflexivity.
Qed.

Lemma validate_header_invalid lib token s c txt :
  truthy token = true ->
  jwt_get_unverified_header lib token = Raise (LibError c txt) ->
  subclass c InvalidTokenError = true -> c <> ExpiredSignatureError ->
  TokenValidator.validate_token lib token s
  = (Raise generic_invalid_token, after_header token s).
Proof.
  intros Ht Hh Hc Hne. unfold TokenValidator.validate_token.
  rewrite Ht. cbn [negb]. run. rewrite Hh.
  destruct c; try discriminate Hc; try congruence; reflexivity.
Qed.

Lemma validate_kid_absent lib token s h doc :
  truthy token = true ->
  jwt_get_unverified_header lib token = Return h ->
  truthy (dict_get h s!"kid") = true ->
  key_set_in_force lib (after_header token s) doc ->
  kid_absent doc (dict_get h s!"kid") ->
  fst (TokenValidator.validate_token lib token s)
  = Raise generic_invalid_token.
Proof.
  intros Ht Hh Hk Hin Habs.
  pose proof (get_public_key_absent lib (dict_get h s!"kid")
                (after_header token s) doc Hin Habs) as Hg.
  unfold TokenValidator.validate_token.
  rewrite Ht. cbn [negb]. run. rewrite Hh, Hk. cbn [negb].
  unfold after_header in Hg.
  destruct (TokenValidator._get_public_key lib (dict_get h s!"kid")
              (St (self s) (world s ++ [GetUnverifiedHeader token])))
    as [r s1].
  cbn [fst] in Hg. subst r. reflexivity.
Qed.

(** Runs [validate_token] up to the outcome of [jwt.decode]. *)
Ltac to_decode Ht H :=
  let h := fresh "h" in
  let key := fresh "key" in
  let s1 := fresh "s1" in
  let Hh := fresh "Hh" in
  let Hk := fresh "Hk" in
  let Hg := fresh "Hg" in
  let Hd := fresh "Hd" in
  destruct H as [h [key [s1 [Hh [Hk [Hg Hd]]]]]];
  unfold TokenValidator.validate_token;
  rewrite Ht; cbn [negb]; run; rewrite Hh, Hk; cbn [negb];
  unfold after_header in Hg; rewrite Hg; run; rewrite Hd.

Lemma validate_expired lib token s txt :
  truthy token = true ->
  decodes_to lib token s (Raise (LibError ExpiredSignatureError txt)) ->
  fst (TokenValidator.validate_token lib token s)
  = Raise (error AuthorizationError msg_token_expired).
Proof. intros Ht H. to_decode Ht H. reflexivity. Qed.

Lemma validate_decode_invalid lib token s c txt :
  truthy token = true ->
  subclass c InvalidTokenError = true -> c <> ExpiredSignatureError ->
  decodes_to lib token s (Raise (LibError c txt)) ->
  fst (TokenValidator.validate_token lib token s)
  = Raise generic_invalid_token.
Proof.
  intros Ht Hc Hne H. to_decode Ht H.
  destruct c; try discriminate Hc; try congruence; reflexivity.
Qed.

Lemma validate_wrong_token_use lib token s payload :
  truthy token = true ->
  decodes_to lib token s (Return payload) ->
  dict_get payload s!"token_use" <> VStr s!"access" ->
  fst (TokenValidator.validate_token lib token s)
  = Raise generic_invalid_token.
Proof.
  intros Ht H Hu. to_decode Ht H.
  destruct (py_eq (dict_get payload s!"token_use") (VStr s!"access"))
    eqn:E; [|reflexivity].
  apply py_eq_str_r in E. congruence.
Qed.

(** A payload that [validate_token] returns is an access token's. *)
Lemma validate_returns_access lib token s payload :
  fst (TokenValidator.validate_token lib token s) = Return payload ->
  dict_get payload s!"token_use" = VStr s!"access".
Proof.
  unfold TokenValidator.validate_token.
  destruct (truthy token); cbn [negb]; [|discriminate]. run.
  destruct (jwt_get_unverified_header lib token) as [h|e].
  - destruct (truthy (dict_get h s!"kid")); cbn [negb].
    + destruct (TokenValidator._get_public_key lib (dict_get h s!"kid")
                  (St (self s) (world s ++ [GetUnverifiedHeader token])))
        as [[key|e] s1].
      * run. destruct (jwt_decode lib token key) as [p|e].
        -- destruct (py_eq (dict_get p s!"token_use") (VStr s!"access"))
             eqn:E; cbn [negb fst].
           ++ intros H. inversion H; subst p. now apply py_eq_str_r in E.
           ++ repeat match goal with
              | |- context [if ?b then _ else _] => destruct b
              end; discriminate.
        -- repeat match goal with
           | |- context [if ?b then _ else _] => destruct b
           end; discriminate.
      * repeat match goal with
        | |- context [if ?b then _ else _] => destruct b
        end; discriminate.
    + repeat match goal with
      | |- context [if ?b then _ else _] => destruct b
      end; discriminate.
  - repeat match goal with
    | |- context [if ?b then _ else _] => destruct b
    end; discriminate.
Qed.

Lemma expired_message_distinct : msg_token_expired <> msg_invalid_token.
Proof. intros H. vm_compute in H. discriminate H. Qed.

(** C1: on a non-empty token, when [jwt.decode] fails because the token
    has expired, [validate_token] raises an Authorization error whose
    message differs from the generic invalid-token message; and a header
    without key identifier, a key identifier that the key set does not
    list, a failure to decode the header or the token (any
    [InvalidTokenError] other than the expiry) and a [token_use] other
    than ["access"] all raise the Authorization error with the one generic
    message. *)
Theorem C1_expired_distinct_others_generic
    (lib : library) (token : value) (s : st TokenValidator.t) :
  truthy token = true ->
  msg_token_expired <> msg_invalid_token
  /\ (forall txt,
        decodes_to lib token s (Raise (LibError ExpiredSignatureError txt)) ->
        fst (TokenValidator.validate_token lib token s)
        = Raise (error AuthorizationError msg_token_expired))
  /\ (forall h,
        jwt_get_unverified_header lib token = Return h ->
        truthy (dict_get h s!"kid") = false ->
        fst (TokenValidator.validate_token lib token s)
        = Raise (error AuthorizationError msg_invalid_token))
  /\ (forall h doc,
        jwt_get_unverified_header lib token = Return h ->
        truthy (dict_get h s!"kid") = true ->
        key_set_in_force lib (after_header token s) doc ->
        kid_absent doc (dict_get h s!"kid") ->
        fst (TokenValidator.validate_token lib token s)
        = Raise (error AuthorizationError msg_invalid_token))
  /\ (forall c txt,
        subclass c InvalidTokenError = true ->
        c <> ExpiredSignatureError ->
        jwt_get_unverified_header lib token = Raise (LibError c txt)
        \/ decodes_to lib token s (Raise (LibError c txt)) ->
        fst (TokenValidator.validate_token lib token s)
        = Raise (error AuthorizationError msg_invalid_token))
  /\ (forall payload,
        decodes_to lib token s (Return payload) ->
        dict_get payload s!"token_use" <> VStr s!"access" ->
        fst (TokenValidator.validate_token lib token s)
        = Raise (error AuthorizationError msg_invalid_token)).
Proof.
  intros Ht.
  split; [exact expired_message_distinct|].
  split; [intros txt H; now apply validate_expired with (txt := txt)|].
  split.
  { intros h Hh Hk. now rewrite (validate_kid_missing lib token s h). }
  split.
  { intros h doc Hh Hk Hin Habs.
    now apply validate_kid_absent with (h := h) (doc := doc). }
  split.
  { intros c txt Hc Hne [Hh | Hd].
    - now rewrite (validate_header_invalid lib token s c txt).
    - now apply validate_decode_invalid with (c := c) (txt := txt). }
  intros payload Hd Hu.
  now apply validate_wrong_token_use with (payload := payload).
Qed.

(** C2: a non-empty token that [jwt.decode] accepts but whose [token_use]
    is not the string ["access"] (another value, or no such claim) makes
    [validate_token] raise the Authorization error with the generic
    message; whatever the token, a payload that [validate_token] returns
    has [token_use] equal to ["access"]. *)
Theorem C2_token_use_must_be_access
    (lib : library) (token : value) (s : st TokenValidator.t)
    (payload : dict) :
  truthy token = true ->
  decodes_to lib token s (Return payload) ->
  dict_get payload s!"token_use" <> VStr s!"access" ->
  fst (TokenValidator.validate_token lib token s)
  = Raise (error AuthorizationError msg_invalid_token)
  /\ forall token' s' payload',
       fst (TokenValidator.validate_token lib token' s') = Return payload' ->
       dict_get payload' s!"token_use" = VStr s!"access".
Proof.
  intros Ht Hd Hu. split.
  - now apply validate_wrong_token_use with (payload := payload).
  - intros token' s' payload'. apply validate_returns_access.
Qed.

(** ** Runs in the sample world *)

Lemma sample_decodes (name : string) :
  jwt_get_unverified_header Sample.lib (VStr (Py.lit name))
  = Return [ (s!"kid", VStr s!"k1"); (s!"alg", VStr s!"RS256") ] ->
  decodes_to Sample.lib (VStr (Py.lit name)) Sample.start
    (Sample.decode_of (VStr (Py.lit name)) tt).
Proof.
  intros Hh.
  exists [ (s!"kid", VStr s!"k1"); (s!"alg", VStr s!"RS256") ], tt,
    (snd (TokenValidator._get_public_key Sample.lib (VStr s!"k1")
            (after_header (VStr (Py.lit name)) Sample.start))).
  split; [exact Hh|]. split; [reflexivity|]. split; [|reflexivity].
  change (dict_get [ (s!"kid", VStr s!"k1"); (s!"alg", VStr s!"RS256") ]
            s!"kid") with (VStr s!"k1").
  generalize (VStr (Py.lit name)). intros token.
  vm_compute. reflexivity.
Qed.

Lemma sample_key_set token :
  key_set_in_force Sample.lib (after_header token Sample.start) Sample.jwks.
Proof.
  right. split; [reflexivity|].
  exists (Sample.ok_response Sample.jwks). repeat split; reflexivity.
Qed.

Lemma sample_kid_absent : kid_absent Sample.jwks (VStr s!"k9").
Proof.
  exists [ (s!"keys", VList [ Sample.jwk "k1" ]) ], [ Sample.jwk "k1" ].
  split; [reflexivity|]. split; [vm_compute; reflexivity|].
  constructor; [|constructor].
  eexists. split; [reflexivity|]. vm_compute. reflexivity.
Qed.

Lemma C1_expired_distinct_others_generic_witness :
  fst (TokenValidator.validate_token Sample.lib (VStr s!"expired.jwt")
         Sample.start)
  = Raise (error AuthorizationError msg_token_expired)
  /\ fst (TokenValidator.validate_token Sample.lib (VStr s!"nokid.jwt")
            Sample.start)
     = Raise (error AuthorizationError msg_invalid_token)
  /\ fst (TokenValidator.validate_token Sample.lib (VStr s!"otherkid.jwt")
            Sample.start)
     = Raise (error AuthorizationError msg_invalid_token)
  /\ fst (TokenValidator.validate_token Sample.lib (VStr s!"garbage")
            Sample.start)
     = Raise (error AuthorizationError msg_invalid_token)
  /\ fst (TokenValidator.validate_token Sample.lib (VStr s!"badsig.jwt")
            Sample.start)
     = Raise (error AuthorizationError msg_invalid_token)
  /\ fst (TokenValidator.validate_token Sample.lib (VStr s!"id.jwt")
            Sample.start)
     = Raise (error AuthorizationError msg_invalid_token).
Proof.
  split.
  { apply (proj1 (proj2 (C1_expired_distinct_others_generic Sample.lib
                           (VStr s!"expired.jwt") Sample.start eq_refl))
             s!"Signature has expired").
    apply (sample_decodes "expired.jwt"). reflexivity. }
  split.
  { apply (proj1 (proj2 (proj2 (C1_expired_distinct_others_generic
                                  Sample.lib (VStr s!"nokid.jwt")
                                  Sample.start eq_refl))) []);
      reflexivity. }
  split.
  { apply (proj1 (proj2 (proj2 (proj2
             (C1_expired_distinct_others_generic Sample.lib
                (VStr s!"otherkid.jwt") Sample.start eq_refl))))
             [ (s!"kid", VStr s!"k9") ] Sample.jwks);
      [reflexivity | reflexivity | apply sample_key_set
       | exact sample_kid_absent]. }
  split.
  { apply (proj1 (proj2 (proj2 (proj2 (proj2
             (C1_expired_distinct_others_generic Sample.lib
                (VStr s!"garbage") Sample.start eq_refl)))))
             DecodeError s!"Not enough segments");
      [reflexivity | discriminate | left; reflexivity]. }
  split.
  { apply (proj1 (proj2 (proj2 (proj2 (proj2
             (C1_expired_distinct_others_generic Sample.lib
                (VStr s!"badsig.jwt") Sample.start eq_refl)))))
             InvalidSignatureError s!"Signature verification failed");
      [reflexivity | discriminate | right].
    apply (sample_decodes "badsig.jwt"). reflexivity. }
  apply (proj2 (proj2 (proj2 (proj2 (proj2
           (C1_expired_distinct_others_generic Sample.lib
              (VStr s!"id.jwt") Sample.start eq_refl)))))
           (Sample.claims "id")).
  - apply (sample_decodes "id.jwt"). reflexivity.
  - intros H. vm_compute in H. discriminate H.
Defined.

Lemma C2_token_use_must_be_access_witness :
  fst (TokenValidator.validate_token Sample.lib (VStr s!"nouse.jwt")
         Sample.start)
  = Raise (error AuthorizationError msg_invalid_token)
  /\ forall token' s' payload',
       fst (TokenValidator.validate_token Sample.lib token' s')
       = Return payload' ->
       dict_get payload' s!"token_use" = VStr s!"access".
Proof.
  apply (C2_token_use_must_be_access Sample.lib (VStr s!"nouse.jwt")
           Sample.start [ (s!"sub", VStr s!"user123") ]).
  - reflexivity.
  - apply (sample_decodes "nouse.jwt"). reflexivity.
  - intros H. vm_compute in H. discriminate H.
Defined.

(** * Further properties *)

(** ** Token validation: what comes out *)

Lemma cognito_reraised e :
  (isinstance_cognito e AuthorizationError
   || isinstance_cognito e ValidationError
   || isinstance_cognito e ServiceError)%bool = true ->
  exists c m code orig,
    e = CognitoError c m code orig /\ c <> AuthenticationError.
Proof.
  destruct e as [c m code orig| |]; cbn [isinstance_cognito];
    try discriminate.
  intros H. exists c, m, code, orig. split; [reflexivity|].
  intros ->. discriminate H.
Qed.

Ltac split_ifs :=
  repeat match goal with
  | |- context [if ?b then _ else _] =>
    let E := fresh "E" in destruct b eqn:E
  end.

Lemma Raise_inj (A : Type) (x y : exn) : @Raise A x = Raise y -> x = y.
Proof. intros H. now injection H. Qed.

Ltac cognito_leaf :=
  let e' := fresh "e'" in
  let H := fresh "H" in
  intros e' H; cbn [fst] in H; apply Raise_inj in H; subst e';
  first
    [ match goal with
      | E : (isinstance_cognito _ AuthorizationError || _ || _)%bool = true
        |- _ => exact (cognito_reraised _ E)
      end
    | unfold generic_invalid_token, error;
      do 4 eexists; split; [reflexivity | discriminate] ].

Lemma validate_token_error_shape
    (lib : library) (token : value) (s : st TokenValidator.t) (e : exn) :
  fst (TokenValidator.validate_token lib token s) = Raise e ->
  exists c m code orig,
    e = CognitoError c m code orig /\ c <> AuthenticationError.
Proof.
  revert e. unfold TokenValidator.validate_token.
  destruct (truthy token); cbn [negb]; [|cognito_leaf]. run.
  destruct (jwt_get_unverified_header lib token) as [h|e0].
  - destruct (truthy (dict_get h s!"kid")); cbn [negb].
    + destruct (TokenValidator._get_public_key lib (dict_get h s!"kid")
                  (St (self s) (world s ++ [GetUnverifiedHeader token])))
        as [[key|e0] s1].
      * run. destruct (jwt_decode lib token key) as [p|e0].
        -- destruct (py_eq (dict_get p s!"token_use") (VStr s!"access"));
             cbn [negb]; [discriminate|].
           split_ifs; cognito_leaf.
        -- split_ifs; cognito_leaf.
      * split_ifs; cognito_leaf.
    + split_ifs; cognito_leaf.
  - split_ifs; cognito_leaf.
Qed.


(** X1: whatever the libraries do, an exception that leaves
    [validate_token] is one of the module's own errors, and never an
    [AuthenticationError]: a library exception is always translated. *)
Theorem X1_validate_token_raises_own_errors
    (lib : library) (token : value) (s : st TokenValidator.t) (e : exn) :
  fst (TokenValidator.validate_token lib token s) = Raise e ->
  exists c m code orig,
    e = CognitoError c m code orig /\ c <> AuthenticationError.
Proof. intros H. exact (validate_token_error_shape lib token s e H). Qed.

Lemma X1_validate_token_raises_own_errors_witness :
  fst (TokenValidator.validate_token More.lib_boom (VStr s!"x.jwt")
         Sample.start)
  = Raise (error ServiceError
             (s!"トークン検証中にエラーが発生しました: " ++ s!"boom"))
  /\ exists c m code orig,
       error ServiceError
         (s!"トークン検証中にエラーが発生しました: " ++ s!"boom")
       = CognitoError c m code orig
       /\ c <> AuthenticationError.
Proof.
  split; [reflexivity|].
  apply (X1_validate_token_raises_own_errors More.lib_boom
           (VStr s!"x.jwt") Sample.start).
  reflexivity.
Defined.

(** X2: [validate_token] returns a payload exactly when the token is
    non-empty, its header names a key that is found, [jwt.decode] returns
    that payload, and the payload's [token_use] is ["access"]; the payload
    is handed back as [jwt.decode] gave it. *)
Theorem X2_validate_token_returns_iff
    (lib : library) (token : value) (s : st TokenValidator.t)
    (payload : dict) :
  fst (TokenValidator.validate_token lib token s) = Return payload
  <-> truthy token = true
      /\ decodes_to lib token s (Return payload)
      /\ dict_get payload s!"token_use" = VStr s!"access".
Proof.
  split.
  - unfold TokenValidator.validate_token.
    destruct (truthy token) eqn:Ht; cbn [negb]; [|discriminate]. run.
    destruct (jwt_get_unverified_header lib token) as [h|e0] eqn:Hh.
    + destruct (truthy (dict_get h s!"kid")) eqn:Hk; cbn [negb].
      * destruct (TokenValidator._get_public_key lib (dict_get h s!"kid")
                    (St (self s) (world s ++ [GetUnverifiedHeader token])))
          as [[key|e0] s1] eqn:Hg.
        -- run. destruct (jwt_decode lib token key) as [p|e0] eqn:Hd.
           ++ destruct (py_eq (dict_get p s!"token_use") (VStr s!"access"))
                eqn:E; cbn [negb fst].
              ** intros H. injection H as <-.
                 split; [reflexivity|]. split.
                 --- exists h, key, s1. unfold after_header.
                     repeat split; assumption.
                 --- now apply py_eq_str_r.
              ** split_ifs; discriminate.
           ++ split_ifs; discriminate.
        -- split_ifs; discriminate.
      * split_ifs; discriminate.
    + split_ifs; discriminate.
  - intros [Ht [Hd Hu]]. to_decode Ht Hd.
    rewrite Hu, (proj2 (py_eq_str_r _ _) eq_refl). reflexivity.
Qed.

(** ** The key set: failures and lookups *)

Lemma fetch_failure_outcome
    (lib : library) (kid : value) (s : st TokenValidator.t) (e : exn) :
  truthy (TokenValidator._jwks_cache (self s)) = false ->
  fetch_fails lib s e ->
  TokenValidator._get_public_key lib kid s
  = (Raise (if isinstance_lib e RequestException
            then error ServiceError
                   (s!"JWKS取得に失敗しました: " ++ exn_str e)
            else e),
     St (self s)
        (world s ++ [HttpGet (TokenValidator.jwks_url (self s)) 10])).
Proof.
  intros Hc Hf.
  unfold TokenValidator._get_public_key, TokenValidator.fetch_jwks. run.
  rewrite Hc. run.
  destruct Hf as [Hg | [resp [Hg [Hr | [Hr Hj]]]]]; rewrite Hg; run;
    [ | rewrite Hr | rewrite Hr, Hj ]; run;
    destruct (isinstance_lib e RequestException); reflexivity.
Qed.

(** X3: with nothing cached, a failed fetch of the key set ends
    [_get_public_key] after that one attempt (there is no retry): a
    [RequestException] becomes the Service error that reports the cause,
    any other exception leaves as it is.  The instance is unchanged, so
    nothing is cached and the next lookup fetches again. *)
Theorem X3_fetch_failure
    (lib : library) (kid : value) (s : st TokenValidator.t) (e : exn) :
  truthy (TokenValidator._jwks_cache (self s)) = false ->
  fetch_fails lib s e ->
  TokenValidator._get_public_key lib kid s
  = (Raise (if isinstance_lib e RequestException
            then error ServiceError
                   (s!"JWKS取得に失敗しました: " ++ exn_str e)
            else e),
     St (self s)
        (world s ++ [HttpGet (TokenValidator.jwks_url (self s)) 10])).
Proof. apply fetch_failure_outcome. Qed.

Lemma X3_fetch_failure_witness :
  TokenValidator._get_public_key More.lib_offline (VStr s!"k1") Sample.start
  = (Raise (if isinstance_lib (LibError RequestException s!"timed out")
                 RequestException
            then error ServiceError
                   (s!"JWKS取得に失敗しました: "
                    ++ exn_str (LibError RequestException s!"timed out"))
            else LibError RequestException s!"timed out"),
     St (self Sample.start)
        (world Sample.start
         ++ [HttpGet (TokenValidator.jwks_url (self Sample.start)) 10])).
Proof.
  apply (X3_fetch_failure More.lib_offline (VStr s!"k1") Sample.start
           (LibError RequestException s!"timed out")).
  - reflexivity.
  - left. reflexivity.
Defined.

(** X4: when the key set cannot be fetched, [validate_token] raises the
    same Service error as the key lookup, unchanged, and writes no error
    log line: the only events are the header parse and the one fetch. *)
Theorem X4_validate_token_fetch_failure
    (lib : library) (token : value) (s : st TokenValidator.t)
    (h : dict) (e : exn) :
  truthy token = true ->
  jwt_get_unverified_header lib token = Return h ->
  truthy (dict_get h s!"kid") = true ->
  truthy (TokenValidator._jwks_cache (self s)) = false ->
  fetch_fails lib (after_header token s) e ->
  isinstance_lib e RequestException = true ->
  TokenValidator.validate_token lib token s
  = (Raise (error ServiceError (s!"JWKS取得に失敗しました: " ++ exn_str e)),
     St (self s)
        (world s ++ [ GetUnverifiedHeader token;
                      HttpGet (TokenValidator.jwks_url (self s)) 10 ])).
Proof.
  intros Ht Hh Hk Hc Hf He.
  pose proof (fetch_failure_outcome lib (dict_get h s!"kid")
                (after_header token s) e Hc Hf) as Hg.
  rewrite He in Hg. unfold after_header in Hg. cbn [self world] in Hg.
  unfold TokenValidator.validate_token. rewrite Ht. cbn [negb]. run.
  rewrite Hh, Hk. cbn [negb]. rewrite Hg. cbn [fst snd self world].
  rewrite <- app_assoc. reflexivity.
Qed.

Lemma X4_validate_token_fetch_failure_witness :
  TokenValidator.validate_token More.lib_offline (VStr s!"ok.jwt")
    Sample.start
  = (Raise (error ServiceError
              (s!"JWKS取得に失敗しました: "
               ++ exn_str (LibError RequestException s!"timed out"))),
     St (self Sample.start)
        (world Sample.start
         ++ [ GetUnverifiedHeader (VStr s!"ok.jwt");
              HttpGet (TokenValidator.jwks_url (self Sample.start)) 10 ])).
Proof.
  apply (X4_validate_token_fetch_failure More.lib_offline
           (VStr s!"ok.jwt") Sample.start
           [ (s!"kid", VStr s!"k1"); (s!"alg", VStr s!"RS256") ]
           (LibError RequestException s!"timed out")).
  - reflexivity.
  - reflexivity.
  - reflexivity.
  - reflexivity.
  - left. reflexivity.
  - reflexivity.
Defined.

(** X5: an exception that no [except] clause names (not an
    [InvalidTokenError], not one of the module's Authorization, Validation
    or Service errors) is logged and replaced by a Service error whose
    message carries the original text, whether it comes from the header
    parser or from [jwt.decode]. *)
Theorem X5_unexpected_error_is_logged_and_wrapped
    (lib : library) (token : value) (s : st TokenValidator.t) (e : exn) :
  truthy token = true ->
  unexpected e ->
  (jwt_get_unverified_header lib token = Raise e ->
   TokenValidator.validate_token lib token s
   = (Raise (error ServiceError
               (s!"トークン検証中にエラーが発生しました: " ++ exn_str e)),
      St (self s)
         (world s
          ++ [ GetUnverifiedHeader token;
               LogError (s!"Token validation error: " ++ exn_str e) ])))
  /\ (decodes_to lib token s (Raise e) ->
      fst (TokenValidator.validate_token lib token s)
      = Raise (error ServiceError
                 (s!"トークン検証中にエラーが発生しました: " ++ exn_str e))
      /\ exists tr,
           world (snd (TokenValidator.validate_token lib token s))
           = tr ++ [ LogError (s!"Token validation error: " ++ exn_str e) ]).
Proof.
  intros Ht [H1 [H2 [H3 H4]]].
  assert (Hx : isinstance_lib e ExpiredSignatureError = false
               /\ isinstance_lib e DecodeError = false
               /\ isinstance_lib e InvalidSignatureError = false).
  { destruct e as [| |c txt]; cbn [isinstance_lib] in *; auto.
    destruct c; cbn in *; auto; discriminate. }
  destruct Hx as [H5 [H6 H7]].
  split.
  - intros Hh. unfold TokenValidator.validate_token.
    rewrite Ht. cbn [negb]. run. rewrite Hh.
    rewrite H1, H2, H3, H4, H5, H6, H7. cbn [orb fst snd self world].
    rewrite <- app_assoc. reflexivity.
  - intros Hd. to_decode Ht Hd.
    rewrite H1, H2, H3, H4, H5, H6, H7. cbn [orb fst snd self world].
    split; [reflexivity|]. eexists. reflexivity.
Qed.

Lemma X5_unexpected_error_is_logged_and_wrapped_witness :
  TokenValidator.validate_token More.lib_boom (VStr s!"x.jwt") Sample.start
  = (Raise (error ServiceError
              (s!"トークン検証中にエラーが発生しました: "
               ++ exn_str (LibError OtherException s!"boom"))),
     St (self Sample.start)
        (world Sample.start
         ++ [ GetUnverifiedHeader (VStr s!"x.jwt");
              LogError (s!"Token validation error: "
                        ++ exn_str (LibError OtherException s!"boom")) ])).
Proof.
  apply (proj1 (X5_unexpected_error_is_logged_and_wrapped More.lib_boom
                  (VStr s!"x.jwt") Sample.start
                  (LibError OtherException s!"boom") eq_refl
                  (conj eq_refl (conj eq_refl (conj eq_refl eq_refl))))).
  reflexivity.
Defined.

Lemma find_key_first lib before key after kid s :
  Forall (has_other_kid kid) before ->
  has_kid kid key ->
  TokenValidator.find_key lib (before ++ key :: after) kid s
  = (jwt_from_jwk lib key, St (self s) (world s ++ [FromJwk key])).
Proof.
  intros Hb [kd [-> Hk]].
  induction Hb as [|k before [kd' [-> Hk']] _ IH].
  - cbn [app TokenValidator.find_key value_get]. run.
    unfold dict_get in Hk. unfold dict_get_default. rewrite Hk.
    reflexivity.
  - cbn [app TokenValidator.find_key value_get]. run.
    unfold dict_get in Hk'. unfold dict_get_default. rewrite Hk'.
    exact IH.
Qed.

(** X6: the key lookup takes the first key of the cached key set whose
    identifier equals the token's: it returns what [from_jwk] makes of that
    key (or raises what [from_jwk] raises), fetches nothing, and does not
    look at the keys after it. *)
Theorem X6_first_matching_key_wins
    (lib : library) (kid : value) (s : st TokenValidator.t)
    (d : dict) (before after : list value) (key : value) :
  TokenValidator._jwks_cache (self s) = VDict d ->
  d <> [] ->
  dict_get_default d s!"keys" (VList []) = VList (before ++ key :: after) ->
  Forall (has_other_kid kid) before ->
  has_kid kid key ->
  TokenValidator._get_public_key lib kid s
  = (jwt_from_jwk lib key, St (self s) (world s ++ [FromJwk key])).
Proof.
  intros Hc Hd Hkeys Hb Hk.
  assert (Ht : truthy (TokenValidator._jwks_cache (self s)) = true).
  { rewrite Hc. destruct d; [congruence | reflexivity]. }
  unfold TokenValidator._get_public_key. run. rewrite Ht. run.
  rewrite Hc. cbn [value_get]. rewrite Hkeys. cbn [iterate].
  now apply find_key_first.
Qed.

Lemma X6_first_matching_key_wins_witness :
  TokenValidator._get_public_key Sample.lib (VStr s!"k2") More.cached
  = (jwt_from_jwk Sample.lib (More.jwk_dup "k2" "first"),
     St (self More.cached)
        (world More.cached ++ [FromJwk (More.jwk_dup "k2" "first")])).
Proof.
  apply (X6_first_matching_key_wins Sample.lib (VStr s!"k2") More.cached
           [ (s!"keys", VList More.key_list) ]
           [ Sample.jwk "k1" ] [ More.jwk_dup "k2" "second"; VInt 7 ]
           (More.jwk_dup "k2" "first")).
  - reflexivity.
  - discriminate.
  - reflexivity.
  - constructor; [|constructor]. eexists. split; [reflexivity|].
    vm_compute. reflexivity.
  - eexists. split; [reflexivity|]. vm_compute. reflexivity.
Defined.

(** ** The user-info function and the request entry point *)

(** X7: the scope is split outside any [try]: when the validated payload
    carries a scope that is true in a Python test but is not a string (a
    list of scopes, say), [validate_and_extract_user_info] lets the raw
    [AttributeError] out instead of one of the module's errors. *)
Theorem X7_scope_not_a_string_escapes
    (lib : library) (token : value) (user_pool_id region : Py.str)
    (s : st unit) (payload : dict) (s' : st TokenValidator.t) :
  truthy token = true -> user_pool_id <> [] ->
  TokenValidator.validate_token lib token
    (St (TokenValidator.__init__ user_pool_id region) (world s))
  = (Return payload, s') ->
  truthy (dict_get payload s!"scope") = true ->
  (forall x, dict_get payload s!"scope" <> VStr x) ->
  validate_and_extract_user_info lib token user_pool_id region s
  = (Raise (AttributeError (dict_get payload s!"scope") s!"split"),
     St (self s) (world s')).
Proof.
  intros Ht Hp Hv Hs Hn.
  rewrite (validate_and_extract_projects lib token user_pool_id region s
             payload s' Ht Hp Hv).
  f_equal. unfold user_info_of_payload. rewrite Hs.
  unfold dict_get in Hs, Hn |- *. unfold dict_get_default.
  destruct (assoc s!"scope" payload) as [v|]; [|discriminate Hs].
  destruct v; try reflexivity. exfalso. now apply (Hn s0).
Qed.

Lemma X7_scope_not_a_string_escapes_witness :
  validate_and_extract_user_info More.lib_scope_list (VStr s!"ok.jwt")
    s!"ap-northeast-1_test123" s!"ap-northeast-1" (St tt [])
  = (Raise (AttributeError
              (dict_get
                 [ (s!"sub", VStr s!"user123");
                   (s!"token_use", VStr s!"access");
                   (s!"scope", VList [ VStr s!"openid"; VStr s!"email" ]) ]
                 s!"scope")
              s!"split"),
     St (self (St tt (@nil event)))
        (world (snd (TokenValidator.validate_token More.lib_scope_list
                       (VStr s!"ok.jwt")
                       (St (TokenValidator.__init__
                              s!"ap-northeast-1_test123" s!"ap-northeast-1")
                           []))))).
Proof.
  apply (X7_scope_not_a_string_escapes More.lib_scope_list
           (VStr s!"ok.jwt") s!"ap-northeast-1_test123" s!"ap-northeast-1"
           (St tt [])).
  - reflexivity.
  - discriminate.
  - vm_compute. reflexivity.
  - vm_compute. reflexivity.
  - intros x H. vm_compute in H. discriminate H.
Defined.

Lemma get_public_key_uncached_fetches lib kid s :
  truthy (TokenValidator._jwks_cache (self s)) = false ->
  fetches (world (snd (TokenValidator._get_public_key lib kid s)))
  = S (fetches (world s)).
Proof.
  intros H.
  unfold TokenValidator._get_public_key, TokenValidator.fetch_jwks. run.
  rewrite H. run.
  destruct (requests_get lib (world s) (TokenValidator.jwks_url (self s))
              10) as [resp|e]; run.
  - destruct (raise_for_status resp) as [[]|e]; run.
    + destruct (json resp) as [doc|e]; run.
      * destruct (value_get doc s!"keys" (VList [])) as [keys|e];
          [|cbn [snd world]; rewrite fetches_app; simpl; lia].
        destruct (iterate keys) as [items|e];
          [|cbn [snd world]; rewrite fetches_app; simpl; lia].
        match goal with
        | |- context [TokenValidator.find_key lib items kid ?s0] =>
          destruct (find_key_stable lib items kid s0) as [_ E2]
        end.
        rewrite E2. cbn [world]. rewrite fetches_app. simpl. lia.
      * split_ifs; cbn [snd world]; rewrite fetches_app; simpl; lia.
    + split_ifs; cbn [snd world]; rewrite fetches_app; simpl; lia.
  - split_ifs; cbn [snd world]; rewrite fetches_app; simpl; lia.
Qed.

Lemma validate_token_uncached_fetches lib token s h :
  truthy token = true ->
  jwt_get_unverified_header lib token = Return h ->
  truthy (dict_get h s!"kid") = true ->
  truthy (TokenValidator._jwks_cache (self s)) = false ->
  fetches (world (snd (TokenValidator.validate_token lib token s)))
  = S (fetches (world s)).
Proof.
  intros Ht Hh Hk Hc.
  pose proof (get_public_key_uncached_fetches lib (dict_get h s!"kid")
                (St (self s) (world s ++ [GetUnverifiedHeader token])) Hc)
    as Hf.
  cbn [world] in Hf. rewrite fetches_app in Hf. cbn [fetches] in Hf.
  unfold TokenValidator.validate_token. rewrite Ht. cbn [negb]. run.
  rewrite Hh, Hk. cbn [negb].
  destruct (TokenValidator._get_public_key lib (dict_get h s!"kid")
              (St (self s) (world s ++ [GetUnverifiedHeader token])))
    as [[key|e] s1]; cbn [snd] in Hf.
  - run. destruct (jwt_decode lib token key) as [p|e]; split_ifs;
      cbn [fst snd self world]; rewrite ?fetches_app; cbn [fetches]; lia.
  - split_ifs; cbn [fst snd self world]; rewrite ?fetches_app;
      cbn [fetches]; lia.
Qed.

(** X8: [validate_and_extract_user_info] builds a new validator for every
    call, so the key set is never reused from one call to the next: each
    call on a token whose header names a key fetches the key set exactly
    once, whatever was fetched before. *)
Theorem X8_one_fetch_per_call
    (lib : library) (token : value) (user_pool_id region : Py.str)
    (s : st unit) (h : dict) :
  truthy token = true -> user_pool_id <> [] ->
  jwt_get_unverified_header lib token = Return h ->
  truthy (dict_get h s!"kid") = true ->
  fetches (world (snd (validate_and_extract_user_info lib token user_pool_id
                         region s)))
  = S (fetches (world s)).
Proof.
  intros Ht Hp Hh Hk.
  pose proof (validate_token_uncached_fetches lib token
                (St (TokenValidator.__init__ user_pool_id region) (world s))
                h Ht Hh Hk eq_refl) as Hf.
  unfold validate_and_extract_user_info. rewrite Ht.
  destruct user_pool_id as [|c p]; [congruence|]. cbn [truthy negb].
  unfold bind, with_object, lift.
  destruct (TokenValidator.validate_token lib token
              (St (TokenValidator.__init__ (c :: p) region) (world s)))
    as [[payload|e] s1]; cbn [snd world] in *; exact Hf.
Qed.

Lemma X8_one_fetch_per_call_witness :
  fetches
    (world (snd (validate_and_extract_user_info Sample.lib (VStr s!"ok.jwt")
                   s!"ap-northeast-1_test123" s!"ap-northeast-1"
                   (St tt [ HttpGet s!"https://example.invalid/" 10 ]))))
  = S (fetches
         (world (St tt [ HttpGet s!"https://example.invalid/" 10 ]))).
Proof.
  apply (X8_one_fetch_per_call Sample.lib (VStr s!"ok.jwt")
           s!"ap-northeast-1_test123" s!"ap-northeast-1"
           (St tt [ HttpGet s!"https://example.invalid/" 10 ])
           [ (s!"kid", VStr s!"k1"); (s!"alg", VStr s!"RS256") ]).
  - reflexivity.
  - discriminate.
  - reflexivity.
  - reflexivity.
Defined.

(** X9: [require_authentication] stops at the extraction: when the event
    yields no token, it raises the extraction's error with the state as it
    was (nothing is parsed or fetched); when the event yields a token, the
    token is non-empty and the outcome is that of
    [validate_and_extract_user_info] on it. *)
Theorem X9_require_authentication
    (lib : library) (event : dict) (user_pool_id region : Py.str)
    (s : st unit) :
  (forall e,
     extract_token_from_event event = Raise e ->
     require_authentication lib event user_pool_id region s = (Raise e, s))
  /\ (forall t,
        extract_token_from_event event = Return t ->
        t <> []
        /\ require_authentication lib event user_pool_id region s
           = validate_and_extract_user_info lib (VStr t) user_pool_id region
               s).
Proof.
  split.
  - intros e H. unfold require_authentication, bind, lift. now rewrite H.
  - intros t H. split.
    + unfold extract_token_from_event in H.
      destruct (dict_get_default event s!"headers" (VDict []));
        try discriminate H.
      destruct (truthy (find_auth_header d)); [|discriminate H].
      cbn [negb] in H.
      destruct (find_auth_header d) as [| | |x| |] eqn:Hv.
      4:{ apply extract_header_iff in H.
          destruct H as [_ [_ [_ [_ [_ [_ [Hne _]]]]]]]. exact Hne. }
      all: unfold extract_token_from_header in H;
        destruct (negb _); discriminate H.
    + unfold require_authentication, bind, lift. now rewrite H.
Qed.

(** ** The response builders *)

Lemma error_response_parts error status_code :
  exists n kind,
    create_auth_error_response error status_code
    = [ (s!"statusCode", VInt n); (s!"headers", cors_headers);
        (s!"body",
         VDict [ (s!"error", VStr kind);
                 (s!"message", VStr (exn_str error)) ]) ]
    /\ n = match status_code with
           | Some m => if (m =? 0)%Z then
                         match error with
                         | CognitoError ValidationError _ _ _ => 400
                         | CognitoError AuthenticationError _ _ _ => 401
                         | CognitoError AuthorizationError _ _ _ => 401
                         | CognitoError ServiceError _ _ _ => 503
                         | _ => 500
                         end
                       else m
           | None =>
             match error with
             | CognitoError ValidationError _ _ _ => 400
             | CognitoError AuthenticationError _ _ _ => 401
             | CognitoError AuthorizationError _ _ _ => 401
             | CognitoError ServiceError _ _ _ => 503
             | _ => 500
             end
           end%Z.
Proof.
  unfold create_auth_error_response.
  destruct error as [[] m code orig|c m t|c t];
    cbn [isinstance_cognito category_eqb];
    (destruct status_code as [k|];
     [cbn [truthy]; destruct (k =? 0)%Z; cbn [negb]|]);
    do 2 eexists; split; reflexivity.
Qed.

Lemma status_of_parts n headers body :
  status_of [ (s!"statusCode", VInt n); (s!"headers", headers);
              (s!"body", body) ] = VInt n.
Proof. vm_compute. reflexivity. Qed.

(** X10: the status of an error response is the caller's [status_code]
    when it is a non-zero number; [None] and [0] both give the default of
    the error's class: 400 for a Validation error, 401 for an
    Authentication or an Authorization error, 503 for a Service error and
    500 for any other exception.  The status is therefore never 0. *)
Theorem X10_error_response_status (error : exn) :
  (forall n, n <> 0%Z ->
     status_of (create_auth_error_response error (Some n)) = VInt n)
  /\ status_of (create_auth_error_response error (Some 0%Z))
     = status_of (create_auth_error_response error None)
  /\ status_of (create_auth_error_response error None)
     = VInt match error with
            | CognitoError ValidationError _ _ _ => 400
            | CognitoError AuthenticationError _ _ _ => 401
            | CognitoError AuthorizationError _ _ _ => 401
            | CognitoError ServiceError _ _ _ => 503
            | _ => 500
            end
  /\ (forall status_code,
        status_of (create_auth_error_response error status_code)
        <> VInt 0).
Proof.
  split.
  { intros n Hn.
    destruct (error_response_parts error (Some n)) as [k [kind [-> ->]]].
    rewrite status_of_parts.
    destruct (Z.eqb_spec n 0); [congruence | reflexivity]. }
  split.
  { destruct (error_response_parts error (Some 0%Z)) as [k [kind [-> ->]]].
    destruct (error_response_parts error None) as [k' [kind' [-> ->]]].
    now rewrite !status_of_parts. }
  split.
  { destruct (error_response_parts error None) as [k [kind [-> ->]]].
    now rewrite status_of_parts. }
  intros status_code.
  destruct (error_response_parts error status_code) as [k [kind [-> ->]]].
  rewrite status_of_parts. intros H. injection H as H.
  destruct status_code as [m|];
    [destruct (Z.eqb_spec m 0); [|congruence]|];
    destruct error as [[] ? ? ?| |]; discriminate H.
Qed.

(** X11: whatever makes [validate_token] fail, the error response built
    from its exception with the default status is a 400, a 401 or a 503,
    never the 500 of an unclassified exception. *)
Theorem X11_validate_token_error_status
    (lib : library) (token : value) (s : st TokenValidator.t) (e : exn) :
  fst (TokenValidator.validate_token lib token s) = Raise e ->
  status_of (create_auth_error_response e None) = VInt 400
  \/ status_of (create_auth_error_response e None) = VInt 401
  \/ status_of (create_auth_error_response e None) = VInt 503.
Proof.
  intros H.
  destruct (validate_token_error_shape lib token s e H)
    as [c [m [code [orig [-> Hc]]]]].
  destruct (error_response_parts (CognitoError c m code orig) None)
    as [k [kind [-> ->]]].
  rewrite status_of_parts. destruct c; auto.
Qed.

Lemma X11_validate_token_error_status_witness :
  status_of
    (create_auth_error_response
       (error AuthorizationError msg_token_expired) None) = VInt 400
  \/ status_of
       (create_auth_error_response
          (error AuthorizationError msg_token_expired) None) = VInt 401
  \/ status_of
       (create_auth_error_response
          (error AuthorizationError msg_token_expired) None) = VInt 503.
Proof.
  apply (X11_validate_token_error_status Sample.lib (VStr s!"expired.jwt")
           Sample.start).
  vm_compute. reflexivity.
Defined.

(** ** The directory client: every method *)

Lemma handle_client_error_raises code message text context (s : st unit) :
  exists c m,
    CognitoClient._handle_client_error code message text context s
    = (Raise (CognitoError c m (Some code)
                (Some (ClientError code message text))),
       St (self s)
          (world s
           ++ [LogWarning (context ++ s!": " ++ code ++ s!" - "
                           ++ message)])).
Proof.
  unfold CognitoClient._handle_client_error, bind, emit, raise.
  split_ifs; do 2 eexists; reflexivity.
Qed.

Lemma handle_raises context unexpected_text e (s : dstate) :
  exists c m code orig s',
    Directory.handle context unexpected_text e s
    = (Raise (CognitoError c m code orig), s')
    /\ self s' = self s.
Proof.
  unfold Directory.handle. destruct e as [c m code orig|code m txt|c txt].
  - do 5 eexists. split; reflexivity.
  - unfold bind, with_object.
    destruct (handle_client_error_raises code m txt context
                (St tt (world s))) as [c [msg ->]].
    do 5 eexists. split; reflexivity.
  - do 5 eexists. split; reflexivity.
Qed.

(** One provider call inside the [try], its answer normalised by [k]. *)
Lemma try_invoke_shape client c (k : value -> result value)
    context unexpected_text (s : dstate) :
  exists r s',
    try_except (response <- invoke client c ;; lift (k response))
      (Directory.handle context unexpected_text) s = (r, s')
    /\ self s' = self s ++ [c]
    /\ match r with
       | Return v =>
         exists response,
           client (self s) c = Return response /\ k response = Return v
       | Raise e => exists cat m code orig, e = CognitoError cat m code orig
       end.
Proof.
  unfold try_except, bind, invoke, lift.
  destruct (client (self s) c) as [response|e] eqn:Hc.
  - destruct (k response) as [v|e] eqn:Hk.
    + do 2 eexists. split; [reflexivity|]. split; [reflexivity|].
      exists response. auto.
    + destruct (handle_raises context unexpected_text e
                  (St (self s ++ [c]) (world s)))
        as [cat [m [code [orig [s' [-> Hs]]]]]].
      do 2 eexists. split; [reflexivity|]. split; [exact Hs|].
      do 4 eexists. reflexivity.
  - destruct (handle_raises context unexpected_text e
                (St (self s ++ [c]) (world s)))
      as [cat [m [code [orig [s' [-> Hs]]]]]].
    do 2 eexists. split; [reflexivity|]. split; [exact Hs|].
    do 4 eexists. reflexivity.
Qed.

Lemma provider_calls_app a b :
  provider_calls (a ++ b) = provider_calls a + provider_calls b.
Proof.
  induction a as [|e a IH]; [reflexivity|].
  destruct e; simpl; rewrite IH; reflexivity.
Qed.

(** X12: with a non-empty email and password, [authenticate] makes
    exactly one provider call, whatever the provider answers, and ends in
    one of two ways: it returns a token bundle (a [dict], never [None]),
    or it raises one of the module's errors, never a raw exception. *)
Theorem X12_authenticate_one_call
    (lib : library) (o : CognitoClient.t) (email password : value)
    (s : st unit) :
  truthy email = true -> truthy password = true ->
  provider_calls
    (world (snd (CognitoClient.authenticate lib o email password s)))
  = S (provider_calls (world s))
  /\ ((exists d,
         fst (CognitoClient.authenticate lib o email password s)
         = Return (VDict d))
      \/ (exists c m code orig,
            fst (CognitoClient.authenticate lib o email password s)
            = Raise (CognitoError c m code orig))).
Proof.
  intros He Hp. unfold CognitoClient.authenticate.
  rewrite He, Hp. cbn [negb orb]. run.
  destruct (initiate_auth lib (world s) (CognitoClient.client_id o) email
              password) as [response|e].
  - destruct (CognitoClient._normalize_auth_response response) as [r|e].
    + cbn [fst snd world]. rewrite provider_calls_app. split;
        [simpl; lia | left; eexists; reflexivity].
    + destruct e as [c m code orig|code m txt|c txt].
      * cbn [fst snd world]. rewrite provider_calls_app. split;
          [simpl; lia | right; do 4 eexists; reflexivity].
      * destruct (handle_client_error_raises code m txt
                    s!"Authentication failed"
                    (St (self s)
                       (world s
                        ++ [InitiateAuth (CognitoClient.client_id o) email
                              password]))) as [c [msg ->]].
        cbn [fst snd world]. rewrite !provider_calls_app. split;
          [simpl; lia | right; do 4 eexists; reflexivity].
      * cbn [fst snd world]. rewrite provider_calls_app. split;
          [simpl; lia | right; do 4 eexists; reflexivity].
  - destruct e as [c m code orig|code m txt|c txt].
    + cbn [fst snd world]. rewrite provider_calls_app. split;
        [simpl; lia | right; do 4 eexists; reflexivity].
    + destruct (handle_client_error_raises code m txt
                  s!"Authentication failed"
                  (St (self s)
                     (world s
                      ++ [InitiateAuth (CognitoClient.client_id o) email
                            password]))) as [c [msg ->]].
      cbn [fst snd world]. rewrite !provider_calls_app. split;
        [simpl; lia | right; do 4 eexists; reflexivity].
    + cbn [fst snd world]. rewrite provider_calls_app. split;
        [simpl; lia | right; do 4 eexists; reflexivity].
Qed.

Lemma X12_authenticate_one_call_witness :
  provider_calls
    (world (snd (CognitoClient.authenticate Sample.lib Sample.client
                   (VStr s!"user@example.com") (VStr s!"secret")
                   (St tt []))))
  = S (provider_calls (world (St tt (@nil event))))
  /\ ((exists d,
         fst (CognitoClient.authenticate Sample.lib Sample.client
                (VStr s!"user@example.com") (VStr s!"secret") (St tt []))
         = Return (VDict d))
      \/ (exists c m code orig,
            fst (CognitoClient.authenticate Sample.lib Sample.client
                   (VStr s!"user@example.com") (VStr s!"secret")
                   (St tt []))
            = Raise (CognitoError c m code orig))).
Proof.
  apply (X12_authenticate_one_call Sample.lib Sample.client
           (VStr s!"user@example.com") (VStr s!"secret") (St tt []));
    reflexivity.
Defined.

(** X13: [authenticate] does not require the provider's answer to carry
    tokens.  When the answer has no [AuthenticationResult] (a challenge,
    for instance), the call succeeds with a bundle whose three tokens are
    [None], [token_type] ["Bearer"] and [expires_in] 3600; when it has
    one, each token is the entry of that name, [None] when it is not
    there, and the two defaults fill in for a missing type and expiry. *)
Theorem X13_authenticate_bundle
    (lib : library) (o : CognitoClient.t) (email password : value)
    (s : st unit) (response : dict) :
  truthy email = true -> truthy password = true ->
  initiate_auth lib (world s) (CognitoClient.client_id o) email password
  = Return (VDict response) ->
  (assoc s!"AuthenticationResult" response = None ->
   fst (CognitoClient.authenticate lib o email password s)
   = Return (VDict [ (s!"access_token", VNone);
                     (s!"refresh_token", VNone);
                     (s!"id_token", VNone);
                     (s!"token_type", VStr s!"Bearer");
                     (s!"expires_in", VInt 3600) ]))
  /\ (forall d,
        assoc s!"AuthenticationResult" response = Some (VDict d) ->
        fst (CognitoClient.authenticate lib o email password s)
        = Return (VDict
                    [ (s!"access_token", dict_get d s!"AccessToken");
                      (s!"refresh_token", dict_get d s!"RefreshToken");
                      (s!"id_token", dict_get d s!"IdToken");
                      (s!"token_type",
                       match assoc s!"TokenType" d with
                       | Some t => t
                       | None => VStr s!"Bearer"
                       end);
                      (s!"expires_in",
                       match assoc s!"ExpiresIn" d with
                       | Some t => t
                       | None => VInt 3600
                       end) ])).
Proof.
  intros He Hp Hi. unfold CognitoClient.authenticate.
  rewrite He, Hp. cbn [negb orb]. run. rewrite Hi.
  unfold CognitoClient._normalize_auth_response.
  cbn [value_get].
  change (dict_get_default response s!"AuthenticationResult" (VDict []))
    with (match assoc s!"AuthenticationResult" response with
          | Some v => v
          | None => VDict []
          end).
  split.
  - intros Ha. rewrite Ha. vm_compute. reflexivity.
  - intros d Ha. rewrite Ha. reflexivity.
Qed.

Lemma X13_authenticate_bundle_witness :
  (assoc s!"AuthenticationResult"
     [ (s!"ChallengeName", VStr s!"NEW_PASSWORD_REQUIRED") ] = None ->
   fst (CognitoClient.authenticate More.lib_scope_list Sample.client
          (VStr s!"user@example.com") (VStr s!"secret") (St tt []))
   = Return (VDict [ (s!"access_token", VNone);
                     (s!"refresh_token", VNone);
                     (s!"id_token", VNone);
                     (s!"token_type", VStr s!"Bearer");
                     (s!"expires_in", VInt 3600) ]))
  /\ (forall d,
        assoc s!"AuthenticationResult"
          [ (s!"ChallengeName", VStr s!"NEW_PASSWORD_REQUIRED") ]
        = Some (VDict d) ->
        fst (CognitoClient.authenticate More.lib_scope_list Sample.client
               (VStr s!"user@example.com") (VStr s!"secret") (St tt []))
        = Return (VDict
                    [ (s!"access_token", dict_get d s!"AccessToken");
                      (s!"refresh_token", dict_get d s!"RefreshToken");
                      (s!"id_token", dict_get d s!"IdToken");
                      (s!"token_type",
                       match assoc s!"TokenType" d with
                       | Some t => t
                       | None => VStr s!"Bearer"
                       end);
                      (s!"expires_in",
                       match assoc s!"ExpiresIn" d with
                       | Some t => t
                       | None => VInt 3600
                       end) ])).
Proof.
  apply (X13_authenticate_bundle More.lib_scope_list Sample.client
           (VStr s!"user@example.com") (VStr s!"secret") (St tt [])
           [ (s!"ChallengeName", VStr s!"NEW_PASSWORD_REQUIRED") ]);
    reflexivity.
Defined.

(** X14: each of the other four methods checks its arguments first: an
    empty or missing access token, email or password raises the Validation
    error of the method with the state as it was, so the provider is not
    called; [create_user] does so before it looks at the extra
    attributes. *)
Theorem X14_argument_guards (client : Provider.t) (o : CognitoClient.t)
    (s : dstate) :
  (forall access_token,
     empty_or_missing access_token ->
     Directory.logout client access_token s
     = (Raise (error ValidationError s!"Access token is required"), s)
     /\ Directory.get_user_info client access_token s
        = (Raise (error ValidationError s!"Access token is required"), s))
  /\ (forall email password attributes,
        empty_or_missing email \/ empty_or_missing password ->
        Directory.create_user client o email password attributes s
        = (Raise (error ValidationError s!"Email and password are required"),
           s))
  /\ Directory.delete_user client o None s
     = (Raise (error ValidationError s!"Email is required"), s)
  /\ Directory.delete_user client o (Some []) s
     = (Raise (error ValidationError s!"Email is required"), s).
Proof.
  split.
  { intros t [-> | ->]; split; reflexivity. }
  split.
  { intros email password attributes H.
    assert (E : (negb (truthy email) || negb (truthy password))%bool
                = true).
    { destruct H as [[-> | ->] | [-> | ->]]; cbn [truthy negb];
        rewrite ?orb_true_r; reflexivity. }
    unfold Directory.create_user. rewrite E. reflexivity. }
  split; reflexivity.
Qed.

(** X15: with a non-empty access token, [logout] makes exactly one
    provider call, the global sign-out of that token.  If the provider
    answers, whatever the answer, the result is the fixed success record;
    otherwise the method raises one of the module's errors.  It never
    returns [None]. *)
Theorem X15_logout (client : Provider.t) (access_token : value)
    (s : dstate) :
  truthy access_token = true ->
  self (snd (Directory.logout client access_token s))
  = self s ++ [Provider.GlobalSignOut access_token]
  /\ (forall response,
        client (self s) (Provider.GlobalSignOut access_token)
        = Return response ->
        Directory.logout client access_token s
        = (Return (VDict [ (s!"success", VBool true);
                           (s!"message",
                            VStr s!"Successfully logged out") ]),
           St (self s ++ [Provider.GlobalSignOut access_token]) (world s)))
  /\ (forall e,
        client (self s) (Provider.GlobalSignOut access_token) = Raise e ->
        exists c m code orig,
          fst (Directory.logout client access_token s)
          = Raise (CognitoError c m code orig)).
Proof.
  intros Ht. unfold Directory.logout. rewrite Ht. cbn [negb].
  destruct (try_invoke_shape client (Provider.GlobalSignOut access_token)
              (fun _ => Return (VDict [ (s!"success", VBool true);
                                        (s!"message",
                                         VStr s!"Successfully logged out") ]))
              s!"Logout failed" s!"Unexpected error during logout: " s)
    as [r [s' [E [Hs Hr]]]].
  change (try_except
            (_ <- invoke client (Provider.GlobalSignOut access_token) ;;
             ret (VDict [ (s!"success", VBool true);
                          (s!"message", VStr s!"Successfully logged out") ]))
            (Directory.handle s!"Logout failed"
               s!"Unexpected error during logout: ") s = (r, s')) in E.
  rewrite E. cbn [fst snd]. split; [exact Hs|]. split.
  - intros response Hc. revert E.
    unfold try_except, bind, invoke, ret. rewrite Hc. intros E.
    symmetry. exact E.
  - intros e Hc. destruct r as [v|e'].
    + destruct Hr as [response [Hc' _]]. congruence.
    + destruct Hr as [c [m [code [orig ->]]]]. do 4 eexists. reflexivity.
Qed.

Lemma X15_logout_witness :
  self (snd (Directory.logout Desk.client (VStr s!"a.b.c") Desk.start))
  = self Desk.start ++ [Provider.GlobalSignOut (VStr s!"a.b.c")]
  /\ (forall response,
        Desk.client (self Desk.start)
          (Provider.GlobalSignOut (VStr s!"a.b.c")) = Return response ->
        Directory.logout Desk.client (VStr s!"a.b.c") Desk.start
        = (Return (VDict [ (s!"success", VBool true);
                           (s!"message",
                            VStr s!"Successfully logged out") ]),
           St (self Desk.start
               ++ [Provider.GlobalSignOut (VStr s!"a.b.c")])
              (world Desk.start)))
  /\ (forall e,
        Desk.client (self Desk.start)
          (Provider.GlobalSignOut (VStr s!"a.b.c")) = Raise e ->
        exists c m code orig,
          fst (Directory.logout Desk.client (VStr s!"a.b.c") Desk.start)
          = Raise (CognitoError c m code orig)).
Proof.
  apply (X15_logout Desk.client (VStr s!"a.b.c") Desk.start).
  reflexivity.
Defined.

(** X16: with a non-empty email, [delete_user] makes exactly one provider
    call, the deletion of that user in the client's pool.  If the provider
    answers, the result is the success record whose message names the
    email; otherwise the method raises one of the module's errors. *)
Theorem X16_delete_user (client : Provider.t) (o : CognitoClient.t)
    (email : Py.str) (s : dstate) :
  email <> [] ->
  self (snd (Directory.delete_user client o (Some email) s))
  = self s
    ++ [Provider.AdminDeleteUser (CognitoClient.user_pool_id o)
          (VStr email)]
  /\ (forall response,
        client (self s)
          (Provider.AdminDeleteUser (CognitoClient.user_pool_id o)
             (VStr email)) = Return response ->
        fst (Directory.delete_user client o (Some email) s)
        = Return (VDict [ (s!"success", VBool true);
                          (s!"message",
                           VStr (s!"User " ++ email
                                 ++ s!" successfully deleted")) ]))
  /\ (forall e,
        client (self s)
          (Provider.AdminDeleteUser (CognitoClient.user_pool_id o)
             (VStr email)) = Raise e ->
        exists c m code orig,
          fst (Directory.delete_user client o (Some email) s)
          = Raise (CognitoError c m code orig)).
Proof.
  intros He. destruct email as [|ch em]; [congruence|].
  unfold Directory.delete_user.
  destruct (try_invoke_shape client
              (Provider.AdminDeleteUser (CognitoClient.user_pool_id o)
                 (VStr (ch :: em)))
              (fun _ => Return (VDict [ (s!"success", VBool true);
                                        (s!"message",
                                         VStr (s!"User " ++ (ch :: em)
                                               ++ s!" successfully deleted")) ]))
              s!"Failed to delete user" s!"Unexpected error deleting user: "
              s)
    as [r [s' [E [Hs Hr]]]].
  change (try_except
            (_ <- invoke client
                    (Provider.AdminDeleteUser (CognitoClient.user_pool_id o)
                       (VStr (ch :: em))) ;;
             ret (VDict [ (s!"success", VBool true);
                          (s!"message",
                           VStr (s!"User " ++ (ch :: em)
                                 ++ s!" successfully deleted")) ]))
            (Directory.handle s!"Failed to delete user"
               s!"Unexpected error deleting user: ") s = (r, s')) in E.
  rewrite E. cbn [fst snd]. split; [exact Hs|]. split.
  - intros response Hc. destruct r as [v|e'].
    + destruct Hr as [response' [_ Hv]]. congruence.
    + revert E. unfold try_except, bind, invoke, ret. rewrite Hc.
      discriminate.
  - intros e Hc. destruct r as [v|e'].
    + destruct Hr as [response [Hc' _]]. congruence.
    + destruct Hr as [c [m [code [orig ->]]]]. do 4 eexists. reflexivity.
Qed.

Lemma X16_delete_user_witness :
  self (snd (Directory.delete_user Desk.client Sample.client
               (Some s!"user@example.com") Desk.start))
  = self Desk.start
    ++ [Provider.AdminDeleteUser (CognitoClient.user_pool_id Sample.client)
          (VStr s!"user@example.com")]
  /\ (forall response,
        Desk.client (self Desk.start)
          (Provider.AdminDeleteUser
             (CognitoClient.user_pool_id Sample.client)
             (VStr s!"user@example.com")) = Return response ->
        fst (Directory.delete_user Desk.client Sample.client
               (Some s!"user@example.com") Desk.start)
        = Return (VDict [ (s!"success", VBool true);
                          (s!"message",
                           VStr (s!"User " ++ s!"user@example.com"
                                 ++ s!" successfully deleted")) ]))
  /\ (forall e,
        Desk.client (self Desk.start)
          (Provider.AdminDeleteUser
             (CognitoClient.user_pool_id Sample.client)
             (VStr s!"user@example.com")) = Raise e ->
        exists c m code orig,
          fst (Directory.delete_user Desk.client Sample.client
                 (Some s!"user@example.com") Desk.start)
          = Raise (CognitoError c m code orig)).
Proof.
  apply (X16_delete_user Desk.client Sample.client s!"user@example.com"
           Desk.start).
  discriminate.
Defined.

(** ** The directory client: attributes *)

Lemma vdict_store_str_keyed d k v :
  str_keyed d -> str_keyed (vdict_store d (VStr k) v).
Proof.
  unfold str_keyed.
  induction 1 as [|[k' w] d [n Hn] Hd IH]; cbn [vdict_store].
  - constructor; [exists k; reflexivity | constructor].
  - cbn [fst] in Hn. subst k'. cbn [py_eq].
    destruct (Py.eqb n k); constructor; try assumption;
      exists n; reflexivity.
Qed.

Lemma vdict_get_store d k v k' :
  str_keyed d ->
  vdict_get (vdict_store d (VStr k) v) (VStr k')
  = if Py.eqb k k' then v else vdict_get d (VStr k').
Proof.
  unfold str_keyed.
  induction 1 as [|[kk w] d [n Hn] _ IH]; cbn [vdict_store vdict_get py_eq].
  - destruct (Py.eqb k k'); reflexivity.
  - cbn [fst] in Hn. subst kk. cbn [py_eq].
    destruct (Py.eqb n k) eqn:Enk; cbn [vdict_get py_eq].
    + apply Py_eqb_eq in Enk. subst n.
      destruct (Py.eqb k k'); reflexivity.
    + rewrite IH. destruct (Py.eqb n k') eqn:Enk'; [|reflexivity].
      apply Py_eqb_eq in Enk'. subst n.
      destruct (Py.eqb k k') eqn:E; [|reflexivity].
      apply Py_eqb_eq in E. subst k'. rewrite Py_eqb_refl in Enk.
      discriminate Enk.
Qed.

Lemma subscript_attribute name v :
  subscript (Directory.attribute name v) s!"Value" = Return v
  /\ subscript (Directory.attribute name v) s!"Name" = Return (VStr name).
Proof. split; vm_compute; reflexivity. Qed.

Lemma collect_attributes_pairs pairs : forall acc,
  Directory.collect_attributes acc (attribute_list pairs)
  = Return (fold_left (fun a p => vdict_store a (VStr (fst p)) (snd p))
              pairs acc).
Proof.
  induction pairs as [|[n v] pairs IH]; intros acc; [reflexivity|].
  cbn [attribute_list map Directory.collect_attributes fst snd].
  destruct (subscript_attribute n v) as [-> ->].
  cbn [vdict_setitem fold_left fst snd]. apply IH.
Qed.

Lemma fold_store_get name pairs : forall acc,
  str_keyed acc ->
  vdict_get (fold_left (fun a p => vdict_store a (VStr (fst p)) (snd p))
               pairs acc) (VStr name)
  = fold_left (fun a p => if Py.eqb (fst p) name then snd p else a)
      pairs (vdict_get acc (VStr name)).
Proof.
  induction pairs as [|[n v] pairs IH]; intros acc Hacc; [reflexivity|].
  cbn [fold_left fst snd].
  rewrite IH by now apply vdict_store_str_keyed.
  now rewrite vdict_get_store.
Qed.

Lemma collected_last_value pairs :
  exists d,
    Directory.collect_attributes [] (attribute_list pairs) = Return d
    /\ forall name, vdict_get d (VStr name) = last_value name pairs.
Proof.
  eexists. split; [apply collect_attributes_pairs|].
  intros name. rewrite fold_store_get by constructor. reflexivity.
Qed.

(** X17: [get_user_info] reads each field of its record from the last
    attribute of that name in the provider's list (a later attribute
    replaces an earlier one of the same name) and gives [None] for a name
    that does not occur; [email_verified] is the boolean that is true
    exactly when that attribute is the string ["true"]; the username is
    the answer's [Username]. *)
Theorem X17_get_user_info_record
    (client : Provider.t) (access_token : value) (s : dstate)
    (response : dict) (pairs : list (Py.str * value)) :
  truthy access_token = true ->
  client (self s) (Provider.GetUser access_token) = Return (VDict response) ->
  assoc s!"UserAttributes" response = Some (VList (attribute_list pairs)) ->
  Directory.get_user_info client access_token s
  = (Return
       (VDict
          [ (s!"user_id", last_value s!"sub" pairs);
            (s!"username", dict_get response s!"Username");
            (s!"email", last_value s!"email" pairs);
            (s!"attributes",
             VDict
               [ (s!"email_verified",
                  VBool (py_eq (last_value s!"email_verified" pairs)
                           (VStr s!"true")));
                 (s!"given_name", last_value s!"given_name" pairs);
                 (s!"family_name", last_value s!"family_name" pairs);
                 (s!"phone_number", last_value s!"phone_number" pairs) ]) ]),
     St (self s ++ [Provider.GetUser access_token]) (world s)).
Proof.
  intros Ht Hc Ha. unfold Directory.get_user_info.
  rewrite Ht. cbn [negb]. unfold try_except, bind, invoke, lift.
  rewrite Hc. unfold Directory._normalize_user_response.
  cbn [value_get]. unfold dict_get_default, dict_get. rewrite Ha.
  cbn [iterate].
  destruct (collected_last_value pairs) as [d [-> Hd]].
  rewrite !Hd. reflexivity.
Qed.

Lemma X17_get_user_info_record_witness :
  Directory.get_user_info Desk.client (VStr s!"a.b.c") Desk.start
  = (Return
       (VDict
          [ (s!"user_id",
             last_value s!"sub"
               [ (s!"sub", VStr s!"user123");
                 (s!"email", VStr s!"old@example.com");
                 (s!"email_verified", VStr s!"true");
                 (s!"email", VStr s!"new@example.com") ]);
            (s!"username",
             dict_get
               [ (s!"Username", VStr s!"testuser");
                 (s!"UserAttributes",
                  VList
                    (attribute_list
                       [ (s!"sub", VStr s!"user123");
                         (s!"email", VStr s!"old@example.com");
                         (s!"email_verified", VStr s!"true");
                         (s!"email", VStr s!"new@example.com") ])) ]
               s!"Username");
            (s!"email",
             last_value s!"email"
               [ (s!"sub", VStr s!"user123");
                 (s!"email", VStr s!"old@example.com");
                 (s!"email_verified", VStr s!"true");
                 (s!"email", VStr s!"new@example.com") ]);
            (s!"attributes",
             VDict
               [ (s!"email_verified",
                  VBool
                    (py_eq
                       (last_value s!"email_verified"
                          [ (s!"sub", VStr s!"user123");
                            (s!"email", VStr s!"old@example.com");
                            (s!"email_verified", VStr s!"true");
                            (s!"email", VStr s!"new@example.com") ])
                       (VStr s!"true")));
                 (s!"given_name",
                  last_value s!"given_name"
                    [ (s!"sub", VStr s!"user123");
                      (s!"email", VStr s!"old@example.com");
                      (s!"email_verified", VStr s!"true");
                      (s!"email", VStr s!"new@example.com") ]);
                 (s!"family_name",
                  last_value s!"family_name"
                    [ (s!"sub", VStr s!"user123");
                      (s!"email", VStr s!"old@example.com");
                      (s!"email_verified", VStr s!"true");
                      (s!"email", VStr s!"new@example.com") ]);
                 (s!"phone_number",
                  last_value s!"phone_number"
                    [ (s!"sub", VStr s!"user123");
                      (s!"email", VStr s!"old@example.com");
                      (s!"email_verified", VStr s!"true");
                      (s!"email", VStr s!"new@example.com") ]) ]) ]),
     St (self Desk.start ++ [Provider.GetUser (VStr s!"a.b.c")])
        (world Desk.start)).
Proof.
  apply (X17_get_user_info_record Desk.client (VStr s!"a.b.c") Desk.start
           [ (s!"Username", VStr s!"testuser");
             (s!"UserAttributes",
              VList
                (attribute_list
                   [ (s!"sub", VStr s!"user123");
                     (s!"email", VStr s!"old@example.com");
                     (s!"email_verified", VStr s!"true");
                     (s!"email", VStr s!"new@example.com") ])) ]
           [ (s!"sub", VStr s!"user123");
             (s!"email", VStr s!"old@example.com");
             (s!"email_verified", VStr s!"true");
             (s!"email", VStr s!"new@example.com") ]).
  - reflexivity.
  - reflexivity.
  - vm_compute. reflexivity.
Defined.

(** X18: with a non-empty email and password and the extra attributes a
    [dict] or [None], [create_user] makes exactly one provider call: the
    creation of the user [email] in the client's pool with the password as
    temporary password and the welcome message suppressed.  The attributes
    it sends are [email], then [email_verified] with the string ["true"],
    then the caller's in their order: a caller's attribute of one of those
    two names is sent as well, after them, and replaces nothing. *)
Theorem X18_create_user_call
    (client : Provider.t) (o : CognitoClient.t)
    (email password attributes : value) (s : dstate) :
  truthy email = true -> truthy password = true ->
  attributes = VNone \/ (exists d, attributes = VDict d) ->
  self (snd (Directory.create_user client o email password attributes s))
  = self s
    ++ [ Provider.AdminCreateUser (CognitoClient.user_pool_id o) email
           ([ Directory.attribute s!"email" email;
              Directory.attribute s!"email_verified" (VStr s!"true") ]
            ++ attribute_list (extra_attributes attributes))
           password s!"SUPPRESS" ]
  /\ ((exists v,
         fst (Directory.create_user client o email password attributes s)
         = Return v)
      \/ (exists c m code orig,
            fst (Directory.create_user client o email password attributes s)
            = Raise (CognitoError c m code orig))).
Proof.
  intros He Hp Ha.
  assert (Hstep :
    (if truthy attributes
     then match attributes with
          | VDict d =>
            ret ([ Directory.attribute s!"email" email;
                   Directory.attribute s!"email_verified" (VStr s!"true") ]
                 ++ map (fun kv => Directory.attribute (fst kv) (snd kv)) d)
          | v => raise (AttributeError v s!"items")
          end
     else ret [ Directory.attribute s!"email" email;
                Directory.attribute s!"email_verified" (VStr s!"true") ]
     : M dstate (list value)) s
    = (Return ([ Directory.attribute s!"email" email;
                 Directory.attribute s!"email_verified" (VStr s!"true") ]
               ++ attribute_list (extra_attributes attributes)), s)).
  { destruct Ha as [-> | [d ->]]; [reflexivity|].
    destruct d; reflexivity. }
  destruct (try_invoke_shape client
              (Provider.AdminCreateUser (CognitoClient.user_pool_id o) email
                 ([ Directory.attribute s!"email" email;
                    Directory.attribute s!"email_verified" (VStr s!"true") ]
                  ++ attribute_list (extra_attributes attributes))
                 password s!"SUPPRESS")
              Directory._normalize_create_user_response
              s!"Failed to create user" s!"Unexpected error creating user: "
              s)
    as [r [s' [E [Hs Hr]]]].
  assert (Hrun : Directory.create_user client o email password attributes s
                 = (r, s')).
  { unfold Directory.create_user. rewrite He, Hp. cbn [negb orb].
    unfold bind at 1. rewrite Hstep. exact E. }
  rewrite Hrun. cbn [fst snd]. split; [exact Hs|].
  destruct r as [v|e].
  - left. eexists. reflexivity.
  - right. destruct Hr as [c [m [code [orig ->]]]]. do 4 eexists.
    reflexivity.
Qed.

Lemma X18_create_user_call_witness :
  self (snd (Directory.create_user Desk.client Sample.client
               (VStr s!"user@example.com") (VStr s!"Temp#1234")
               (VDict [ (s!"email", VStr s!"other@example.com") ])
               Desk.start))
  = self Desk.start
    ++ [ Provider.AdminCreateUser
           (CognitoClient.user_pool_id Sample.client)
           (VStr s!"user@example.com")
           ([ Directory.attribute s!"email" (VStr s!"user@example.com");
              Directory.attribute s!"email_verified" (VStr s!"true") ]
            ++ attribute_list
                 (extra_attributes
                    (VDict [ (s!"email", VStr s!"other@example.com") ])))
           (VStr s!"Temp#1234") s!"SUPPRESS" ]
  /\ ((exists v,
         fst (Directory.create_user Desk.client Sample.client
                (VStr s!"user@example.com") (VStr s!"Temp#1234")
                (VDict [ (s!"email", VStr s!"other@example.com") ])
                Desk.start)
         = Return v)
      \/ (exists c m code orig,
            fst (Directory.create_user Desk.client Sample.client
                   (VStr s!"user@example.com") (VStr s!"Temp#1234")
                   (VDict [ (s!"email", VStr s!"other@example.com") ])
                   Desk.start)
            = Raise (CognitoError c m code orig))).
Proof.
  apply (X18_create_user_call Desk.client Sample.client
           (VStr s!"user@example.com") (VStr s!"Temp#1234")
           (VDict [ (s!"email", VStr s!"other@example.com") ]) Desk.start).
  - reflexivity.
  - reflexivity.
  - right. eexists. reflexivity.
Defined.

(** X19: the extra attributes are read outside any [try]: when they are
    true in a Python test but are not a [dict] (a list of pairs, say),
    [create_user] lets the raw [AttributeError] out, with the state as it
    was: the provider is not called. *)
Theorem X19_create_user_attributes_not_a_dict
    (client : Provider.t) (o : CognitoClient.t)
    (email password attributes : value) (s : dstate) :
  truthy email = true -> truthy password = true ->
  truthy attributes = true ->
  (forall d, attributes <> VDict d) ->
  Directory.create_user client o email password attributes s
  = (Raise (AttributeError attributes s!"items"), s).
Proof.
  intros He Hp Ha Hn. unfold Directory.create_user.
  rewrite He, Hp, Ha. cbn [negb orb].
  destruct attributes; try reflexivity. exfalso. now apply (Hn d).
Qed.

Lemma X19_create_user_attributes_not_a_dict_witness :
  Directory.create_user Desk.client Sample.client
    (VStr s!"user@example.com") (VStr s!"Temp#1234")
    (VList [ VStr s!"given_name" ]) Desk.start
  = (Raise (AttributeError (VList [ VStr s!"given_name" ]) s!"items"),
     Desk.start).
Proof.
  apply (X19_create_user_attributes_not_a_dict Desk.client Sample.client
           (VStr s!"user@example.com") (VStr s!"Temp#1234")
           (VList [ VStr s!"given_name" ]) Desk.start);
    try reflexivity.
  discriminate.
Defined.

(** ** The directory client: configuration and provider errors *)

(** X20: the client's configuration.  A pool identifier that is neither
    given nor in the environment is reported first, as a Validation error,
    whatever else is missing.  When the constructor succeeds, the pool and
    client identifiers are non-empty; each is the argument when that is a
    non-empty string and otherwise the environment's value; the region is
    the argument, or the environment's [AWS_REGION], or [us-east-1]; and
    the boto3 client was built for that region. *)
Theorem X20_client_configuration
    (env : Directory.environ) (boto3_client : Py.str -> result unit)
    (user_pool_id client_id region : option Py.str) :
  (Directory.is_set (or_else user_pool_id (env s!"COGNITO_USER_POOL_ID"))
   = false ->
   Directory.__init__ env boto3_client user_pool_id client_id region
   = Raise (error ValidationError s!"COGNITO_USER_POOL_ID is required"))
  /\ (forall o,
        Directory.__init__ env boto3_client user_pool_id client_id region
        = Return o ->
        CognitoClient.user_pool_id o <> []
        /\ CognitoClient.client_id o <> []
        /\ (Directory.is_set user_pool_id = true ->
            user_pool_id = Some (CognitoClient.user_pool_id o))
        /\ (Directory.is_set user_pool_id = false ->
            env s!"COGNITO_USER_POOL_ID"
            = Some (CognitoClient.user_pool_id o))
        /\ (Directory.is_set client_id = true ->
            client_id = Some (CognitoClient.client_id o))
        /\ (Directory.is_set client_id = false ->
            env s!"COGNITO_CLIENT_ID" = Some (CognitoClient.client_id o))
        /\ (Directory.is_set region = true ->
            region = Some (CognitoClient.region o))
        /\ (Directory.is_set region = false ->
            CognitoClient.region o
            = Directory.getenv_default env s!"AWS_REGION" s!"us-east-1")
        /\ boto3_client (CognitoClient.region o) = Return tt).
Proof.
  unfold Directory.__init__. split.
  - intros H. rewrite H. reflexivity.
  - intros o.
    set (rg := match region with
               | Some (c :: r) => c :: r
               | _ => Directory.getenv_default env s!"AWS_REGION"
                        s!"us-east-1"
               end).
    assert (Hrg : (Directory.is_set region = true -> region = Some rg)
                  /\ (Directory.is_set region = false ->
                      rg = Directory.getenv_default env s!"AWS_REGION"
                             s!"us-east-1")).
    { subst rg. destruct region as [[|c r]|]; cbn [Directory.is_set];
        split; intros; try discriminate; reflexivity. }
    clearbody rg.
    destruct user_pool_id as [[|a p]|];
      destruct (env s!"COGNITO_USER_POOL_ID") as [[|a' p']|];
      cbn [or_else Directory.is_set negb]; try discriminate;
      (destruct client_id as [[|b c]|];
       destruct (env s!"COGNITO_CLIENT_ID") as [[|b' c']|];
       cbn [or_else Directory.is_set negb]; try discriminate;
       (destruct (boto3_client rg) as [[]|e] eqn:Hb; [|discriminate];
        intros H; injection H as <-;
        cbn [CognitoClient.user_pool_id CognitoClient.client_id
             CognitoClient.region];
        repeat split; try discriminate; try tauto; auto)).
Qed.

Lemma handle_client_error_validation code message text context
    (s : st unit) :
  In code validation_codes ->
  CognitoClient._handle_client_error code message text context s
  = (Raise (CognitoError ValidationError
              (s!"リクエストが不正です: " ++ message) (Some code)
              (Some (ClientError code message text))),
     St (self s)
        (world s
         ++ [LogWarning (context ++ s!": " ++ code ++ s!" - " ++ message)])).
Proof.
  unfold validation_codes. cbn [In].
  intros [<- | [<- | [<- | [<- | []]]]];
    unfold CognitoClient._handle_client_error, bind, emit, raise;
    match goal with
    | |- context [if CognitoClient.str_in ?c ?l then _ else _] =>
      replace (CognitoClient.str_in c l) with false
        by (vm_compute; reflexivity)
    end;
    match goal with
    | |- context [if CognitoClient.str_in ?c ?l then _ else _] =>
      replace (CognitoClient.str_in c l) with false
        by (vm_compute; reflexivity)
    end;
    match goal with
    | |- context [if CognitoClient.str_in ?c ?l then _ else _] =>
      replace (CognitoClient.str_in c l) with true
        by (vm_compute; reflexivity)
    end;
    reflexivity.
Qed.

Lemma handle_client_error_authentication code message text context
    (s : st unit) :
  In code authentication_codes ->
  CognitoClient._handle_client_error code message text context s
  = (Raise (CognitoError AuthenticationError s!"認証に失敗しました"
              (Some code) (Some (ClientError code message text))),
     St (self s)
        (world s
         ++ [LogWarning (context ++ s!": " ++ code ++ s!" - " ++ message)])).
Proof.
  unfold authentication_codes. cbn [In].
  intros [<- | [<- | [<- | [<- | []]]]];
    unfold CognitoClient._handle_client_error, bind, emit, raise;
    match goal with
    | |- context [if CognitoClient.str_in ?c ?l then _ else _] =>
      replace (CognitoClient.str_in c l) with true
        by (vm_compute; reflexivity)
    end;
    reflexivity.
Qed.

(** X21: when the provider refuses the creation of a user with one of
    the four request-level codes ([UsernameExistsException] among them),
    [create_user] logs a warning with the provider's code and message and
    raises a Validation error that keeps the code and whose message ends
    with the provider's message; the error response built from it is a
    400 with that message. *)
Theorem X21_create_user_refused
    (client : Provider.t) (o : CognitoClient.t)
    (email password attributes : value) (s : dstate)
    (code message text : Py.str) :
  truthy email = true -> truthy password = true ->
  attributes = VNone \/ (exists d, attributes = VDict d) ->
  In code validation_codes ->
  client (self s)
    (Provider.AdminCreateUser (CognitoClient.user_pool_id o) email
       ([ Directory.attribute s!"email" email;
          Directory.attribute s!"email_verified" (VStr s!"true") ]
        ++ attribute_list (extra_attributes attributes))
       password s!"SUPPRESS")
  = Raise (ClientError code message text) ->
  fst (Directory.create_user client o email password attributes s)
  = Raise (CognitoError ValidationError
             (s!"リクエストが不正です: " ++ message) (Some code)
             (Some (ClientError code message text)))
  /\ world (snd (Directory.create_user client o email password attributes
                   s))
     = world s
       ++ [LogWarning (s!"Failed to create user" ++ s!": " ++ code
                       ++ s!" - " ++ message)]
  /\ create_auth_error_response
       (CognitoError ValidationError
          (s!"リクエストが不正です: " ++ message) (Some code)
          (Some (ClientError code message text))) None
     = [ (s!"statusCode", VInt 400); (s!"headers", cors_headers);
         (s!"body",
          VDict [ (s!"error", VStr s!"BadRequest");
                  (s!"message",
                   VStr (s!"リクエストが不正です: " ++ message)) ]) ].
Proof.
  intros He Hp Ha Hin Hc.
  assert (Hstep :
    (if truthy attributes
     then match attributes with
          | VDict d =>
            ret ([ Directory.attribute s!"email" email;
                   Directory.attribute s!"email_verified" (VStr s!"true") ]
                 ++ map (fun kv => Directory.attribute (fst kv) (snd kv)) d)
          | v => raise (AttributeError v s!"items")
          end
     else ret [ Directory.attribute s!"email" email;
                Directory.attribute s!"email_verified" (VStr s!"true") ]
     : M dstate (list value)) s
    = (Return ([ Directory.attribute s!"email" email;
                 Directory.attribute s!"email_verified" (VStr s!"true") ]
               ++ attribute_list (extra_attributes attributes)), s)).
  { destruct Ha as [-> | [d ->]]; [reflexivity|].
    destruct d; reflexivity. }
  assert (Hrun :
    Directory.create_user client o email password attributes s
    = (Raise (CognitoError ValidationError
                (s!"リクエストが不正です: " ++ message) (Some code)
                (Some (ClientError code message text))),
       St (self s
           ++ [ Provider.AdminCreateUser (CognitoClient.user_pool_id o)
                  email
                  ([ Directory.attribute s!"email" email;
                     Directory.attribute s!"email_verified"
                       (VStr s!"true") ]
                   ++ attribute_list (extra_attributes attributes))
                  password s!"SUPPRESS" ])
          (world s
           ++ [LogWarning (s!"Failed to create user" ++ s!": " ++ code
                           ++ s!" - " ++ message)]))).
  { unfold Directory.create_user. rewrite He, Hp. cbn [negb orb].
    unfold bind at 1. rewrite Hstep.
    unfold try_except, bind, invoke, lift. rewrite Hc.
    unfold Directory.handle, bind, with_object.
    rewrite (handle_client_error_validation code message text _ _ Hin).
    reflexivity. }
  rewrite Hrun. cbn [fst snd world]. split; [reflexivity|].
  split; reflexivity.
Qed.

Lemma X21_create_user_refused_witness :
  fst (Directory.create_user Desk.client Sample.client
         (VStr s!"user@example.com") (VStr s!"Temp#1234") VNone Desk.start)
  = Raise (CognitoError ValidationError
             (s!"リクエストが不正です: " ++ s!"User account already exists")
             (Some s!"UsernameExistsException")
             (Some (ClientError s!"UsernameExistsException"
                      s!"User account already exists"
                      s!"An error occurred (UsernameExistsException)")))
  /\ world (snd (Directory.create_user Desk.client Sample.client
                   (VStr s!"user@example.com") (VStr s!"Temp#1234") VNone
                   Desk.start))
     = world Desk.start
       ++ [LogWarning (s!"Failed to create user" ++ s!": "
                       ++ s!"UsernameExistsException" ++ s!" - "
                       ++ s!"User account already exists")]
  /\ create_auth_error_response
       (CognitoError ValidationError
          (s!"リクエストが不正です: " ++ s!"User account already exists")
          (Some s!"UsernameExistsException")
          (Some (ClientError s!"UsernameExistsException"
                   s!"User account already exists"
                   s!"An error occurred (UsernameExistsException)"))) None
     = [ (s!"statusCode", VInt 400); (s!"headers", cors_headers);
         (s!"body",
          VDict [ (s!"error", VStr s!"BadRequest");
                  (s!"message",
                   VStr (s!"リクエストが不正です: "
                         ++ s!"User account already exists")) ]) ].
Proof.
  apply (X21_create_user_refused Desk.client Sample.client
           (VStr s!"user@example.com") (VStr s!"Temp#1234") VNone
           Desk.start s!"UsernameExistsException"
           s!"User account already exists"
           s!"An error occurred (UsernameExistsException)").
  - reflexivity.
  - reflexivity.
  - left. reflexivity.
  - right. right. left. reflexivity.
  - reflexivity.
Defined.

(** X22: a login that the provider refuses with any of the four
    credential-level codes (unknown user, wrong password, unconfirmed
    user, password reset required) raises an Authentication error with one
    fixed message, and the error response built from it is the same
    whatever the code and the provider's message were: it does not tell an
    unknown user from a wrong password. *)
Theorem X22_login_refusals_look_alike
    (lib : library) (o : CognitoClient.t) (email password : value)
    (s : st unit) (code message text : Py.str) :
  truthy email = true -> truthy password = true ->
  In code authentication_codes ->
  initiate_auth lib (world s) (CognitoClient.client_id o) email password
  = Raise (ClientError code message text) ->
  fst (CognitoClient.authenticate lib o email password s)
  = Raise (CognitoError AuthenticationError s!"認証に失敗しました"
             (Some code) (Some (ClientError code message text)))
  /\ forall status_code,
       create_auth_error_response
         (CognitoError AuthenticationError s!"認証に失敗しました"
            (Some code) (Some (ClientError code message text))) status_code
       = create_auth_error_response
           (error AuthenticationError s!"認証に失敗しました") status_code.
Proof.
  intros He Hp Hin Hi. split.
  - unfold CognitoClient.authenticate. rewrite He, Hp. cbn [negb orb]. run.
    rewrite Hi.
    rewrite (handle_client_error_authentication code message text _ _ Hin).
    reflexivity.
  - intros status_code. unfold create_auth_error_response, error.
    cbn [isinstance_cognito category_eqb exn_str]. reflexivity.
Qed.

Lemma X22_login_refusals_look_alike_witness :
  fst (CognitoClient.authenticate More.lib_boom Sample.client
         (VStr s!"user@example.com") (VStr s!"wrong") (St tt []))
  = Raise (CognitoError AuthenticationError s!"認証に失敗しました"
             (Some s!"NotAuthorizedException")
             (Some (ClientError s!"NotAuthorizedException"
                      s!"Incorrect username or password."
                      s!"An error occurred (NotAuthorizedException)")))
  /\ forall status_code,
       create_auth_error_response
         (CognitoError AuthenticationError s!"認証に失敗しました"
            (Some s!"NotAuthorizedException")
            (Some (ClientError s!"NotAuthorizedException"
                     s!"Incorrect username or password."
                     s!"An error occurred (NotAuthorizedException)")))
         status_code
       = create_auth_error_response
           (error AuthenticationError s!"認証に失敗しました") status_code.
Proof.
  apply (X22_login_refusals_look_alike More.lib_boom Sample.client
           (VStr s!"user@example.com") (VStr s!"wrong") (St tt [])
           s!"NotAuthorizedException" s!"Incorrect username or password."
           s!"An error occurred (NotAuthorizedException)").
  - reflexivity.
  - reflexivity.
  - left. reflexivity.
  - reflexivity.
Defined.

(** X23: with a non-empty access token, [get_user_info] makes exactly
    one provider call and ends by returning a record or by raising one of
    the module's errors: an answer it cannot read (an attribute without
    name, say) is reported as such an error too, because the reading is
    inside the [try]. *)
Theorem X23_get_user_info_outcome
    (client : Provider.t) (access_token : value) (s : dstate) :
  truthy access_token = true ->
  self (snd (Directory.get_user_info client access_token s))
  = self s ++ [Provider.GetUser access_token]
  /\ ((exists v,
         fst (Directory.get_user_info client access_token s) = Return v
         /\ exists response,
              client (self s) (Provider.GetUser access_token)
              = Return response
              /\ Directory._normalize_user_response response = Return v)
      \/ (exists c m code orig,
            fst (Directory.get_user_info client access_token s)
            = Raise (CognitoError c m code orig))).
Proof.
  intros Ht. unfold Directory.get_user_info. rewrite Ht. cbn [negb].
  destruct (try_invoke_shape client (Provider.GetUser access_token)
              Directory._normalize_user_response
              s!"Failed to get user info"
              s!"Unexpected error getting user info: " s)
    as [r [s' [E [Hs Hr]]]].
  rewrite E. cbn [fst snd]. split; [exact Hs|].
  destruct r as [v|e].
  - left. exists v. split; [reflexivity | exact Hr].
  - right. destruct Hr as [c [m [code [orig ->]]]]. do 4 eexists.
    reflexivity.
Qed.

Lemma X23_get_user_info_outcome_witness :
  self (snd (Directory.get_user_info Desk.nameless (VStr s!"a.b.c")
               Desk.start))
  = self Desk.start ++ [Provider.GetUser (VStr s!"a.b.c")]
  /\ ((exists v,
         fst (Directory.get_user_info Desk.nameless (VStr s!"a.b.c")
                Desk.start) = Return v
         /\ exists response,
              Desk.nameless (self Desk.start)
                (Provider.GetUser (VStr s!"a.b.c")) = Return response
              /\ Directory._normalize_user_response response = Return v)
      \/ (exists c m code orig,
            fst (Directory.get_user_info Desk.nameless (VStr s!"a.b.c")
                   Desk.start)
            = Raise (CognitoError c m code orig))).
Proof.
  apply (X23_get_user_info_outcome Desk.nameless (VStr s!"a.b.c")
           Desk.start).
  reflexivity.
Defined.

(** X24: a cached key set that is not a JSON object (a non-empty list,
    say) stays in the cache, since it is true in a Python test: the key
    lookup then raises the raw [AttributeError] without fetching, and
    [validate_token] logs it and raises a Service error, on every call. *)
Theorem X24_cached_document_not_an_object
    (lib : library) (token : value) (s : st TokenValidator.t) (h : dict) :
  truthy (TokenValidator._jwks_cache (self s)) = true ->
  (forall d, TokenValidator._jwks_cache (self s) <> VDict d) ->
  truthy token = true ->
  jwt_get_unverified_header lib token = Return h ->
  truthy (dict_get h s!"kid") = true ->
  (forall kid,
     TokenValidator._get_public_key lib kid s
     = (Raise (AttributeError (TokenValidator._jwks_cache (self s))
                 s!"get"), s))
  /\ TokenValidator.validate_token lib token s
     = (Raise (error ServiceError
                 (s!"トークン検証中にエラーが発生しました: "
                  ++ exn_str (AttributeError
                                (TokenValidator._jwks_cache (self s))
                                s!"get"))),
        St (self s)
           (world s
            ++ [ GetUnverifiedHeader token;
                 LogError
                   (s!"Token validation error: "
                    ++ exn_str (AttributeError
                                  (TokenValidator._jwks_cache (self s))
                                  s!"get")) ])).
Proof.
  intros Hc Hn Ht Hh Hk.
  assert (Hg : forall kid s0,
            self s0 = self s ->
            TokenValidator._get_public_key lib kid s0
            = (Raise (AttributeError (TokenValidator._jwks_cache (self s))
                        s!"get"), s0)).
  { intros kid s0 Hs0. unfold TokenValidator._get_public_key. run.
    rewrite Hs0, Hc. run. rewrite Hs0.
    destruct (TokenValidator._jwks_cache (self s)) eqn:E;
      try reflexivity.
    exfalso. now apply (Hn d). }
  split.
  - intros kid. now apply Hg.
  - unfold TokenValidator.validate_token. rewrite Ht. cbn [negb]. run.
    rewrite Hh, Hk. cbn [negb]. rewrite Hg by reflexivity.
    cbn [fst snd self world isinstance_lib isinstance_cognito
         AttributeError subclass orb].
    rewrite <- app_assoc. reflexivity.
Qed.

Lemma X24_cached_document_not_an_object_witness :
  (forall kid,
     TokenValidator._get_public_key Sample.lib kid More.poisoned
     = (Raise (AttributeError
                 (TokenValidator._jwks_cache (self More.poisoned))
                 s!"get"), More.poisoned))
  /\ TokenValidator.validate_token Sample.lib (VStr s!"ok.jwt")
       More.poisoned
     = (Raise (error ServiceError
                 (s!"トークン検証中にエラーが発生しました: "
                  ++ exn_str (AttributeError
                                (TokenValidator._jwks_cache
                                   (self More.poisoned))
                                s!"get"))),
        St (self More.poisoned)
           (world More.poisoned
            ++ [ GetUnverifiedHeader (VStr s!"ok.jwt");
                 LogError
                   (s!"Token validation error: "
                    ++ exn_str (AttributeError
                                  (TokenValidator._jwks_cache
                                     (self More.poisoned))
                                  s!"get")) ])).
Proof.
  apply (X24_cached_document_not_an_object Sample.lib (VStr s!"ok.jwt")
           More.poisoned
           [ (s!"kid", VStr s!"k1"); (s!"alg", VStr s!"RS256") ]).
  - reflexivity.
  - discriminate.
  - reflexivity.
  - reflexivity.
  - reflexivity.
Defined.

(** ** A fetched document that is empty *)

(** X25: the cache guard of [_get_public_key] is a truth test.  When the
    endpoint answers a fetch with a document that is false in a Python
    test ([{}], [[]], [null], [0], [false] or the empty string), the
    document is stored, and the next lookup on the instance, if its fetch
    succeeds, fetches again and replaces it: two fetches after two
    lookups. *)
Theorem X25_empty_document_is_fetched_again
    (lib : library) (kid kid' : value) (s : st TokenValidator.t)
    (doc doc' : value) :
  truthy (TokenValidator._jwks_cache (self s)) = false ->
  fetch_succeeds lib s doc ->
  truthy doc = false ->
  fetch_succeeds lib (snd (TokenValidator._get_public_key lib kid s)) doc' ->
  TokenValidator._jwks_cache
    (self (snd (TokenValidator._get_public_key lib kid s))) = doc
  /\ fetches (world (snd (TokenValidator._get_public_key lib kid s)))
     = S (fetches (world s))
  /\ TokenValidator._jwks_cache
       (self (snd (TokenValidator._get_public_key lib kid'
                     (snd (TokenValidator._get_public_key lib kid s)))))
     = doc'
  /\ fetches (world (snd (TokenValidator._get_public_key lib kid'
                            (snd (TokenValidator._get_public_key lib kid
                                    s)))))
     = S (S (fetches (world s))).
Proof.
  intros Hc Hf Hd Hf'.
  destruct (get_public_key_fetched lib kid s doc Hc Hf) as [E1 E2].
  assert (Hc' : truthy (TokenValidator._jwks_cache
                          (self (snd (TokenValidator._get_public_key lib
                                        kid s)))) = false)
    by (rewrite E1; exact Hd).
  destruct (get_public_key_fetched lib kid' _ doc' Hc' Hf') as [E3 E4].
  split; [exact E1|]. split; [exact E2|]. split; [exact E3|].
  rewrite E4, E2. reflexivity.
Qed.

Lemma X25_empty_document_is_fetched_again_witness :
  TokenValidator._jwks_cache
    (self (snd (TokenValidator._get_public_key Sample.lib_empty_first
                  (VStr s!"k1") Sample.start))) = VDict []
  /\ fetches (world (snd (TokenValidator._get_public_key
                            Sample.lib_empty_first (VStr s!"k1")
                            Sample.start)))
     = S (fetches (world Sample.start))
  /\ TokenValidator._jwks_cache
       (self (snd (TokenValidator._get_public_key Sample.lib_empty_first
                     (VStr s!"k1")
                     (snd (TokenValidator._get_public_key
                             Sample.lib_empty_first (VStr s!"k1")
                             Sample.start)))))
     = Sample.jwks
  /\ fetches (world (snd (TokenValidator._get_public_key
                            Sample.lib_empty_first (VStr s!"k1")
                            (snd (TokenValidator._get_public_key
                                    Sample.lib_empty_first (VStr s!"k1")
                                    Sample.start)))))
     = S (S (fetches (world Sample.start))).
Proof.
  apply (X25_empty_document_is_fetched_again Sample.lib_empty_first
           (VStr s!"k1") (VStr s!"k1") Sample.start (VDict [])
           Sample.jwks).
  - reflexivity.
  - exists (Sample.ok_response (VDict [])). repeat split; reflexivity.
  - reflexivity.
  - exists (Sample.ok_response Sample.jwks).
    split; [vm_compute; reflexivity|]. split; reflexivity.
Defined.
